(** * A shallow embedding of the SSBtoolkit core (src/lib/ssbtoolkit.py)

    Numbers are modelled as exact rationals [Q]; a Python exception is an
    [Err] of the result monad below; a Python [dict] is an ordered
    association list with the insertion semantics of CPython's dict.
    Everything the module imports from outside this file (the pathway
    network modules, PySB's ODE simulator, numpy's [geomspace], [power] and
    [log10], scipy's [curve_fit] and Nelder-Mead [minimize], and
    [utils.LR_eq_conc]) is a field of the record [externals], so every
    theorem holds for every behaviour of those components; the errors
    numpy's [geomspace] raises on its arguments are written out in
    [np_geomspace]. *)

From Stdlib Require Import ZArith QArith Qround Qminmax Qabs List String Ascii Bool Lia Lqa DecimalString DecimalNat.
Import ListNotations.
Open Scope string_scope.

(** ** Python exceptions and the result monad *)

Inductive exn : Type :=
| TypeError (msg : string)
| AttributeError (attr : string)
| IndexError
| KeyError (key : string)
| ValueError
| PyException (msg : string).

Inductive result (A : Type) : Type :=
| Ok (a : A)
| Err (e : exn).
Arguments Ok {A} a.
Arguments Err {A} e.

Definition rbind {A B} (m : result A) (k : A -> result B) : result B :=
  match m with Ok a => k a | Err e => Err e end.

Notation "x <- m ;; k" := (rbind m (fun x => k))
  (at level 61, m at next level, right associativity).

Fixpoint mapM {A B} (f : A -> result B) (l : list A) : result (list B) :=
  match l with
  | [] => Ok []
  | a :: t => b <- f a ;; bs <- mapM f t ;; Ok (b :: bs)
  end.

(** ** Python dicts *)

Definition dict (V : Type) := list (string * V).

Fixpoint dict_get {V} (k : string) (d : dict V) : option V :=
  match d with
  | [] => None
  | (k', v) :: t => if String.eqb k k' then Some v else dict_get k t
  end.

(** [d[k] = v]: an existing key keeps its position, a new key goes last. *)
Fixpoint dict_set {V} (k : string) (v : V) (d : dict V) : dict V :=
  match d with
  | [] => [(k, v)]
  | (k', v') :: t => if String.eqb k k' then (k, v) :: t else (k', v') :: dict_set k v t
  end.

(** ** numpy reductions on a 1-D array *)

(** [np.amax] / [np.min] / [np.max]: a [ValueError] on an empty array. *)
Definition np_amax (l : list Q) : result Q :=
  match l with
  | [] => Err ValueError
  | x :: t => Ok (fold_left Qmax t x)
  end.

Definition np_amin (l : list Q) : result Q :=
  match l with
  | [] => Err ValueError
  | x :: t => Ok (fold_left Qmin t x)
  end.

(** sklearn's [minmax_scale] with the default [feature_range=(0, 1)]:
    [scale_ = 1 / _handle_zeros_in_scale(data_max - data_min)],
    [min_ = 0 - data_min * scale_], result [X * scale_ + min_]; a range below
    [10 * eps] (eps = 2^-52) counts as zero and is replaced by 1. *)
Definition float_eps : Q := 1 # (2 ^ 52).

Definition minmax_scale (X : list Q) : result (list Q) :=
  data_min <- np_amin X ;;
  data_max <- np_amax X ;;
  let data_range := data_max - data_min in
  let scale_ := if Qlt_le_dec data_range (10 * float_eps) then 1 else / data_range in
  let min_ := 0 - data_min * scale_ in
  Ok (map (fun x => x * scale_ + min_) X).

(** ** Python's [round(x, n)] *)

(** Round half to even, as Python rounds floats. *)
Definition round_half_even (q : Q) : Z :=
  let f := Qfloor q in
  let d := q - inject_Z f in
  match Qcompare d (1 # 2) with
  | Lt => f
  | Gt => f + 1
  | Eq => if Z.even f then f else f + 1
  end.

Definition py_round (q : Q) (n : nat) : Q :=
  let p := (10 ^ Pos.of_nat n)%positive in
  let p := if Nat.eqb n 0 then 1%positive else p in
  round_half_even (q * (Zpos p # 1)) # p.

(** ** The externals the module calls *)

(** How the network module is instantiated: [network(LR=.., kinetics=False,
    **parameters)] or [network(kinetics=True, **parameters)]. *)
Inductive network_input : Type :=
| NetEq (parameters : dict Q) (LR : Q)
| NetKin (parameters : dict Q).

(** The fitted model of a [curve_fit] call. Both [equation_dose]
    (activation/inhibition) and [sigmoid] (binding.maxbend) have the body
    [Bottom + (Top-Bottom)/(1+np.power((EC/X),p))]. *)
Inductive fit_model : Type := Logistic4.

(** The objective given to [minimize] in binding.maxbend. *)
Inductive objective : Type := SigmoidDerivB.

(** A bound of [curve_fit]'s [bounds] argument. *)
Inductive bound : Type := MinusInf | PlusInf | Bnd (q : Q).

Record fit_problem : Type := {
  fp_model : fit_model;
  fp_x : list Q;
  fp_y : list Q;
  fp_lower : list bound;
  fp_upper : list bound
}.

(** [popt = (Bottom, Top, EC, p)]. *)
Definition popt := (Q * Q * Q * Q)%type.

Record externals : Type := {
  (** [utils.LR_eq_conc(receptor, ligand, competitor, pKd, competitor_pKd)] *)
  LR_eq_conc : Q -> Q -> Q -> Q -> Q -> Q;
  (** [mypathway.list_of_observables] of the imported pathway module *)
  list_of_observables : string -> list string;
  (** [ScipyOdeSimulator(mypathway.network(..), tspan=t).run().all[name]] *)
  simulate : string -> network_input -> list Q -> string -> list Q;
  (** [pl.geomspace(start, stop, num)] on non-zero end points and a
      non-negative [num] (see [np_geomspace]) *)
  geomspace : Q -> Q -> Z -> list Q;
  (** [os.path.splitext(name)[0]] *)
  splitext_root : string -> string;
  (** [np.power] and [np.log10], [np.log] *)
  np_power : Q -> Q -> Q;
  np_log10 : Q -> Q;
  np_log : Q -> Q;
  (** [curve_fit(model, x, y, bounds=..)[0]]; a scipy exception is an [Err] *)
  curve_fit : fit_problem -> result popt;
  (** [minimize(obj, x0, args=popt, method='Nelder-Mead').x[0]] *)
  nelder_mead : objective -> Q -> popt -> result Q
}.

(** [equation_dose(X, Bottom, Top, EC50, p)] / [sigmoid(X, Bottom, Top, Kd, p)] *)
Definition eval_model (E : externals) (m : fit_model) (X : Q) (c : popt) : Q :=
  match m, c with
  | Logistic4, (Bottom, Top, EC, p) =>
      Bottom + (Top - Bottom) / (1 + np_power E (EC / X) p)
  end.

(** [np.geomspace(start, stop, num)] / [pl.geomspace]: numpy raises
    ValueError ('Geometric sequence cannot include zero') when an end point
    is 0, and ValueError when the number of samples is negative. *)
Definition np_geomspace (E : externals) (start stop : Q) (num : Z) : result (list Q) :=
  if Qeq_bool start 0 || Qeq_bool stop 0 then Err ValueError
  else if (num <? 0)%Z then Err ValueError
  else Ok (geomspace E start stop num).

(** [sigmoid_deriv_b(x, a, d, c, b)] *)
Definition eval_objective (E : externals) (o : objective) (x : Q) (c : popt) : Q :=
  match o, c with
  | SigmoidDerivB, (a, d, c0, b) =>
      np_power E (x / c0) b * (a - d) * np_log E (x / c0)
        / ((np_power E (x / c0) b + 1) * (np_power E (x / c0) b + 1))
  end.

(** ** simulation.activation / simulation.inhibition: Run *)

(** A value stored in a sweep entry [d1]: a number or an array. *)
Inductive value : Type :=
| VNum (q : Q)
| VArr (a : list Q).

(** [simulation_data[name] = {'sim_data': data, 'label': label}] *)
Record ligand_data : Type := {
  sim_data : list (dict value);
  label : string
}.

(** The attributes of a [simulation.activation] instance read by [Run];
    [None] is Python's [None]. [act_PathwayParameters] is the parameter
    table [Run] derives from the pathway's CSV file (or its override). *)
Record activation_state : Type := {
  act_ligands : option (list string);
  act_affinities : option (list Q);
  act_pathway : option string;
  act_receptor_conc : option Q;
  act_lig_conc_range : option (list Q);
  act_ttotal : option Q;
  act_nsteps : option Z;
  act_binding_kinetics : bool;
  act_PathwayParameters : dict Q
}.

(** numpy's [array.any()]: some element is non-zero. *)
Definition np_any (l : list Q) : bool :=
  existsb (fun x => negb (Qeq_bool x 0)) l.

(** The [#Check inputs] block of [activation.Run]: an if/elif chain. *)
Definition activation_check_inputs (s : activation_state) : result unit :=
  match act_ligands s with
  | None => Err (TypeError "ligands list undefined.")
  | Some _ =>
  match act_pathway s with
  | None => Err (TypeError "pathway name undefined.")
  | Some _ =>
  if negb (act_binding_kinetics s) && match act_affinities s with None => true | _ => false end
  then Err (TypeError "affinity_values_dict undefined.")
  else if act_binding_kinetics s && match act_affinities s with None => true | _ => false end
  then Ok tt
  else match act_lig_conc_range s with
  | None => Err (AttributeError "any")
  | Some r =>
  if negb (np_any r) then Err (TypeError "lig_conc_range undefined.")
  else match act_ttotal s with
  | None => Err (TypeError "ttotal undefined.")
  | Some _ =>
  match act_nsteps s with
  | None => Err (TypeError "nsteps undefined.")
  | Some _ =>
  match act_receptor_conc s with
  | None => Err (TypeError "receptor_conc undefined.")
  | Some _ => Ok tt
  end end end end end end.

(** [#Check Pathway availability]: ['Gz(Gi)'] is renamed to ['Gi']. *)
Definition check_pathway (p : string) : result string :=
  let p := if String.eqb p "Gz(Gi)" then "Gi" else p in
  if existsb (String.eqb p) ["Gs"; "Gi"; "Gq"] then Ok p
  else Err (PyException "Unvailable Pathway.").

(** A value Python would pass on as [None] to numpy or to the simulator,
    which fails on it. *)
Definition need {A} (o : option A) : result A :=
  match o with Some a => Ok a | None => Err (TypeError "NoneType") end.

(** [list.index(x)]: the first position, a [ValueError] when absent. *)
Fixpoint list_index (x : string) (l : list string) : result nat :=
  match l with
  | [] => Err ValueError
  | y :: t => if String.eqb x y then Ok 0%nat else (i <- list_index x t ;; Ok (S i))
  end.

Definition nth_err {A} (l : list A) (i : nat) : result A :=
  match nth_error l i with Some a => Ok a | None => Err IndexError end.

(** [d1={'ligand_conc':ligand_conc, 'time':t}] followed by
    [d1.update({obs: yout[obs]})] for every name of [list_of_observables]. *)
Definition sweep_entry (ligand_conc : Q) (t : list Q) (observables : list string)
    (yout : string -> list Q) : dict value :=
  fold_left (fun d1 o => dict_set o (VArr (yout o)) d1) observables
    [("ligand_conc", VNum ligand_conc); ("time", VArr t)].

Section Run.
Variable E : externals.

(** One point [idx] of the concentration loop of [activation.Run]. *)
Definition activation_point (s : activation_state) (pathway : string) (t : list Q)
    (ligands : list string) (ligand : string) (ligand_conc : Q) : result (dict value) :=
  R <- need (act_receptor_conc s) ;;
  yout <-
    (if negb (act_binding_kinetics s) then
       let parameters := dict_set "R_init" R (act_PathwayParameters s) in
       i <- list_index ligand ligands ;;
       affs <- need (act_affinities s) ;;
       pKd <- nth_err affs i ;;
       let LR_conc_init := LR_eq_conc E R ligand_conc 0 pKd 0 in
       Ok (simulate E pathway (NetEq parameters LR_conc_init) t)
     else
       let parameters := dict_set "L_init" ligand_conc
                           (dict_set "R_init" R (act_PathwayParameters s)) in
       Ok (simulate E pathway (NetKin parameters) t)) ;;
  Ok (sweep_entry ligand_conc t (list_of_observables E pathway) yout).

(** [activation.Run]: the returned dict is [self.simulation_data]. *)
Definition activation_Run (s : activation_state) : result (dict ligand_data) :=
  _ <- activation_check_inputs s ;;
  p <- need (act_pathway s) ;;
  pathway <- check_pathway p ;;
  ttotal <- need (act_ttotal s) ;;
  nsteps <- need (act_nsteps s) ;;
  t <- np_geomspace E (1 # 100000) ttotal nsteps ;;
  ligands <- need (act_ligands s) ;;
  range <- need (act_lig_conc_range s) ;;
  fold_left
    (fun acc ligand =>
       simulation_data <- acc ;;
       let ligand_name := splitext_root E ligand in
       data <- mapM (activation_point s pathway t ligands ligand) range ;;
       Ok (dict_set ligand_name {| sim_data := data; label := ligand_name |}
             simulation_data))
    ligands (Ok []).

End Run.

(** The attributes of a [simulation.inhibition] instance read by [Run]. *)
Record inhibition_state : Type := {
  inh_agonist : option string;
  inh_agonist_affinity : option Q;
  inh_agonist_submaximal_conc : option Q;
  inh_antagonists : option (list string);
  inh_antagonists_affinities : option (list Q);
  inh_pathway : option string;
  inh_receptor_conc : option Q;
  inh_lig_conc_range : option (list Q);
  inh_ttotal : option Q;
  inh_nsteps : option Z;
  inh_binding_kinetics : bool;
  inh_PathwayParameters : dict Q
}.

Definition is_none {A} (o : option A) : bool :=
  match o with None => true | Some _ => false end.

(** The [#Check inputs] block of [inhibition.Run]. *)
Definition inhibition_check_inputs (s : inhibition_state) : result unit :=
  if is_none (inh_agonist s) then Err (TypeError "agonist undefined.")
  else if is_none (inh_agonist_affinity s) then Err (TypeError "agonist_affinity undifined.")
  else if is_none (inh_antagonists s) then Err (TypeError "antagonists list undefined.")
  else if is_none (inh_antagonists_affinities s)
  then Err (TypeError "antagonists affinity values undefined.")
  else if is_none (inh_pathway s) then Err (TypeError "pathway undefined.")
  else match inh_lig_conc_range s with
  | None => Err (AttributeError "any")
  | Some r =>
  if negb (np_any r) then Err (TypeError "lig_conc_range undefined.")
  else if is_none (inh_agonist_submaximal_conc s)
  then Err (TypeError "agonist_submaximal_conc undifined.")
  else if is_none (inh_ttotal s) then Err (TypeError "ttotal undefined.")
  else if is_none (inh_nsteps s) then Err (TypeError "nsteps undefined.")
  else if is_none (inh_receptor_conc s) then Err (TypeError "receptor_conc undefined.")
  else if inh_binding_kinetics s
  then Err (TypeError "The of Kinetic parameters during an inhibition simulation it is not supported yet.")
  else Ok tt
  end.

Section RunInhibition.
Variable E : externals.

(** One point of the concentration loop of [inhibition.Run]. *)
Definition inhibition_point (s : inhibition_state) (pathway : string) (t : list Q)
    (antagonists : list string) (ligand : string) (ligand_conc : Q) : result (dict value) :=
  R <- need (inh_receptor_conc s) ;;
  let parameters := dict_set "R_init" R (inh_PathwayParameters s) in
  submax <- need (inh_agonist_submaximal_conc s) ;;
  aff <- need (inh_agonist_affinity s) ;;
  i <- list_index ligand antagonists ;;
  affs <- need (inh_antagonists_affinities s) ;;
  pKi <- nth_err affs i ;;
  let LR_conc_init := LR_eq_conc E R submax ligand_conc aff pKi in
  let yout := simulate E pathway (NetEq parameters LR_conc_init) t in
  Ok (sweep_entry ligand_conc t (list_of_observables E pathway) yout).

(** [inhibition.Run]: the returned dict is [self.simulation_data]. *)
Definition inhibition_Run (s : inhibition_state) : result (dict ligand_data) :=
  _ <- inhibition_check_inputs s ;;
  p <- need (inh_pathway s) ;;
  pathway <- check_pathway p ;;
  ttotal <- need (inh_ttotal s) ;;
  nsteps <- need (inh_nsteps s) ;;
  t <- np_geomspace E (1 # 100000) ttotal nsteps ;;
  agonist <- need (inh_agonist s) ;;
  antagonists <- need (inh_antagonists s) ;;
  range <- need (inh_lig_conc_range s) ;;
  fold_left
    (fun acc ligand =>
       simulation_data <- acc ;;
       let ligand_name := splitext_root E ligand in
       data <- mapM (inhibition_point s pathway t antagonists ligand) range ;;
       Ok (dict_set ligand_name
             {| sim_data := data; label := agonist ++ " + " ++ ligand_name |}
             simulation_data))
    antagonists (Ok []).

End RunInhibition.

(** ** simulation.activation / simulation.inhibition: Analysis *)

(** The per-pathway branch of [Analysis]: the metabolite whose observable is
    read, and whether [minmax_scale] is applied to [1 - raw] (['Gi'],
    ['Gz(Gi)']) or to [raw]. Any other pathway raises. *)
Definition readout (pathway : string) : result (string * bool) :=
  if String.eqb pathway "Gi" || String.eqb pathway "Gz(Gi)" then Ok ("cAMP", true)
  else if String.eqb pathway "Gs" then Ok ("cAMP", false)
  else if String.eqb pathway "Gq" then Ok ("IP3", false)
  else Err (PyException "Unvailable Pathway.").

(** [np.amax(self.simulation_data[ligand]['sim_data'][i]['obs_'+metabolite])] *)
Definition raw_point (sd : list (dict value)) (metabolite : string) (i : nat) : result Q :=
  entry <- nth_err sd i ;;
  let key := "obs_" ++ metabolite in
  v <- match dict_get key entry with Some v => Ok v | None => Err (KeyError key) end ;;
  match v with
  | VNum q => Ok q
  | VArr a => np_amax a
  end.

(** [metabolite_conc_raw] and [metabolite_conc_norm] of one ligand, for a
    concentration range of length [N]. *)
Definition normalize (pathway : string) (N : nat) (sd : list (dict value))
    : result (list Q * list Q) :=
  rbind (readout pathway) (fun '(metabolite, inverse) =>
  metabolite_conc_raw <- mapM (raw_point sd metabolite) (seq 0 N) ;;
  metabolite_conc_norm <-
    minmax_scale (if inverse then map (fun n => 1 - n) metabolite_conc_raw
                  else metabolite_conc_raw) ;;
  Ok (metabolite_conc_raw, metabolite_conc_norm)).

(** The [curve_fit] call: [bounds=([np.min(y),-np.inf,-np.inf, 0.5],
    [np.inf,np.max(y),np.inf, 2.5])]. *)
Definition logistic_problem (x y : list Q) : result fit_problem :=
  ymin <- np_amin y ;;
  ymax <- np_amax y ;;
  Ok {| fp_model := Logistic4; fp_x := x; fp_y := y;
        fp_lower := [Bnd ymin; MinusInf; MinusInf; Bnd (1 # 2)];
        fp_upper := [PlusInf; Bnd ymax; PlusInf; Bnd (5 # 2)] |}.

(** [dose[ligand]]: raw, normalized and fitted data, the potency
    ([round(popt[2],5)]) and its negative log ([round(-np.log10(popt[2]*1E-6),2)]). *)
Record dose_entry : Type := {
  raw_x : list Q;
  raw_y : list Q;
  normalized_x : list Q;
  normalized_y : list Q;
  dose_label : string;
  fitted_x : list Q;
  fitted_y : list Q;
  potency : Q;
  pPotency : Q
}.

Definition popt_EC (c : popt) : Q := let '(_, _, EC, _) := c in EC.

Section Analysis.
Variable E : externals.

(** The body of the [for ligand in self.simulation_data] loop. *)
Definition analysis_ligand (pathway : string) (range : list Q) (lig_conc_min lig_conc_max : Q)
    (ld : ligand_data) : result dose_entry :=
  rbind (normalize pathway (List.length range) (sim_data ld)) (fun '(raw, norm) =>
  problem <- logistic_problem range norm ;;
  p <- curve_fit E problem ;;
  xfit <- np_geomspace E lig_conc_min lig_conc_max 50000 ;;
  let yfit := map (fun X => eval_model E Logistic4 X p) xfit in
  Ok {| raw_x := range; raw_y := raw;
        normalized_x := range; normalized_y := norm;
        dose_label := label ld;
        fitted_x := xfit; fitted_y := yfit;
        potency := py_round (popt_EC p) 5;
        pPotency := py_round (- np_log10 E (popt_EC p * (1 # 1000000))) 2 |}).

(** [Analysis]; [msg] is the message raised when [Run] has not been called.
    The returned dict is [self.processed_data]. *)
Definition analysis (msg : string) (simulation_data : option (dict ligand_data))
    (pathway : string) (lig_conc_range : option (list Q)) : result (dict dose_entry) :=
  simdata <- match simulation_data with None => Err (TypeError msg) | Some d => Ok d end ;;
  range <- match lig_conc_range with
           | None => Err (AttributeError "min") | Some r => Ok r end ;;
  lig_conc_min <- np_amin range ;;
  lig_conc_max <- np_amax range ;;
  fold_left
    (fun acc (item : string * ligand_data) =>
       dose <- acc ;;
       let ligand := fst item in
       d <- analysis_ligand pathway range lig_conc_min lig_conc_max (snd item) ;;
       Ok (dict_set ligand d dose))
    simdata (Ok []).

Definition activation_Analysis :=
  analysis "There is no simulation data. simulation.activation.run() must be run first.".

Definition inhibition_Analysis :=
  analysis "There is no simulation data. simulation.inhibition.run() must be run first.".

End Analysis.

(** ** binding *)

Section Binding.
Variable E : externals.

(** [binding.bind]: the list stored in [self.binding_data]. *)
Definition bind (receptor_conc : Q) (lig_conc_range : list Q) (pKd : Q) : list Q :=
  map (fun conc => LR_eq_conc E receptor_conc conc 0 pKd 0) lig_conc_range.

(** [binding.maxbend]; [binding_data] is [None] when [bind] was never run
    (the attribute does not exist). *)
Definition maxbend (lig_conc_range : list Q) (binding_data : option (list Q)) : result Q :=
  mn <- np_amin lig_conc_range ;;
  mx <- np_amax lig_conc_range ;;
  xfit <- np_geomspace E mn mx 50000 ;;
  data <- match binding_data with
          | None => Err (AttributeError "binding_data") | Some d => Ok d end ;;
  problem <- logistic_problem lig_conc_range data ;;
  p <- curve_fit E problem ;;
  x0 <- np_amax xfit ;;
  min_value_x <- nelder_mead E SigmoidDerivB x0 p ;;
  Ok (py_round min_value_x 3).

End Binding.

(** ** simulation.fitModel *)

(** A Python value held by an attribute or passed as a keyword argument. *)
Inductive pyval : Type :=
| PNone
| PFloat (q : Q)
| PInt (z : Z)
| PStr (s : string).

(** A numpy float64: finite, infinite, or NaN. *)
Inductive fval : Type :=
| FNum (q : Q)
| FPosInf
| FNegInf
| FNaN.

Definition qltb (a b : Q) : bool := negb (Qle_bool b a).

(** *** Reading numbers from strings (ASCII text) *)

(** The white space [int()] and [float()] strip from an ASCII string:
    tab, line feed, vertical tab, form feed, carriage return and space
    (CPython's [Py_ISSPACE]; the separators [\x1c]-[\x1f] are not
    stripped). *)
Definition is_py_space (c : ascii) : bool :=
  let n := nat_of_ascii c in
  (Nat.leb 9 n && Nat.leb n 13) || Nat.eqb n 32.

Fixpoint drop_space (l : list ascii) : list ascii :=
  match l with
  | c :: t => if is_py_space c then drop_space t else l
  | [] => []
  end.

Definition digit_val (c : ascii) : option Z :=
  let n := nat_of_ascii c in
  if Nat.leb 48 n && Nat.leb n 57 then Some (Z.of_nat (n - 48)) else None.

(** The digits after the first one: a single [_] may separate two digits. *)
Fixpoint digits_from (acc : Z) (l : list ascii) : option Z :=
  match l with
  | [] => Some acc
  | c :: t =>
      match digit_val c with
      | Some d => digits_from (acc * 10 + d) t
      | None =>
          if Ascii.eqb c "_"%char then
            match t with
            | c' :: t' =>
                match digit_val c' with
                | Some d => digits_from (acc * 10 + d) t'
                | None => None
                end
            | [] => None
            end
          else None
      end
  end.

Definition int_digits (l : list ascii) : option Z :=
  match l with
  | c :: t => match digit_val c with Some d => digits_from d t | None => None end
  | [] => None
  end.

(** [int(s)] for a string [s]: surrounding white space, an optional sign,
    then decimal digits; anything else is a [ValueError]. *)
Definition py_int_of_str (s : string) : result Z :=
  let l := rev (drop_space (rev (drop_space (list_ascii_of_string s)))) in
  let r := match l with
           | c :: t =>
               if Ascii.eqb c "-"%char then option_map Z.opp (int_digits t)
               else if Ascii.eqb c "+"%char then int_digits t
               else int_digits l
           | [] => None
           end in
  match r with Some z => Ok z | None => Err ValueError end.

(** A [digitpart] of a float literal read from the front of [l]: digits,
    a single [_] between two of them; the value, the number of digits and
    what follows. *)
Fixpoint digitpart_rest (acc : Z) (n : nat) (l : list ascii) : Z * nat * list ascii :=
  match l with
  | c :: t =>
      match digit_val c with
      | Some d => digitpart_rest (acc * 10 + d) (S n) t
      | None =>
          if Ascii.eqb c "_"%char then
            match t with
            | c' :: t' =>
                match digit_val c' with
                | Some d => digitpart_rest (acc * 10 + d) (S n) t'
                | None => (acc, n, l)
                end
            | [] => (acc, n, l)
            end
          else (acc, n, l)
      end
  | [] => (acc, n, [])
  end.

Definition digitpart (l : list ascii) : option (Z * nat * list ascii) :=
  match l with
  | c :: t => match digit_val c with Some d => Some (digitpart_rest d 1 t) | None => None end
  | [] => None
  end.

Definition frac_value (ip fp : Z) (k : nat) : Q := inject_Z ip + (fp # Z.to_pos (10 ^ Z.of_nat k)).

(** [number ::= [digitpart] "." digitpart | digitpart ["."]] *)
Definition float_number (l : list ascii) : option (Q * list ascii) :=
  match digitpart l with
  | Some (ip, _, r) =>
      match r with
      | c :: t =>
          if Ascii.eqb c "."%char then
            match digitpart t with
            | Some (fp, k, r') => Some (frac_value ip fp k, r')
            | None => Some (inject_Z ip, t)
            end
          else Some (inject_Z ip, r)
      | [] => Some (inject_Z ip, [])
      end
  | None =>
      match l with
      | c :: t =>
          if Ascii.eqb c "."%char then
            match digitpart t with
            | Some (fp, k, r') => Some (frac_value 0 fp k, r')
            | None => None
            end
          else None
      | [] => None
      end
  end.

(** [exponent ::= ("e" | "E") ["+" | "-"] digitpart], then the end of the
    literal; no exponent is 0. *)
Definition float_exponent (l : list ascii) : option Z :=
  match l with
  | [] => Some 0%Z
  | c :: t =>
      if Ascii.eqb c "e"%char || Ascii.eqb c "E"%char then
        let '(sg, t') := match t with
                         | s :: t' => if Ascii.eqb s "-"%char then (-1, t')%Z
                                      else if Ascii.eqb s "+"%char then (1, t')%Z
                                      else (1%Z, t)
                         | [] => (1%Z, t)
                         end in
        match digitpart t' with
        | Some (e, _, []) => Some (sg * e)%Z
        | _ => None
        end
      else None
  end.

Definition scale10 (q : Q) (e : Z) : Q :=
  if (0 <=? e)%Z then q * inject_Z (10 ^ e) else q / inject_Z (10 ^ (- e)).

(** [float(s)] for a string [s] spelling a finite number: surrounding white
    space, an optional sign, then a decimal literal with an optional
    exponent; anything else is a [ValueError]. The spellings of infinity
    and NaN have no rational value and lie outside this model: they are
    refused too. *)
Definition py_float_of_str (s : string) : result Q :=
  let l := rev (drop_space (rev (drop_space (list_ascii_of_string s)))) in
  let '(sg, body) := match l with
                     | c :: t => if Ascii.eqb c "-"%char then (-1, t)
                                 else if Ascii.eqb c "+"%char then (1, t) else (1, l)
                     | [] => (1, l)
                     end in
  match float_number body with
  | Some (m, r) =>
      match float_exponent r with
      | Some e => Ok (sg * scale10 m e)
      | None => Err ValueError
      end
  | None => Err ValueError
  end.

(** [float(v)] *)
Definition py_float (v : pyval) : result Q :=
  match v with
  | PFloat q => Ok q
  | PInt z => Ok (inject_Z z)
  | PNone => Err (TypeError "float() argument must be a string or a number")
  | PStr s => py_float_of_str s
  end.

(** [int(v)]: truncation toward zero for a float; a string is read as
    [py_int_of_str] reads it. *)
Definition py_int (v : pyval) : result Z :=
  match v with
  | PFloat q => Ok (Z.quot (Qnum q) (Zpos (Qden q)))
  | PInt z => Ok z
  | PNone => Err (TypeError "int() argument must be a string or a number")
  | PStr s => py_int_of_str s
  end.

(** [kwargs.pop(k, default)] *)
Definition py_pop (k : string) (default : pyval) (kwargs : dict pyval) : pyval :=
  match dict_get k kwargs with Some v => v | None => default end.

(** *** [abs(decimal.Decimal(str(x).rstrip('0')).as_tuple().exponent)] *)

(** [(c, r)] with [n = f^c * r] and [f] not dividing [r]. *)
Fixpoint factor_out (f n : Z) (fuel : nat) : nat * Z :=
  match fuel with
  | O => (O, n)
  | S fuel' =>
      if Z.eqb (Z.rem n f) 0 && Z.ltb 1 (Z.abs n) then
        let '(c, r) := factor_out f (Z.quot n f) fuel' in (S c, r)
      else (O, n)
  end.

Definition fuel_of (n : Z) : nat := S (Z.to_nat (Z.log2 (Z.abs n))).

(** Number of decimal digits of a positive integer. *)
Fixpoint ndigits_fuel (n : Z) (fuel : nat) : nat :=
  match fuel with
  | O => O
  | S fuel' => if Z.ltb n 10 then 1%nat else S (ndigits_fuel (n / 10) fuel')
  end.

Definition ndigits (n : Z) : nat := ndigits_fuel n (fuel_of n).

(** [Some k] with [k] the least number of decimals of [q], when [q] is a
    finite decimal (every float is). *)
Definition decimal_places (q : Q) : option nat :=
  let d := Zpos (Qden (Qred q)) in
  let '(a, r1) := factor_out 2 d (fuel_of d) in
  let '(b, r2) := factor_out 5 r1 (fuel_of d) in
  if Z.eqb r2 1 then Some (Nat.max a b) else None.

(** Trailing zeros removed from a decimal exponent ["e-10"] -> ["e-1"]. *)
Definition strip_zeros (n : nat) : nat :=
  Z.to_nat (snd (factor_out 10 (Z.of_nat n) (fuel_of (Z.of_nat n)))).

(** [str(x)] prints [x] positionally when [1e-4 <= |x| < 1e16] (or [x = 0])
    and in exponent notation [d.ddde-XX] / [d.ddde+XX] otherwise;
    [rstrip('0')] then drops the trailing zeros of the fraction, or of the
    exponent. [q] is read as the decimal value [str] prints. *)
Definition str_precision (q : Q) : nat :=
  match decimal_places q with
  | None => 17%nat
  | Some k =>
      let m := Z.abs (Qnum (Qred (q * inject_Z (Z.pow 10 (Z.of_nat k))))) in
      if Qeq_bool q 0 then k
      else if Qle_bool (1 # 10000) (Qabs q) && qltb (Qabs q) (inject_Z (Z.pow 10 16)) then k
      else if qltb (Qabs q) (1 # 10000) then
        let n := ndigits m in
        (strip_zeros (k - (n - 1)) + (n - 1))%nat
      else
        let '(z, m') := factor_out 10 m (fuel_of m) in
        let n' := ndigits m' in
        let e := Z.of_nat (strip_zeros (z + n' - 1)) in
        Z.to_nat (Z.abs (Z.sub e (Z.of_nat (n' - 1))))
  end.

(** *** [scipy.signal.find_peaks] (its [_local_maxima_1d]) *)

Definition qnth (x : list Q) (i : nat) : Q := nth i x 0.

Fixpoint plateau_end (x : list Q) (xi : Q) (i_ahead i_max : nat) (fuel : nat) : nat :=
  match fuel with
  | O => i_ahead
  | S fuel' =>
      if Nat.ltb i_ahead i_max && Qeq_bool (qnth x i_ahead) xi
      then plateau_end x xi (S i_ahead) i_max fuel'
      else i_ahead
  end.

Fixpoint peaks_from (x : list Q) (i i_max : nat) (fuel : nat) : list nat :=
  match fuel with
  | O => []
  | S fuel' =>
      if Nat.ltb i i_max then
        if qltb (qnth x (i - 1)) (qnth x i) then
          let i_ahead := plateau_end x (qnth x i) (S i) i_max (List.length x) in
          if qltb (qnth x i_ahead) (qnth x i)
          then Nat.div (i + (i_ahead - 1)) 2 :: peaks_from x (S i_ahead) i_max fuel'
          else peaks_from x (S i) i_max fuel'
        else peaks_from x (S i) i_max fuel'
      else []
  end.

(** The midpoints of the local maxima (plateaus included) of [x]. *)
Definition find_peaks (x : list Q) : list nat :=
  peaks_from x 1 (List.length x - 1) (List.length x).

(** *** The search of [fitModel.Run] *)

(** [vmax2 / vmax1] in float64: a zero divisor gives [inf], [-inf] or [nan]. *)
Definition fdiv (a b : Q) : fval :=
  if Qeq_bool b 0 then
    if qltb 0 a then FPosInf else if qltb a 0 then FNegInf else FNaN
  else FNum (a / b).

Definition fround (r : fval) (n : nat) : fval :=
  match r with FNum q => FNum (py_round q n) | other => other end.

(** [obs_ratio == expratio] and [obs_ratio < expratio] *)
Definition feq (r : fval) (e : Q) : bool :=
  match r with FNum q => Qeq_bool q e | _ => false end.

Definition flt (r : fval) (e : Q) : bool :=
  match r with FNum q => qltb q e | FNegInf => true | _ => false end.

(** The attributes of a [fitModel] instance that [Run] reads or writes.
    [fm_seed_decrementor] is [None] while the attribute does not exist:
    [__init__] never creates it. *)
Record fitModel_state : Type := {
  fm_expratio : pyval;
  fm_seed : pyval;
  fm_maxiter : pyval;
  fm_seed_incrementor : pyval;
  fm_seed_decrementor : option pyval;
  fm_target_parameter : pyval;
  fm_ttotal : pyval;
  fm_iteration : Z;
  fm_lst_ratio : list fval;
  fm_lst_seed : list Q;
  fm_fold : pyval
}.

(** [fitModel.__init__] *)
Definition fitModel_init : fitModel_state :=
  {| fm_expratio := PNone; fm_seed := PNone; fm_maxiter := PNone;
     fm_seed_incrementor := PNone; fm_seed_decrementor := None;
     fm_target_parameter := PNone; fm_ttotal := PNone;
     fm_iteration := 0; fm_lst_ratio := []; fm_lst_seed := []; fm_fold := PNone |}.

(** [fitModel.SetSimulationParameters(ttotal=.., ..)]: the attribute read by [Run]. *)
Definition with_ttotal (st : fitModel_state) (v : pyval) : fitModel_state :=
  {| fm_expratio := fm_expratio st; fm_seed := fm_seed st; fm_maxiter := fm_maxiter st;
     fm_seed_incrementor := fm_seed_incrementor st;
     fm_seed_decrementor := fm_seed_decrementor st;
     fm_target_parameter := fm_target_parameter st; fm_ttotal := v;
     fm_iteration := fm_iteration st; fm_lst_ratio := fm_lst_ratio st;
     fm_lst_seed := fm_lst_seed st; fm_fold := fm_fold st |}.

(** The keyword-argument block of [Run]. *)
Definition with_args (st : fitModel_state) (expratio seed maxiter inc : pyval)
    (dec : option pyval) (target : pyval) : fitModel_state :=
  {| fm_expratio := expratio; fm_seed := seed; fm_maxiter := maxiter;
     fm_seed_incrementor := inc; fm_seed_decrementor := dec;
     fm_target_parameter := target; fm_ttotal := fm_ttotal st;
     fm_iteration := fm_iteration st; fm_lst_ratio := fm_lst_ratio st;
     fm_lst_seed := fm_lst_seed st; fm_fold := fm_fold st |}.

(** The search variables: [_seed], [_iteration], [_lst_ratio], [_lst_seed], [_fold]. *)
Definition with_search (st : fitModel_state) (seed : Q) (iteration : Z)
    (lst_ratio : list fval) (lst_seed : list Q) (fold : pyval) : fitModel_state :=
  {| fm_expratio := fm_expratio st; fm_seed := PFloat seed; fm_maxiter := fm_maxiter st;
     fm_seed_incrementor := fm_seed_incrementor st;
     fm_seed_decrementor := fm_seed_decrementor st;
     fm_target_parameter := fm_target_parameter st; fm_ttotal := fm_ttotal st;
     fm_iteration := iteration; fm_lst_ratio := lst_ratio;
     fm_lst_seed := lst_seed; fm_fold := fold |}.

(** What the two simulations of [Run] produce: the time grid [self.simtime],
    the observable of simulation 1 ([self.simres1[obs_name]]), the observable
    of simulation 2 as a function of the value given to the target
    parameter, [mypathway.defaultParameters[target]] and the ['time_in']
    parameter. *)
Record fit_externals : Type := {
  simtime : list Q;
  obs_1 : list Q;
  obs_2 : Q -> list Q;
  default_target : option Q;
  time_in : option Q
}.

Section FitModel.
Variable FX : fit_externals.

(** [np.take(obs, np.where(self.simtime > th))[0]] *)
Definition select_after (th : Q) (obs : list Q) : list Q :=
  map snd (filter (fun '(t, _) => qltb th t) (combine (simtime FX) obs)).

(** [obs_curve[obs_peaks][-1]*1E3] *)
Definition last_peak (c : list Q) : result Q :=
  match rev (find_peaks c) with
  | [] => Err IndexError
  | i :: _ => Ok (qnth c i * 1000)
  end.

(** [calc_ratio]: the ratio of the last peaks, rounded to [prec] decimals. *)
Definition calc_ratio (prec : nat) (target_value : Q) : result fval :=
  let th := match time_in FX with
            | Some v => inject_Z (Z.quot (Qnum v) (Zpos (Qden v))) | None => 0 end in
  let obs_curve_1 := select_after th (obs_1 FX) in
  let obs_curve_2 := select_after th (obs_2 FX target_value) in
  vmax_obs_curve_1 <- last_peak obs_curve_1 ;;
  vmax_obs_curve_2 <- last_peak obs_curve_2 ;;
  Ok (fround (fdiv vmax_obs_curve_2 vmax_obs_curve_1) prec).

(** [for idx in range(self._maxiter)]: the loop body, with [n] iterations
    left; the boolean is [true] when the loop left by [break]. *)
Fixpoint search (prec : nat) (expratio : Q) (n : nat) (st : fitModel_state)
    : result (fitModel_state * bool) :=
  match n with
  | O => Ok (st, false)
  | S n' =>
      seed <- py_float (fm_seed st) ;;
      default <- match default_target FX with
                 | Some d => Ok d | None => Err (KeyError "target_parameter") end ;;
      obs_ratio <- calc_ratio prec (default * seed) ;;
      let lst_ratio := app (fm_lst_ratio st) [obs_ratio] in
      let lst_seed := app (fm_lst_seed st) [seed] in
      if feq obs_ratio expratio then
        Ok (with_search st seed (fm_iteration st) lst_ratio lst_seed
              (PFloat (py_round seed prec)), true)
      else if flt obs_ratio expratio then
        inc <- match fm_seed_incrementor st with
               | PFloat i => Ok i | PInt i => Ok (inject_Z i)
               | _ => Err (TypeError "unsupported operand type(s) for +=") end ;;
        search prec expratio n'
          (with_search st (seed + inc) (fm_iteration st + 1) lst_ratio lst_seed (fm_fold st))
      else
        dec <- match fm_seed_decrementor st with
               | None => Err (AttributeError "_seed_decrementor")
               | Some (PFloat d) => Ok d | Some (PInt d) => Ok (inject_Z d)
               | Some _ => Err (TypeError "unsupported operand type(s) for -=") end ;;
        search prec expratio n'
          (with_search st (seed - dec) (fm_iteration st + 1) lst_ratio lst_seed (fm_fold st))
  end.

(** Python's truth value of [self._ttotal]. *)
Definition truthy (v : pyval) : bool :=
  match v with
  | PNone => false
  | PFloat q => negb (Qeq_bool q 0)
  | PInt z => negb (Z.eqb z 0)
  | PStr s => negb (String.eqb s "")
  end.

(** [fitModel.Run] with keyword arguments [kwargs]. The parameter-table step (pandas / qgrid) only
    fixes the parameters both simulations use; it is part of [FX]. *)
Definition fitModel_Run (st : fitModel_state) (kwargs : dict pyval)
    : result (fitModel_state * bool) :=
  expratio <- match dict_get "expratio" kwargs with
              | Some v => e <- py_float v ;; Ok (PFloat e)
              | None => Err (TypeError "exratio undefined.") end ;;
  seed <- match dict_get "seed" kwargs with
          | Some v => s <- py_float v ;; Ok (PFloat s)
          | None => Err (TypeError "seed undefined.") end ;;
  maxiter <- match dict_get "maxiter" kwargs with
             | Some _ => m <- py_int (py_pop "maxiter" (PInt 100) kwargs) ;; Ok (PInt m)
             | None => Ok (fm_maxiter st) end ;;
  inc <- match dict_get "seed_incrementor" kwargs with
         | Some _ => i <- py_float (py_pop "seed_incrementor" (PFloat (1 # 10)) kwargs) ;;
                     Ok (PFloat i)
         | None => Ok (fm_seed_incrementor st) end ;;
  dec <- match dict_get "seed_decrementor" kwargs with
         | Some _ => d <- py_float (py_pop "seed_decrementor" (PFloat (1 # 10)) kwargs) ;;
                     Ok (Some (PFloat d))
         | None => Ok (fm_seed_decrementor st) end ;;
  target <- match dict_get "target_parameter" kwargs with
            | Some v => Ok v
            | None => Err (TypeError "target_parameter undefined.") end ;;
  let st := with_args st expratio seed maxiter inc dec target in
  if negb (truthy (fm_ttotal st))
  then Err (TypeError "simulation parameters unknown.")
  else
    e <- py_float expratio ;;
    s <- py_float seed ;;
    let prec := str_precision e in
    let st := with_search st s 1 [] [] (fm_fold st) in
    m <- match fm_maxiter st with
         | PInt m => Ok m
         | _ => Err (TypeError "'NoneType' object cannot be interpreted as an integer") end ;;
    search prec e (Z.to_nat m) st.

End FitModel.

(** ** Predicates used to state the properties *)

(** A sweep entry of concentration [c]: it holds [c], the time grid [t] and
    one time series for each name of [observables]. *)
Definition entry_holds (t : list Q) (observables : list string) (c : Q) (e : dict value) : Prop :=
  dict_get "ligand_conc" e = Some (VNum c) /\
  dict_get "time" e = Some (VArr t) /\
  (forall o, In o observables -> exists s, dict_get o e = Some (VArr s)).

(** The pathway name [Run] keeps after its renaming. *)
Definition run_pathway (p : string) : string := if String.eqb p "Gz(Gi)" then "Gi" else p.

(** The designated observable of a pathway and whether it is an inverse
    readout: ['obs_cAMP'] for ['Gs'] and ['Gi'] (inverse), ['obs_IP3'] for ['Gq']. *)
Definition designated_observable (pathway : string) : option (string * bool) :=
  if String.eqb pathway "Gs" then Some ("obs_cAMP", false)
  else if String.eqb pathway "Gi" then Some ("obs_cAMP", true)
  else if String.eqb pathway "Gq" then Some ("obs_IP3", false)
  else None.

(** The maximum over time of observable [obs] in a sweep entry. *)
Definition max_over_time (obs : string) (e : dict value) (r : Q) : Prop :=
  (exists series, dict_get obs e = Some (VArr series) /\ np_amax series = Ok r) \/
  dict_get obs e = Some (VNum r).

(** The [curve_fit] problem as specified: the four-parameter
    logistic, with [Bottom] in [[min(y), +inf)], [Top] in [(-inf, max(y)]],
    [EC] unbounded and [p] in [[0.5, 2.5]]. *)
Definition bounds_as_specified (p : fit_problem) : Prop :=
  fp_model p = Logistic4 /\
  exists ymin ymax,
    np_amin (fp_y p) = Ok ymin /\ np_amax (fp_y p) = Ok ymax /\
    fp_lower p = [Bnd ymin; MinusInf; MinusInf; Bnd (1 # 2)] /\
    fp_upper p = [PlusInf; Bnd ymax; PlusInf; Bnd (5 # 2)].

(** [E] with [curve_fit] replaced by [cf]. *)
Definition with_curve_fit (E : externals) (cf : fit_problem -> result popt) : externals :=
  {| LR_eq_conc := LR_eq_conc E; list_of_observables := list_of_observables E;
     simulate := simulate E; geomspace := geomspace E; splitext_root := splitext_root E;
     np_power := np_power E; np_log10 := np_log10 E; np_log := np_log E;
     curve_fit := cf; nelder_mead := nelder_mead E |}.

(** Modelled from the spec: the one-site binding value [R*L/(Kd+L)] that
    the equilibrium solver is said to reduce to without a competitor
    ([utils.LR_eq_conc] itself is not part of the sources). *)
Definition one_site_occupancy (R L Kd : Q) : Q := R * L / (Kd + L).

(** The number a seed step adds or subtracts ([float] or [int]). *)
Definition num_of (v : pyval) : option Q :=
  match v with PFloat q => Some q | PInt z => Some (inject_Z z) | _ => None end.

(** One unsuccessful trial of the search: the ratio [r] obtained at seed [s]
    differs from [e], and the next seed [s'] is [s + inc] when [r < e] and
    [s - dec] otherwise. *)
Definition trial_step (e : Q) (inc : pyval) (dec : option pyval) (r : fval) (s s' : Q)
    : Prop :=
  feq r e = false /\
  (if flt r e then exists i, num_of inc = Some i /\ s' = s + i
   else exists dv d, dec = Some dv /\ num_of dv = Some d /\ s' = s - d).

(** The trials [R] (ratios) at seeds [S], starting from seed [s] and leaving
    the seed at [s_end], are all unsuccessful steps. *)
Fixpoint run_chain (e : Q) (inc : pyval) (dec : option pyval) (s : Q)
    (R : list fval) (S : list Q) (s_end : Q) : Prop :=
  match R, S with
  | [], [] => s = s_end
  | r :: R', s1 :: S' =>
      s1 = s /\ exists s', trial_step e inc dec r s s' /\ run_chain e inc dec s' R' S' s_end
  | _, _ => False
  end.

(** ** Concrete instances, used to exercise the statements *)

(** Simple stand-ins for the external components. *)
Definition ex_externals : externals :=
  {| LR_eq_conc := fun R L _ _ _ => R * L / (1 + L);
     list_of_observables := fun _ => ["obs_cAMP"; "obs_IP3"];
     simulate := fun _ inp t o =>
       match inp with
       | NetEq _ LR => map (fun x => x * LR) t
       | NetKin _ => t
       end;
     geomspace := fun a b _ => [a; b];
     splitext_root := fun s => s;
     np_power := fun a b => a * b;
     np_log10 := fun x => x;
     np_log := fun x => x;
     curve_fit := fun _ => Ok (0, 1, 1 # 2, 1);
     nelder_mead := fun _ x0 _ => Ok x0 |}.

Definition ex_activation : activation_state :=
  {| act_ligands := Some ["L1"; "L2"];
     act_affinities := Some [8; 7];
     act_pathway := Some "Gs";
     act_receptor_conc := Some 1;
     act_lig_conc_range := Some [1 # 10; 1; 10];
     act_ttotal := Some 100;
     act_nsteps := Some 10%Z;
     act_binding_kinetics := false;
     act_PathwayParameters := [] |}.

Definition ex_inhibition : inhibition_state :=
  {| inh_agonist := Some "A";
     inh_agonist_affinity := Some 8;
     inh_agonist_submaximal_conc := Some 1;
     inh_antagonists := Some ["B1"; "B2"];
     inh_antagonists_affinities := Some [6; 7];
     inh_pathway := Some "Gz(Gi)";
     inh_receptor_conc := Some 1;
     inh_lig_conc_range := Some [1 # 10; 1; 10];
     inh_ttotal := Some 100;
     inh_nsteps := Some 10%Z;
     inh_binding_kinetics := false;
     inh_PathwayParameters := [] |}.

(** A configuration with kinetic binding, no affinities and no [ttotal]. *)
Definition ex_kinetic_no_ttotal : activation_state :=
  {| act_ligands := Some ["L1"];
     act_affinities := None;
     act_pathway := Some "Gs";
     act_receptor_conc := Some 1;
     act_lig_conc_range := Some [1];
     act_ttotal := None;
     act_nsteps := Some 10%Z;
     act_binding_kinetics := true;
     act_PathwayParameters := [] |}.

(** A three-point concentration range and the data of [ex_activation]'s run. *)
Definition ex_range : list Q := [1 # 10; 1; 10].

(** A three-point range that starts at 0: it passes [.any()]. *)
Definition ex_zero_range : list Q := [0; 1; 10].

Definition ex_sim_data : dict ligand_data :=
  match activation_Run ex_externals ex_activation with Ok sd => sd | Err _ => [] end.

(** The entry of ligand ["L1"] in [ex_sim_data]. *)
Definition ex_ld1 : ligand_data :=
  match dict_get "L1" ex_sim_data with
  | Some l => l
  | None => {| sim_data := []; label := "" |}
  end.

(** A fitting routine that agrees with [ex_externals]' one on problems
    bounded as the toolkit bounds them and fails on every other problem. *)
Definition ex_cf (p : fit_problem) : result popt :=
  match fp_lower p, fp_upper p with
  | [Bnd _; MinusInf; MinusInf; Bnd _], [PlusInf; Bnd _; PlusInf; Bnd _] =>
      curve_fit ex_externals p
  | _, _ => Err ValueError
  end.

(** A binding curve over a range narrower than 0.001. *)
Definition ex_narrow_range : list Q := [1 # 10000; 4 # 10000].

Definition ex_binding_data : list Q := [0; 1].

(** Calibration data: two peaks, the second one scaled by the target value. *)
Definition ex_fit_externals : fit_externals :=
  {| simtime := [1; 2; 3; 4; 5];
     obs_1 := [0; 1; 0; 1; 0];
     obs_2 := fun v => map (fun x => v * x) [0; 1; 0; 1; 0];
     default_target := Some 1;
     time_in := None |}.

(** A fresh [fitModel] after [SetSimulationParameters(ttotal=100, ..)]. *)
Definition ex_fit_fresh : fitModel_state := with_ttotal fitModel_init (PInt 100).

Definition ex_kwargs_full : dict pyval :=
  [("expratio", PFloat 1); ("seed", PFloat 2); ("maxiter", PInt 5);
   ("seed_incrementor", PFloat (1 # 2)); ("seed_decrementor", PFloat (1 # 2));
   ("target_parameter", PStr "k")].

Definition ex_kwargs_no_maxiter : dict pyval :=
  [("expratio", PFloat 1); ("seed", PFloat 2); ("target_parameter", PStr "k")].

(** The state with [_maxiter] set to [v]. *)
Definition with_maxiter (st : fitModel_state) (v : pyval) : fitModel_state :=
  {| fm_expratio := fm_expratio st; fm_seed := fm_seed st; fm_maxiter := v;
     fm_seed_incrementor := fm_seed_incrementor st;
     fm_seed_decrementor := fm_seed_decrementor st;
     fm_target_parameter := fm_target_parameter st; fm_ttotal := fm_ttotal st;
     fm_iteration := fm_iteration st; fm_lst_ratio := fm_lst_ratio st;
     fm_lst_seed := fm_lst_seed st; fm_fold := fm_fold st |}.


(** ** convert.KineticTempScale *)

(** [scipy.constants.R] *)
Definition R_gas : Q := 8314462618 # 1000000000.

(** [numpy.log] of a float64: [-inf] at zero, [nan] below zero. *)
Definition flog (E : externals) (x : Q) : fval :=
  if qltb 0 x then FNum (np_log E x) else if Qeq_bool x 0 then FNegInf else FNaN.

(** [c * x] for a finite [c] and a float64 [x]. *)
Definition fscale (c : Q) (x : fval) : fval :=
  match x with
  | FNum q => FNum (c * q)
  | FPosInf => if qltb 0 c then FPosInf else if qltb c 0 then FNegInf else FNaN
  | FNegInf => if qltb 0 c then FNegInf else if qltb c 0 then FPosInf else FNaN
  | FNaN => FNaN
  end.

(** [a / b] on float64 values; as in [fdiv], the sign of a zero divisor is
    not tracked. *)
Definition fdivf (a b : fval) : fval :=
  match a, b with
  | FNum x, FNum y => fdiv x y
  | FNum _, (FPosInf | FNegInf) => FNum 0
  | FPosInf, FNum y => if qltb y 0 then FNegInf else FPosInf
  | FNegInf, FNum y => if qltb y 0 then FPosInf else FNegInf
  | (FPosInf | FNegInf), (FPosInf | FNegInf) => FNaN
  | FNaN, _ => FNaN
  | _, FNaN => FNaN
  end.

(** What [KineticTempScale] returns or raises. *)
Inductive kts_outcome : Type :=
| KOk (skon skoff : fval)
| KTypeError (msg : string)
| KZeroDivisionError.

(** [convert.KineticTempScale(kon, koff, T1, T2, Tu)]. [koff/kon] is a
    Python division (it raises on a zero [kon]); [log] returns a numpy
    float64, so [DG1], [DG2], [sf] and the rescaled constants are float64
    values. *)
Definition KineticTempScale (E : externals) (kon koff T1 T2 : Q) (Tu : string)
    : kts_outcome :=
  match (if String.eqb Tu "K" then Some (T1, T2)
         else if String.eqb Tu "C" then Some (T1 + (27315 # 100), T2 + (27315 # 100))
         else None) with
  | None => KTypeError "Temperature must me in Kelvin (Tu ='K') or Celsius (Tu='C')"
  | Some (T1, T2) =>
      if Qeq_bool kon 0 then KZeroDivisionError
      else
        let L := flog E (koff / kon) in
        let DG1 := fscale (- R_gas * T1) L in
        let DG2 := fscale (- R_gas * T2) L in
        if qltb T1 T2 then
          let sf := fdivf DG2 DG1 in
          KOk (fround (fscale kon sf) 3) (fround (fscale koff sf) 3)
        else if qltb T2 T1 then
          let sf := fdivf DG2 DG1 in
          KOk (fround (fscale kon sf) 3) (fround (fscale koff sf) 3)
        else KOk (FNum (py_round kon 3)) (FNum (py_round koff 3))
  end.

(** ** get.tauRAMD *)

(** *** Python string primitives (ASCII text) *)

(** [s.find(w)]: the first position of [w] in [s], or [-1]. *)
Definition py_find (s w : string) : Z :=
  match String.index 0 w s with Some n => Z.of_nat n | None => -1 end.

(** [s[i:j]]: negative bounds count from the end, then both are clamped to
    [[0, len(s)]]. *)
Definition py_slice (s : string) (i j : Z) : string :=
  let n := Z.of_nat (String.length s) in
  let norm k := if Z.ltb k 0 then Z.max 0 (k + n) else Z.min k n in
  let i' := norm i in
  let j' := norm j in
  substring (Z.to_nat i') (Z.to_nat (j' - i')) s.

(** [v == s] for a Python value [v] and a string [s]. *)
Definition pyval_is (v : pyval) (s : string) : bool :=
  match v with PStr x => String.eqb x s | _ => false end.

(** *** [tauRAMD.Run] *)

(** The number of MD steps read from one line [r] of a [.dat] file. *)
Definition parse_line (softwr : pyval) (r : string) : result Z :=
  if pyval_is softwr "NAMD" then
    py_int_of_str (py_slice r (py_find r "EXIT:" + 6) (py_find r ">" - 2))
  else if pyval_is softwr "GROMACS" then
    py_int_of_str (py_slice r (py_find r "after" + 6) (py_find r "steps" - 1))
  else Err (TypeError "ERROR: sofware unknown. options: NAMD, GROMACS").

(** [self._times = np.asarray(self._times)*self._dt] *)
Definition tau_times (softwr dt : pyval) (lines : list string) : result (list Q) :=
  ns <- mapM (parse_line softwr) lines ;;
  d <- match num_of dt with
       | Some d => Ok d
       | None => Err (TypeError "unsupported operand type(s) for *") end ;;
  Ok (map (fun n => inject_Z n * d) ns).

(** [np.mean] *)
Definition qmean (l : list Q) : Q :=
  fold_left Qplus l 0 / inject_Z (Z.of_nat (List.length l)).

(** The components [Run] calls: [glob(prefix+'*.dat')], [open(d).readlines()]
    and the bootstrap followed by [norm.fit] ([mu, std] of one replica). *)
Record tau_externals : Type := {
  glob_dat : string -> list string;
  readlines : string -> list string;
  boot_fit : list Q -> result (Q * Q)
}.

(** The attributes of a [tauRAMD] instance that [Run] reads or writes;
    [None] stands for an attribute that does not exist yet ([_times_set],
    [_RTmean], [RT]) or holds [None] ([_files], [_prefix]). [_RTstd],
    [_mue_set] and [RTdataframe] are not modelled: nothing else reads them. *)
Record tau_state : Type := {
  tr_files : option (list string);
  tr_dt : pyval;
  tr_softwr : pyval;
  tr_prefix : pyval;
  tr_times_set : option (list (list Q));
  tr_RTmean : option Q;
  tr_RT : option Q
}.

(** [tauRAMD.__init__] *)
Definition tauRAMD_init : tau_state :=
  {| tr_files := None; tr_dt := PFloat (2 # 1000000); tr_softwr := PStr "GROMACS";
     tr_prefix := PNone; tr_times_set := None; tr_RTmean := None; tr_RT := None |}.

Section TauRAMD.
Variable TX : tau_externals.

(** The [#Get Data] loop: the times of the files read so far, and how the
    loop ended. *)
Fixpoint tau_get_data (softwr dt : pyval) (files : list string) (acc : list (list Q))
    : list (list Q) * result unit :=
  match files with
  | [] => (acc, Ok tt)
  | d :: rest =>
      match tau_times softwr dt (readlines TX d) with
      | Ok times => tau_get_data softwr dt rest (app acc [times])
      | Err e => (acc, Err e)
      end
  end.

(** The mean residence time of one replica, [mu]; [np.histogram] with
    [bins=len(times)] rejects an empty replica. *)
Definition replica_mu (times : list Q) : result Q :=
  rbind (boot_fit TX times) (fun '(mu, _) =>
  match times with [] => Err ValueError | _ => Ok mu end).

(** The [#Parse Data] loop: the last value it assigned to [_RTmean] (and
    [RT]), [None] when it assigned none, and how the loop ended. *)
Fixpoint tau_parse (times_set : list (list Q)) (mue_set : list Q)
    : option Q * result unit :=
  match times_set with
  | [] => (None, Ok tt)
  | times :: rest =>
      match replica_mu times with
      | Err e => (None, Err e)
      | Ok mu =>
          let mue_set := app mue_set [py_round mu 1] in
          let RTmean := py_round (qmean mue_set) 2 in
          let '(last, res) := tau_parse rest mue_set in
          (match last with Some v => Some v | None => Some RTmean end, res)
      end
  end.

(** [tauRAMD.Run] with keyword arguments [kwargs]: the instance after the call and how the call
    ended. The final [print] reads [self._RTmean]. *)
Definition tauRAMD_Run (st : tau_state) (kwargs : dict pyval) : tau_state * result unit :=
  match dict_get "prefix" kwargs with
  | None => (st, Err (TypeError "ERROR: prefix is missing"))
  | Some prefix =>
      let dt := match dict_get "dt" kwargs with Some v => v | None => tr_dt st end in
      let softwr := match dict_get "softwr" kwargs with Some v => v | None => tr_softwr st end in
      let st := {| tr_files := tr_files st; tr_dt := dt; tr_softwr := softwr;
                   tr_prefix := prefix; tr_times_set := tr_times_set st;
                   tr_RTmean := tr_RTmean st; tr_RT := tr_RT st |} in
      match prefix with
      | PStr p =>
          let files := glob_dat TX (p ++ "*.dat") in
          let '(times_set, got) := tau_get_data softwr dt files [] in
          let st := {| tr_files := Some files; tr_dt := dt; tr_softwr := softwr;
                       tr_prefix := prefix; tr_times_set := Some times_set;
                       tr_RTmean := tr_RTmean st; tr_RT := tr_RT st |} in
          match got with
          | Err e => (st, Err e)
          | Ok _ =>
              let '(last, parsed) := tau_parse times_set [] in
              let rt := match last with Some v => Some v | None => tr_RTmean st end in
              let st := {| tr_files := Some files; tr_dt := dt; tr_softwr := softwr;
                           tr_prefix := prefix; tr_times_set := Some times_set;
                           tr_RTmean := rt;
                           tr_RT := match last with Some v => Some v | None => tr_RT st end |} in
              match parsed with
              | Err e => (st, Err e)
              | Ok _ =>
                  match rt with
                  | None => (st, Err (AttributeError "_RTmean"))
                  | Some _ => (st, Ok tt)
                  end
              end
          end
      | _ => (st, Err (TypeError "unsupported operand type(s) for +"))
      end
  end.

End TauRAMD.


(** ** fitModel.SetSimulationParameters *)

(** [int(v)] for any value; a string is read as [py_int_of_str] reads it. *)
Definition py_int_value (v : pyval) : result Z :=
  match v with
  | PFloat q => Ok (Z.quot (Qnum q) (Zpos (Qden q)))
  | PInt z => Ok z
  | PStr s => py_int_of_str s
  | PNone => Err (TypeError "int() argument must be a string, a bytes-like object or a real number, not 'NoneType'")
  end.

(** The attributes of a [fitModel] instance written by
    [SetSimulationParameters] besides [_ttotal] (which is in
    [fitModel_state]). *)
Record fitModel_config : Type := {
  cfg_pathway_parameters : dict Q;
  cfg_nsteps : pyval;
  cfg_pathway : pyval;
  cfg_observable : pyval
}.

(** [fitModel.__init__] *)
Definition fitModel_config_init : fitModel_config :=
  {| cfg_pathway_parameters := []; cfg_nsteps := PNone; cfg_pathway := PNone;
     cfg_observable := PNone |}.

(** The keyword arguments of [SetSimulationParameters], [None] when absent;
    [pathway] and [observable] are strings, on which [str] is the identity. *)
Record fit_sim_kwargs : Type := {
  fk_pathway_parameters : option (dict Q);
  fk_ttotal : option pyval;
  fk_nsteps : option pyval;
  fk_pathway : option string;
  fk_observable : option string
}.

(** [fitModel.SetSimulationParameters]: the instance after the call (the
    attributes are written one after the other, so a failing call keeps the
    ones written before the failure) and how the call ended.
    [kwargs.pop('nsteps', 1000)] only runs when ['nsteps'] is given, so its
    default is never used. The reset of
    [_DefaultPathwayParametersDataFrame] only concerns the parameter table,
    which [fitModel_Run] takes from its [fit_externals]. *)
Definition fitModel_SetSimulationParameters (st : fitModel_state) (cfg : fitModel_config)
    (k : fit_sim_kwargs) : (fitModel_state * fitModel_config) * result unit :=
  let cfg := match fk_pathway_parameters k with
             | Some d => Build_fitModel_config d (cfg_nsteps cfg) (cfg_pathway cfg)
                           (cfg_observable cfg)
             | None => cfg
             end in
  match fk_ttotal k with
  | None => ((st, cfg), Err (TypeError "ttotal undefined."))
  | Some v =>
  match py_int_value v with
  | Err e => ((st, cfg), Err e)
  | Ok ttotal =>
  let st := with_ttotal st (PInt ttotal) in
  match match fk_nsteps k with
        | Some v => n <- py_int_value v ;; Ok (PInt n)
        | None => Ok (cfg_nsteps cfg)
        end with
  | Err e => ((st, cfg), Err e)
  | Ok nsteps =>
  let cfg := Build_fitModel_config (cfg_pathway_parameters cfg) nsteps (cfg_pathway cfg)
               (cfg_observable cfg) in
  match fk_pathway k with
  | None => ((st, cfg), Err (TypeError "pathway undefined."))
  | Some p =>
  let p := if String.eqb p "Gz(Gi)" then "Gi" else p in
  let cfg := Build_fitModel_config (cfg_pathway_parameters cfg) (cfg_nsteps cfg) (PStr p)
               (cfg_observable cfg) in
  if negb (existsb (String.eqb p) ["Gs"; "Gi"; "Gq"; "OXTR_pathway"])
  then ((st, cfg), Err (PyException "Unvailable Pathway."))
  else
  match fk_observable k with
  | None => ((st, cfg), Err (TypeError "observable undefined."))
  | Some o =>
      ((st, Build_fitModel_config (cfg_pathway_parameters cfg) (cfg_nsteps cfg)
              (cfg_pathway cfg) (PStr o)), Ok tt)
  end end end end end.

(** ** PotencyToDict and inhibition.constants *)

(** A value of [dose[ligand]]: a data dict ([x], [y], [label]) or a number. *)
Inductive dose_value : Type :=
| DData (x y : list Q) (label : string)
| DNum (q : Q).

(** [dose[ligand]] as [Analysis] builds it; [pot_key] and [ppot_key] are
    ['EC50 (μM)'] and ['pEC50'] in [activation], ['IC50 (μM)'] and ['pIC50']
    in [inhibition]. *)
Definition dose_dict (pot_key ppot_key : string) (d : dose_entry) : dict dose_value :=
  [("raw_data", DData (raw_x d) (raw_y d) (dose_label d));
   ("normalized_data", DData (normalized_x d) (normalized_y d) (dose_label d));
   ("fitted_data", DData (fitted_x d) (fitted_y d) (dose_label d));
   (pot_key, DNum (potency d));
   (ppot_key, DNum (pPotency d))].

Definition dict_lookup {V} (k : string) (d : dict V) : result V :=
  match dict_get k d with Some v => Ok v | None => Err (KeyError k) end.

(** The loop body: [list(entry.keys())[-2]] and [[-1]], their values, and
    the dict [{IC50: IC50_value, pIC50: pIC50_value}]. *)
Definition potency_pair (entry : dict dose_value) : result (dict dose_value) :=
  let keys := map fst entry in
  IC50 <- nth_err (rev keys) 1 ;;
  IC50_value <- dict_lookup IC50 entry ;;
  pIC50 <- nth_err (rev keys) 0 ;;
  pIC50_value <- dict_lookup pIC50 entry ;;
  Ok (dict_set pIC50 pIC50_value (dict_set IC50 IC50_value [])).

(** [PotencyToDict] (and the body of [inhibition.constants]) on
    [self.processed_data]; [msg] is the message raised when [Analysis] has
    not been run. *)
Definition PotencyToDict (msg pot_key ppot_key : string)
    (processed_data : option (dict dose_entry)) : result (dict (dict dose_value)) :=
  pd <- match processed_data with None => Err (TypeError msg) | Some pd => Ok pd end ;;
  fold_left
    (fun acc ligand =>
       kvalues <- acc ;;
       d <- dict_lookup ligand pd ;;
       kv <- potency_pair (dose_dict pot_key ppot_key d) ;;
       Ok (dict_set ligand kv kvalues))
    (map fst pd) (Ok []).

Definition activation_PotencyToDict :=
  PotencyToDict "Simulation data unprocessed. simulation.activation.analysis() must be run first."
    "EC50 (μM)" "pEC50".

Definition inhibition_PotencyToDict :=
  PotencyToDict "Simulation data unprocessed. simulation.inhibition.analysis() must be run first."
    "IC50 (μM)" "pIC50".

(** The attributes of an [inhibition] instance used by [constants]:
    [processed_data], and [inh_constants = Some kv] once [self.constants]
    has been rebound to the dict [kv] (it is the method before). *)
Record inhibition_obj : Type := {
  inh_processed_data : option (dict dose_entry);
  inh_constants : option (dict (dict dose_value))
}.

(** [inhibition.constants()]: calling [self.constants] once it is a dict
    raises. *)
Definition inhibition_constants (o : inhibition_obj)
    : inhibition_obj * result (dict (dict dose_value)) :=
  match inh_constants o with
  | Some _ => (o, Err (TypeError "'dict' object is not callable"))
  | None =>
      match PotencyToDict
              "Simulation data unprocessed. simulation.activation.analysis() must be run first."
              "IC50 (μM)" "pIC50" (inh_processed_data o) with
      | Ok kvalues =>
          ({| inh_processed_data := inh_processed_data o; inh_constants := Some kvalues |},
           Ok kvalues)
      | Err e => (o, Err e)
      end
  end.


(** ** Helpers used to state further properties *)

(** The distinct names of [l] in order of first appearance, after the names
    [seen]: the keys a dict gets when [l]'s names are assigned one after the
    other. *)
Fixpoint unique_in_order (seen : list string) (l : list string) : list string :=
  match l with
  | [] => []
  | x :: t =>
      if existsb (String.eqb x) seen then unique_in_order seen t
      else x :: unique_in_order (app seen [x]) t
  end.

(** An [activation] instance with [_pathway] set to [p]. *)
Definition act_with_pathway (s : activation_state) (p : string) : activation_state :=
  {| act_ligands := act_ligands s; act_affinities := act_affinities s;
     act_pathway := Some p; act_receptor_conc := act_receptor_conc s;
     act_lig_conc_range := act_lig_conc_range s; act_ttotal := act_ttotal s;
     act_nsteps := act_nsteps s; act_binding_kinetics := act_binding_kinetics s;
     act_PathwayParameters := act_PathwayParameters s |}.

(** An [inhibition] instance with [_pathway] set to [p]. *)
Definition inh_with_pathway (s : inhibition_state) (p : string) : inhibition_state :=
  {| inh_agonist := inh_agonist s; inh_agonist_affinity := inh_agonist_affinity s;
     inh_agonist_submaximal_conc := inh_agonist_submaximal_conc s;
     inh_antagonists := inh_antagonists s;
     inh_antagonists_affinities := inh_antagonists_affinities s;
     inh_pathway := Some p; inh_receptor_conc := inh_receptor_conc s;
     inh_lig_conc_range := inh_lig_conc_range s; inh_ttotal := inh_ttotal s;
     inh_nsteps := inh_nsteps s; inh_binding_kinetics := inh_binding_kinetics s;
     inh_PathwayParameters := inh_PathwayParameters s |}.

(** The dict [PotencyToDict] builds for one ligand entry. *)
Definition potency_entry (pot_key ppot_key : string) (item : string * dose_entry)
    : string * dict dose_value :=
  (fst item, [(pot_key, DNum (potency (snd item))); (ppot_key, DNum (pPotency (snd item)))]).

(** Two replicas of GROMACS RAMD logs, found for the prefix ["rep"], and a
    bootstrap stand-in returning the mean of the replica. *)
Definition ex_tau_externals : tau_externals :=
  {| glob_dat := fun pat => if String.eqb pat "rep*.dat" then ["rep1.dat"; "rep2.dat"] else [];
     readlines := fun f =>
       if String.eqb f "rep1.dat" then
         ["==== RAMD ==== GROMACS will be stopped after 4200 steps.";
          "==== RAMD ==== GROMACS will be stopped after 5100 steps."]
       else if String.eqb f "rep2.dat" then
         ["==== RAMD ==== GROMACS will be stopped after 3900 steps."]
       else [];
     boot_fit := fun ts => Ok (qmean ts, 0) |}.

(** [inhibition.Run] on [ex_inhibition] and the [Analysis] of both runs. *)
Definition ex_inh_sim_data : dict ligand_data :=
  match inhibition_Run ex_externals ex_inhibition with Ok sd => sd | Err _ => [] end.

Definition ex_act_dose : dict dose_entry :=
  match activation_Analysis ex_externals (Some ex_sim_data) "Gs" (Some ex_range) with
  | Ok d => d | Err _ => [] end.

Definition ex_inh_dose : dict dose_entry :=
  match inhibition_Analysis ex_externals (Some ex_inh_sim_data) "Gi" (Some ex_range) with
  | Ok d => d | Err _ => [] end.

(** [SetSimulationParameters(ttotal=0.5, nsteps=100, pathway='Gz(Gi)', observable='obs_cAMP')] *)
Definition ex_fit_sim_kwargs : fit_sim_kwargs :=
  {| fk_pathway_parameters := None; fk_ttotal := Some (PFloat (1 # 2));
     fk_nsteps := Some (PInt 100); fk_pathway := Some "Gz(Gi)";
     fk_observable := Some "obs_cAMP" |}.

(** ** Generic lemmas *)

Ltac unbind H :=
  repeat match type of H with
  | rbind ?m _ = Ok _ =>
      let Hm := fresh "Hm" in
      destruct m eqn:Hm; cbn [rbind] in H; [| discriminate H]
  end.

Lemma dict_get_set_eq {V} (k : string) (v : V) (d : dict V) :
  dict_get k (dict_set k v d) = Some v.
Proof.
  induction d as [| [k' v'] t IH]; simpl.
  - rewrite String.eqb_refl; reflexivity.
  - destruct (String.eqb k k') eqn:Hk; simpl.
    + rewrite String.eqb_refl; reflexivity.
    + rewrite Hk; exact IH.
Qed.

Lemma dict_get_set_neq {V} (k k' : string) (v : V) (d : dict V) :
  k <> k' -> dict_get k (dict_set k' v d) = dict_get k d.
Proof.
  intros Hne; induction d as [| [k0 v0] t IH]; simpl.
  - destruct (String.eqb_spec k k'); congruence.
  - destruct (String.eqb k' k0) eqn:H0; simpl.
    + apply String.eqb_eq in H0; subst k0.
      destruct (String.eqb_spec k k'); congruence.
    + destruct (String.eqb k k0); [reflexivity | exact IH].
Qed.

Lemma fold_set_notin {V} (f : string -> V) (obs : list string) (d : dict V) (o : string) :
  ~ In o obs ->
  dict_get o (fold_left (fun d1 o' => dict_set o' (f o') d1) obs d) = dict_get o d.
Proof.
  revert d; induction obs as [| a t IH]; intros d Hn; simpl; [reflexivity |].
  rewrite IH by (intro; apply Hn; right; assumption).
  apply dict_get_set_neq; intro; subst; apply Hn; left; reflexivity.
Qed.

Lemma fold_set_in {V} (f : string -> V) (obs : list string) (d : dict V) (o : string) :
  In o obs ->
  dict_get o (fold_left (fun d1 o' => dict_set o' (f o') d1) obs d) = Some (f o).
Proof.
  revert d; induction obs as [| a t IH]; intros d Hi; simpl in *; [contradiction |].
  destruct (in_dec string_dec o t) as [Ht | Ht].
  - apply IH; exact Ht.
  - destruct Hi as [-> | Hi]; [| contradiction].
    rewrite fold_set_notin by exact Ht; apply dict_get_set_eq.
Qed.

Lemma sweep_entry_holds (c : Q) (t : list Q) (obs : list string) (yout : string -> list Q) :
  ~ In "ligand_conc" obs -> ~ In "time" obs ->
  entry_holds t obs c (sweep_entry c t obs yout).
Proof.
  intros H1 H2; unfold sweep_entry, entry_holds.
  split; [| split].
  - rewrite fold_set_notin by exact H1; reflexivity.
  - rewrite fold_set_notin by exact H2; reflexivity.
  - intros o Ho; exists (yout o).
    apply (fold_set_in (fun o' => VArr (yout o'))); exact Ho.
Qed.

Lemma mapM_Forall2 {A B} (f : A -> result B) (l : list A) (l' : list B) :
  mapM f l = Ok l' -> Forall2 (fun a b => f a = Ok b) l l'.
Proof.
  revert l'; induction l as [| a t IH]; intros l' H; simpl in H.
  - inversion H; constructor.
  - destruct (f a) eqn:Ha; cbn [rbind] in H; [| discriminate].
    destruct (mapM f t) eqn:Ht; cbn [rbind] in H; [| discriminate].
    inversion H; subst; constructor; auto.
Qed.

Lemma fold_err {V W} (f : dict V -> W -> result (dict V)) (ls : list W) (e : exn) :
  fold_left (fun acc l => rbind acc (fun s => f s l)) ls (Err e) = Err e.
Proof. induction ls; simpl; auto. Qed.

Section FoldDict.
Context {V W : Type} (f : dict V -> W -> result (dict V)) (key : W -> string)
        (R : W -> V -> Prop).
Hypothesis f_sets : forall s l s', f s l = Ok s' -> exists v, R l v /\ s' = dict_set (key l) v s.

Lemma fold_dict_preserve (k : string) (ls : list W) (s s' : dict V) :
  (forall l, In l ls -> key l <> k) ->
  fold_left (fun acc l => rbind acc (fun s0 => f s0 l)) ls (Ok s) = Ok s' ->
  dict_get k s' = dict_get k s.
Proof.
  revert s; induction ls as [| a t IH]; intros s Hk H; simpl in H.
  - inversion H; reflexivity.
  - destruct (f s a) as [s1 | e] eqn:Hf; [| rewrite fold_err in H; discriminate].
    rewrite (IH s1) by (auto with datatypes).
    destruct (f_sets _ _ _ Hf) as [v [_ ->]].
    apply dict_get_set_neq; intro; apply (Hk a); auto with datatypes.
Qed.

Lemma fold_dict_build (ls : list W) (s s' : dict V) :
  fold_left (fun acc l => rbind acc (fun s0 => f s0 l)) ls (Ok s) = Ok s' ->
  forall l, In l ls ->
  exists l' v, In l' ls /\ key l' = key l /\ R l' v /\ dict_get (key l) s' = Some v.
Proof.
  revert s; induction ls as [| a t IH]; intros s H l Hl; [contradiction |].
  simpl in H.
  destruct (f s a) as [s1 | e] eqn:Hf; [| rewrite fold_err in H; discriminate].
  destruct (existsb (fun l'' => String.eqb (key l'') (key l)) t) eqn:Hex.
  - apply existsb_exists in Hex as [l'' [Hin Heq]]; apply String.eqb_eq in Heq.
    destruct (IH s1 H l'' Hin) as [l' [v [Hl' [Hk [HR Hg]]]]].
    exists l', v; repeat split; auto with datatypes; congruence.
  - destruct Hl as [<- | Hl].
    + destruct (f_sets _ _ _ Hf) as [v [HR ->]].
      exists a, v; repeat split; auto with datatypes.
      rewrite (fold_dict_preserve (key a) t (dict_set (key a) v s) s'); [apply dict_get_set_eq | | exact H].
      intros l'' Hin Heq.
      assert (existsb (fun l0 => String.eqb (key l0) (key a)) t = true) as Ht.
      { apply existsb_exists; exists l''; split; [exact Hin | apply String.eqb_eq; exact Heq]. }
      congruence.
    + destruct (IH s1 H l Hl) as [l' [v [Hl' [Hk [HR Hg]]]]].
      exists l', v; repeat split; auto with datatypes.
Qed.

End FoldDict.

Lemma check_pathway_ok (p p' : string) : check_pathway p = Ok p' -> p' = run_pathway p.
Proof.
  unfold check_pathway, run_pathway; intros H.
  destruct (existsb _ _); inversion H; reflexivity.
Qed.

Lemma need_ok {A} (o : option A) (a : A) : need o = Ok a -> o = Some a.
Proof. destruct o; simpl; intros H; inversion H; reflexivity. Qed.

Lemma activation_point_holds (E : externals) s pathway t ligs l c e :
  activation_point E s pathway t ligs l c = Ok e ->
  ~ In "ligand_conc" (list_of_observables E pathway) ->
  ~ In "time" (list_of_observables E pathway) ->
  entry_holds t (list_of_observables E pathway) c e.
Proof.
  unfold activation_point; intros H H1 H2; unbind H.
  inversion H; subst; apply sweep_entry_holds; assumption.
Qed.

Lemma inhibition_point_holds (E : externals) s pathway t ligs l c e :
  inhibition_point E s pathway t ligs l c = Ok e ->
  ~ In "ligand_conc" (list_of_observables E pathway) ->
  ~ In "time" (list_of_observables E pathway) ->
  entry_holds t (list_of_observables E pathway) c e.
Proof.
  unfold inhibition_point; intros H H1 H2; unbind H.
  inversion H; subst; apply sweep_entry_holds; assumption.
Qed.

(** * The claims *)

(** C9: in [activation.Run]'s input checks, [binding_kinetics=True] with
    [affinities=None] stops the elif chain at its [pass] branch: whatever
    [lig_conc_range], [ttotal], [nsteps] and [receptor_conc] are, the checks
    succeed; with [ttotal=None], [Run] never raises ['ttotal undefined.']. *)
Theorem activation_kinetic_binding_skips_input_checks :
  forall (E : externals) (s : activation_state) (ligands : list string) (p : string),
  act_ligands s = Some ligands -> act_pathway s = Some p ->
  act_binding_kinetics s = true -> act_affinities s = None ->
  activation_check_inputs s = Ok tt /\
  (act_ttotal s = None -> activation_Run E s <> Err (TypeError "ttotal undefined.")).
Proof.
  intros E s ligands p Hl Hp Hk Ha.
  assert (Hc : activation_check_inputs s = Ok tt).
  { unfold activation_check_inputs; rewrite Hl, Hp, Hk, Ha; reflexivity. }
  split; [exact Hc |].
  intros Ht; unfold activation_Run; rewrite Hc; cbn [rbind]; rewrite Hp; cbn [need rbind].
  destruct (check_pathway p) as [p' | e] eqn:Hcp; cbn [rbind].
  - rewrite Ht; cbn; discriminate.
  - unfold check_pathway in Hcp; destruct (existsb _ _); inversion Hcp; discriminate.
Qed.

(** C5: after a successful [activation.Run] (resp. [inhibition.Run]) over a
    concentration range of length N, [simulation_data] has, for every ligand
    (resp. antagonist), an entry of exactly N records, the i-th holding the
    i-th concentration of the range, the common time grid and one series for
    each name of the pathway's [list_of_observables] (whose names are not
    ['ligand_conc'] or ['time']). *)
Theorem run_records_full_sweep :
  forall E : externals,
  (forall s sd ligands range p,
     activation_Run E s = Ok sd ->
     act_ligands s = Some ligands -> act_lig_conc_range s = Some range ->
     act_pathway s = Some p ->
     ~ In "ligand_conc" (list_of_observables E (run_pathway p)) ->
     ~ In "time" (list_of_observables E (run_pathway p)) ->
     exists t, forall ligand, In ligand ligands ->
       exists entry, dict_get (splitext_root E ligand) sd = Some entry /\
         List.length (sim_data entry) = List.length range /\
         Forall2 (entry_holds t (list_of_observables E (run_pathway p))) range (sim_data entry)) /\
  (forall s sd antagonists range p,
     inhibition_Run E s = Ok sd ->
     inh_antagonists s = Some antagonists -> inh_lig_conc_range s = Some range ->
     inh_pathway s = Some p ->
     ~ In "ligand_conc" (list_of_observables E (run_pathway p)) ->
     ~ In "time" (list_of_observables E (run_pathway p)) ->
     exists t, forall ligand, In ligand antagonists ->
       exists entry, dict_get (splitext_root E ligand) sd = Some entry /\
         List.length (sim_data entry) = List.length range /\
         Forall2 (entry_holds t (list_of_observables E (run_pathway p))) range (sim_data entry)).
Proof.
  intros E; split.
  - intros s sd ligands range p HRun Hl Hr Hp Hn1 Hn2.
    unfold activation_Run in HRun; unbind HRun.
    apply need_ok in Hm0, Hm2, Hm3, Hm5, Hm6.
    apply check_pathway_ok in Hm1.
    rewrite Hp in Hm0; inversion Hm0; subst.
    rewrite Hl in Hm5; inversion Hm5; subst.
    rewrite Hr in Hm6; inversion Hm6; subst.
    eexists; intros ligand Hin.
    edestruct (fold_dict_build
      (fun sd0 ligand =>
         data <- mapM (activation_point E s (run_pathway a0)
                         a4 a5 ligand) a6 ;;
         Ok (dict_set (splitext_root E ligand)
               {| sim_data := data; label := splitext_root E ligand |} sd0))
      (splitext_root E)
      (fun _ v => Forall2 (entry_holds a4
                     (list_of_observables E (run_pathway a0))) a6 (sim_data v)))
      as [l' [v [_ [Hk [HF Hg]]]]]; [| exact HRun | exact Hin |].
    + intros s0 l0 s' Hf; unbind Hf; inversion Hf; subst.
      eexists; split; [| reflexivity]; cbn [sim_data].
      match goal with Hmm : mapM _ _ = Ok _ |- _ =>
        apply mapM_Forall2 in Hmm; eapply Forall2_impl; [| exact Hmm] end.
      intros c e He; cbv beta in He; eapply activation_point_holds; [exact He | assumption | assumption].
    + exists v; split; [exact Hg |]; split; [| exact HF].
      symmetry; eapply Forall2_length; exact HF.
  - intros s sd antagonists range p HRun Hl Hr Hp Hn1 Hn2.
    unfold inhibition_Run in HRun; unbind HRun.
    apply need_ok in Hm0, Hm2, Hm3, Hm5, Hm6, Hm7.
    apply check_pathway_ok in Hm1.
    rewrite Hp in Hm0; inversion Hm0; subst.
    rewrite Hl in Hm6; inversion Hm6; subst.
    rewrite Hr in Hm7; inversion Hm7; subst.
    eexists; intros ligand Hin.
    edestruct (fold_dict_build
      (fun sd0 ligand =>
         data <- mapM (inhibition_point E s (run_pathway a0)
                         a4 a6 ligand) a7 ;;
         Ok (dict_set (splitext_root E ligand)
               {| sim_data := data; label := a5 ++ " + " ++ splitext_root E ligand |} sd0))
      (splitext_root E)
      (fun _ v => Forall2 (entry_holds a4
                     (list_of_observables E (run_pathway a0))) a7 (sim_data v)))
      as [l' [v [_ [Hk [HF Hg]]]]]; [| exact HRun | exact Hin |].
    + intros s0 l0 s' Hf; unbind Hf; inversion Hf; subst.
      eexists; split; [| reflexivity]; cbn [sim_data].
      match goal with Hmm : mapM _ _ = Ok _ |- _ =>
        apply mapM_Forall2 in Hmm; eapply Forall2_impl; [| exact Hmm] end.
      intros c e He; cbv beta in He; eapply inhibition_point_holds; [exact He | assumption | assumption].
    + exists v; split; [exact Hg |]; split; [| exact HF].
      symmetry; eapply Forall2_length; exact HF.
Qed.

Lemma nodup_in_fst {V} (l : list (string * V)) (k : string) (a b : V) :
  NoDup (map fst l) -> In (k, a) l -> In (k, b) l -> a = b.
Proof.
  induction l as [| [k0 v0] t IH]; intros Hnd Ha Hb; [contradiction |].
  simpl in Hnd; apply NoDup_cons_iff in Hnd as [Hn Hnd].
  destruct Ha as [Ha | Ha]; destruct Hb as [Hb | Hb].
  - inversion Ha; inversion Hb; subst; reflexivity.
  - inversion Ha; subst; exfalso; apply Hn; apply (in_map fst _ _ Hb).
  - inversion Hb; subst; exfalso; apply Hn; apply (in_map fst _ _ Ha).
  - apply IH; assumption.
Qed.

(** What [Analysis] stores under a ligand of the simulation data. *)
Lemma analysis_entry (E : externals) msg simdata pathway range dose ligand ld :
  analysis E msg (Some simdata) pathway (Some range) = Ok dose ->
  NoDup (map fst simdata) -> In (ligand, ld) simdata ->
  exists mn mx d, np_amin range = Ok mn /\ np_amax range = Ok mx /\
    analysis_ligand E pathway range mn mx ld = Ok d /\ dict_get ligand dose = Some d.
Proof.
  unfold analysis; intros H Hnd Hin; cbn [rbind] in H.
  destruct (np_amin range) as [mn |] eqn:Hmn; cbn [rbind] in H; [| discriminate].
  destruct (np_amax range) as [mx |] eqn:Hmx; cbn [rbind] in H; [| discriminate].
  edestruct (fold_dict_build
    (fun dose item =>
       d <- analysis_ligand E pathway range mn mx (snd item) ;;
       Ok (dict_set (fst item) d dose))
    fst (fun item v => analysis_ligand E pathway range mn mx (snd item) = Ok v))
    as [[k' ld'] [v [Hin' [Hk [HR Hg]]]]]; [| exact H | exact Hin |].
  - intros s0 [k0 l0] s' Hf; unbind Hf; inversion Hf; subst.
    exists a; split; reflexivity.
  - simpl in Hk, HR, Hg; subst k'.
    rewrite (nodup_in_fst simdata ligand ld' ld Hnd Hin' Hin) in HR.
    exists mn, mx, v; repeat split; assumption.
Qed.

Lemma analysis_ligand_unfold (E : externals) pathway range mn mx ld d :
  analysis_ligand E pathway range mn mx ld = Ok d ->
  exists raw norm problem p,
    normalize pathway (List.length range) (sim_data ld) = Ok (raw, norm) /\
    logistic_problem range norm = Ok problem /\
    curve_fit E problem = Ok p /\
    raw_y d = raw /\ normalized_y d = norm /\
    potency d = py_round (popt_EC p) 5 /\
    pPotency d = py_round (- np_log10 E (popt_EC p * (1 # 1000000))) 2.
Proof.
  unfold analysis_ligand; intros H.
  destruct (normalize _ _ _) as [[raw norm] |] eqn:Hn; cbn [rbind] in H; [| discriminate].
  unbind H; inversion H; subst.
  exists raw, norm, a, a0; repeat split; assumption.
Qed.

Lemma skipn_nth_error {A} (l : list A) (k : nat) (e : A) :
  nth_error l k = Some e -> skipn k l = e :: skipn (S k) l.
Proof.
  revert k; induction l as [| a t IH]; intros k H; destruct k; simpl in *;
    try discriminate.
  - inversion H; reflexivity.
  - apply IH; exact H.
Qed.

Lemma raw_points_spec (sd : list (dict value)) (m : string) (N k : nat) (raw : list Q) :
  mapM (raw_point sd m) (seq k N) = Ok raw ->
  Forall2 (max_over_time ("obs_" ++ m)) (firstn N (skipn k sd)) raw.
Proof.
  revert k raw; induction N as [| N IH]; intros k raw H; simpl in H.
  - inversion H; constructor.
  - destruct (raw_point sd m k) as [r |] eqn:Hr; cbn [rbind] in H; [| discriminate].
    destruct (mapM (raw_point sd m) (seq (S k) N)) as [rs |] eqn:Hrs;
      cbn [rbind] in H; [| discriminate].
    inversion H; subst.
    unfold raw_point in Hr; unfold nth_err in Hr.
    destruct (nth_error sd k) as [e |] eqn:He; cbn [rbind] in Hr; [| discriminate].
    rewrite (skipn_nth_error sd k e He); cbn [firstn]; constructor.
    + unfold max_over_time.
      destruct (dict_get ("obs_" ++ m) e) as [[q | a] |]; cbn [rbind] in Hr;
        try discriminate.
      * right; inversion Hr; reflexivity.
      * left; exists a; split; [reflexivity | exact Hr].
    + apply IH; exact Hrs.
Qed.

Lemma normalize_spec (pathway obs : string) (inverse : bool) (N : nat)
    (sd : list (dict value)) (raw norm : list Q) :
  designated_observable pathway = Some (obs, inverse) ->
  normalize pathway N sd = Ok (raw, norm) ->
  Forall2 (max_over_time obs) (firstn N sd) raw /\
  minmax_scale (if inverse then map (fun r => 1 - r) raw else raw) = Ok norm.
Proof.
  intros Hd Hn.
  assert (Hr : readout pathway = Ok (match obs with
                                     | String _ (String _ (String _ (String _ m))) => m
                                     | _ => "" end, inverse)
               /\ obs = "obs_" ++ match obs with
                                  | String _ (String _ (String _ (String _ m))) => m
                                  | _ => "" end).
  { unfold designated_observable in Hd; unfold readout.
    destruct (String.eqb_spec pathway "Gs"); [subst; inversion Hd; subst; split; reflexivity |].
    destruct (String.eqb_spec pathway "Gi"); [subst; inversion Hd; subst; split; reflexivity |].
    destruct (String.eqb_spec pathway "Gq"); [subst; inversion Hd; subst; split; reflexivity |].
    discriminate. }
  destruct Hr as [Hr Hobs].
  unfold normalize in Hn; rewrite Hr in Hn; cbn [rbind] in Hn.
  destruct (mapM _ _) as [raw' |] eqn:Hm; cbn [rbind] in Hn; [| discriminate].
  destruct (minmax_scale _) as [norm' |] eqn:Hs; cbn [rbind] in Hn; [| discriminate].
  inversion Hn; subst raw' norm'.
  split; [| exact Hs].
  rewrite Hobs; rewrite <- (skipn_O sd) at 1; eapply raw_points_spec; exact Hm.
Qed.

(** C2: for every ligand of the simulation data (a dict: its keys are
    distinct), [activation.Analysis] and [inhibition.Analysis] reduce the i-th
    concentration point to the maximum over time of the pathway's designated
    observable, and the normalized response is [minmax_scale] of [1 - raw]
    for ['Gi'] and of [raw] for ['Gs'] and ['Gq'], computed from that ligand's
    sweep alone. *)
Theorem analysis_normalizes_within_ligand :
  forall (E : externals) (simdata : dict ligand_data) (pathway : string)
         (range : list Q) (dose : dict dose_entry) (obs : string) (inverse : bool),
  designated_observable pathway = Some (obs, inverse) ->
  (activation_Analysis E (Some simdata) pathway (Some range) = Ok dose \/
   inhibition_Analysis E (Some simdata) pathway (Some range) = Ok dose) ->
  NoDup (map fst simdata) ->
  forall ligand ld, In (ligand, ld) simdata ->
  exists d, dict_get ligand dose = Some d /\
    Forall2 (max_over_time obs) (firstn (List.length range) (sim_data ld)) (raw_y d) /\
    minmax_scale (if inverse then map (fun r => 1 - r) (raw_y d) else raw_y d)
      = Ok (normalized_y d).
Proof.
  intros E simdata pathway range dose obs inverse Hd HA Hnd ligand ld Hin.
  assert (H : exists msg, analysis E msg (Some simdata) pathway (Some range) = Ok dose)
    by (destruct HA as [HA | HA];
        [exists "There is no simulation data. simulation.activation.run() must be run first."
        | exists "There is no simulation data. simulation.inhibition.run() must be run first."];
        exact HA).
  destruct H as [msg H].
  destruct (analysis_entry E msg simdata pathway range dose ligand ld H Hnd Hin)
    as [mn [mx [d [_ [_ [Hl Hg]]]]]].
  destruct (analysis_ligand_unfold E pathway range mn mx ld d Hl)
    as [raw [norm [problem [p [Hn [_ [_ [Hraw [Hnorm _]]]]]]]]].
  exists d; split; [exact Hg |].
  rewrite Hraw, Hnorm; exact (normalize_spec pathway obs inverse _ _ raw norm Hd Hn).
Qed.

(** C8: for every ligand analysed by [activation.Analysis] or
    [inhibition.Analysis], the reported potency is Python's [round(EC, 5)]
    of the fitted EC/IC parameter (5 decimal places, in the units of the
    input concentrations), and the reported pEC50/pIC50 is
    [round(-log10(EC * 1e-6), 2)], where EC is the third parameter returned
    by [curve_fit] on this ligand's own problem: x the concentration range,
    y the ligand's normalized data (computed from its own sweep) and the
    bounds built from them. *)
Theorem analysis_potency_rounding :
  forall (E : externals) (simdata : dict ligand_data) (pathway : string)
         (range : list Q) (dose : dict dose_entry),
  (activation_Analysis E (Some simdata) pathway (Some range) = Ok dose \/
   inhibition_Analysis E (Some simdata) pathway (Some range) = Ok dose) ->
  NoDup (map fst simdata) ->
  forall ligand ld, In (ligand, ld) simdata ->
  exists d problem p,
    dict_get ligand dose = Some d /\
    normalize pathway (List.length range) (sim_data ld) = Ok (raw_y d, normalized_y d) /\
    logistic_problem range (normalized_y d) = Ok problem /\
    fp_x problem = range /\
    curve_fit E problem = Ok p /\
    potency d = py_round (popt_EC p) 5 /\
    pPotency d = py_round (- np_log10 E (popt_EC p * (1 # 1000000))) 2.
Proof.
  intros E simdata pathway range dose HA Hnd ligand ld Hin.
  assert (H : exists msg, analysis E msg (Some simdata) pathway (Some range) = Ok dose)
    by (destruct HA as [HA | HA];
        [exists "There is no simulation data. simulation.activation.run() must be run first."
        | exists "There is no simulation data. simulation.inhibition.run() must be run first."];
        exact HA).
  destruct H as [msg H].
  destruct (analysis_entry E msg simdata pathway range dose ligand ld H Hnd Hin)
    as [mn [mx [d [_ [_ [Hl Hg]]]]]].
  destruct (analysis_ligand_unfold E pathway range mn mx ld d Hl)
    as [raw [norm [problem [p [Hn [Hp [Hc [Hraw [Hnorm [Hpot HpP]]]]]]]]]].
  exists d, problem, p.
  rewrite Hraw, Hnorm; repeat split; try assumption.
  unfold logistic_problem in Hp.
  destruct (np_amin norm); cbn [rbind] in Hp; [| discriminate].
  destruct (np_amax norm); cbn [rbind] in Hp; [| discriminate].
  inversion Hp; reflexivity.
Qed.

Lemma logistic_problem_bounds (x y : list Q) (problem : fit_problem) :
  logistic_problem x y = Ok problem -> bounds_as_specified problem /\ fp_y problem = y.
Proof.
  unfold logistic_problem; intros H.
  destruct (np_amin y) as [ymin |] eqn:Hmin; cbn [rbind] in H; [| discriminate].
  destruct (np_amax y) as [ymax |] eqn:Hmax; cbn [rbind] in H; [| discriminate].
  inversion H; subst; split; [| reflexivity].
  split; [reflexivity |]; exists ymin, ymax; simpl; repeat split; assumption.
Qed.

Lemma fold_left_ext {A B} (f g : A -> B -> A) (l : list B) (a : A) :
  (forall acc b, f acc b = g acc b) -> fold_left f l a = fold_left g l a.
Proof.
  intros Hfg; revert a; induction l as [| b t IH]; intros a; simpl;
    [reflexivity | rewrite Hfg; apply IH].
Qed.

Section CurveFitCalls.
Variable E : externals.
Variable cf : fit_problem -> result popt.
Hypothesis cf_agrees : forall p, bounds_as_specified p -> cf p = curve_fit E p.

Lemma analysis_ligand_cf pathway range mn mx ld :
  analysis_ligand (with_curve_fit E cf) pathway range mn mx ld =
  analysis_ligand E pathway range mn mx ld.
Proof.
  unfold analysis_ligand.
  destruct (normalize pathway (List.length range) (sim_data ld)) as [[raw norm] |];
    cbn [rbind]; [| reflexivity].
  destruct (logistic_problem range norm) as [problem |] eqn:Hp; cbn [rbind]; [| reflexivity].
  simpl curve_fit; rewrite (cf_agrees problem (proj1 (logistic_problem_bounds _ _ _ Hp))).
  reflexivity.
Qed.

Lemma analysis_cf msg sd pathway range :
  analysis (with_curve_fit E cf) msg sd pathway range = analysis E msg sd pathway range.
Proof.
  unfold analysis.
  destruct sd; cbn [rbind]; [| reflexivity].
  destruct range as [r |]; cbn [rbind]; [| reflexivity].
  destruct (np_amin r); cbn [rbind]; [| reflexivity].
  destruct (np_amax r); cbn [rbind]; [| reflexivity].
  apply fold_left_ext; intros acc item.
  rewrite analysis_ligand_cf; reflexivity.
Qed.

Lemma maxbend_cf range bd :
  maxbend (with_curve_fit E cf) range bd = maxbend E range bd.
Proof.
  unfold maxbend.
  destruct (np_amin range); cbn [rbind]; [| reflexivity].
  destruct (np_amax range); cbn [rbind]; [| reflexivity].
  destruct bd as [data |]; cbn [rbind]; [| reflexivity].
  destruct (logistic_problem range data) as [problem |] eqn:Hp; cbn [rbind]; [| reflexivity].
  simpl curve_fit; rewrite (cf_agrees problem (proj1 (logistic_problem_bounds _ _ _ Hp))).
  reflexivity.
Qed.

End CurveFitCalls.

(** C4: every logistic fit of the toolkit ([activation.Analysis],
    [inhibition.Analysis], [binding.maxbend]) calls [curve_fit] with the
    model [Bottom + (Top-Bottom)/(1+(EC/x)^p)] and the bounds
    Bottom in [min(y), +inf), Top in (-inf, max(y)], EC unbounded and
    p in [0.5, 2.5], where y is the fitted response vector: replacing
    [curve_fit] by any [cf] that agrees with it on such problems
    ([bounds_as_specified]) leaves all three results unchanged, and the
    model evaluates to the stated formula. *)
Theorem logistic_fits_bounded :
  forall (E : externals) (cf : fit_problem -> result popt),
  (forall p, bounds_as_specified p -> cf p = curve_fit E p) ->
  (forall sd pathway range,
     activation_Analysis (with_curve_fit E cf) sd pathway range =
     activation_Analysis E sd pathway range) /\
  (forall sd pathway range,
     inhibition_Analysis (with_curve_fit E cf) sd pathway range =
     inhibition_Analysis E sd pathway range) /\
  (forall range bd, maxbend (with_curve_fit E cf) range bd = maxbend E range bd) /\
  (forall X Bottom Top EC p,
     eval_model E Logistic4 X (Bottom, Top, EC, p) =
     Bottom + (Top - Bottom) / (1 + np_power E (EC / X) p)).
Proof.
  intros E cf Hcf; repeat split; intros.
  - apply analysis_cf; exact Hcf.
  - apply analysis_cf; exact Hcf.
  - apply maxbend_cf; exact Hcf.
Qed.

(** ** Point count and failures of the fit *)

Section AnalysisFold.
Variable g : ligand_data -> result dose_entry.

Definition analysis_step (acc : result (dict dose_entry)) (item : string * ligand_data) :=
  dose <- acc ;; d <- g (snd item) ;; Ok (dict_set (fst item) d dose).

Lemma analysis_fold_ok (l : list (string * ligand_data)) (dose0 : dict dose_entry) :
  (forall item, In item l -> exists d, g (snd item) = Ok d) ->
  exists dose, fold_left analysis_step l (Ok dose0) = Ok dose.
Proof.
  revert dose0; induction l as [| it t IH]; intros dose0 Hall; cbn [fold_left].
  - eexists; reflexivity.
  - destruct (Hall it (or_introl eq_refl)) as [d Hd].
    assert (Hs : analysis_step (Ok dose0) it = Ok (dict_set (fst it) d dose0))
      by (unfold analysis_step; cbn [rbind]; rewrite Hd; reflexivity).
    rewrite Hs; apply IH; intros item Hi; apply Hall; right; exact Hi.
Qed.

Lemma analysis_fold_err (pre post : list (string * ligand_data)) (ligand : string)
    (ld : ligand_data) (e : exn) (dose0 : dict dose_entry) :
  Forall (fun item => exists d, g (snd item) = Ok d) pre ->
  g ld = Err e ->
  fold_left analysis_step (app pre ((ligand, ld) :: post)) (Ok dose0) = Err e.
Proof.
  revert dose0; induction pre as [| it t IH]; intros dose0 Hpre Hg; cbn [app fold_left].
  - assert (Hs : analysis_step (Ok dose0) (ligand, ld) = Err e)
      by (unfold analysis_step; cbn [rbind]; simpl snd; rewrite Hg; reflexivity).
    rewrite Hs.
    apply (fold_err (fun s l => d <- g (snd l) ;; Ok (dict_set (fst l) d s))).
  - inversion Hpre as [| ? ? [d Hd] Ht]; subst.
    assert (Hs : analysis_step (Ok dose0) it = Ok (dict_set (fst it) d dose0))
      by (unfold analysis_step; cbn [rbind]; rewrite Hd; reflexivity).
    rewrite Hs; apply IH; assumption.
Qed.

End AnalysisFold.

Lemma analysis_as_fold (E : externals) msg simdata pathway range mn mx :
  np_amin range = Ok mn -> np_amax range = Ok mx ->
  analysis E msg (Some simdata) pathway (Some range) =
  fold_left (analysis_step (analysis_ligand E pathway range mn mx)) simdata (Ok []).
Proof.
  intros Hmn Hmx; unfold analysis; cbn [rbind]; rewrite Hmn, Hmx; cbn [rbind].
  reflexivity.
Qed.

Lemma np_geomspace_ok (E : externals) (a b : Q) (n : Z) :
  ~ a == 0 -> ~ b == 0 -> (0 <= n)%Z -> np_geomspace E a b n = Ok (geomspace E a b n).
Proof.
  intros Ha Hb Hn; unfold np_geomspace.
  destruct (Qeq_bool a 0) eqn:Ha'; [apply Qeq_bool_eq in Ha'; contradiction |].
  destruct (Qeq_bool b 0) eqn:Hb'; [apply Qeq_bool_eq in Hb'; contradiction |].
  cbn [orb]; destruct (Z.ltb_spec n 0); [lia | reflexivity].
Qed.

Lemma np_geomspace_zero (E : externals) (a b : Q) (n : Z) :
  a == 0 \/ b == 0 -> np_geomspace E a b n = Err ValueError.
Proof.
  intros H; unfold np_geomspace.
  destruct H as [H | H]; apply Qeq_bool_iff in H; rewrite H;
    [reflexivity | rewrite orb_true_r; reflexivity].
Qed.

Lemma np_geomspace_inv (E : externals) (a b : Q) (n : Z) (l : list Q) :
  np_geomspace E a b n = Ok l -> ~ a == 0 /\ ~ b == 0 /\ l = geomspace E a b n.
Proof.
  unfold np_geomspace; intros H.
  destruct (Qeq_bool a 0) eqn:Ha; [discriminate |].
  destruct (Qeq_bool b 0) eqn:Hb; [discriminate |].
  destruct (n <? 0)%Z; [discriminate |]; inversion H.
  split; [intro Ha'; apply Qeq_bool_iff in Ha'; congruence |].
  split; [intro Hb'; apply Qeq_bool_iff in Hb'; congruence | reflexivity].
Qed.

Lemma analysis_ligand_fit_ok (E : externals) pathway range mn mx ld raw norm problem p :
  ~ mn == 0 -> ~ mx == 0 ->
  normalize pathway (List.length range) (sim_data ld) = Ok (raw, norm) ->
  logistic_problem range norm = Ok problem -> curve_fit E problem = Ok p ->
  exists d, analysis_ligand E pathway range mn mx ld = Ok d.
Proof.
  intros Hmn Hmx Hn Hp Hc; unfold analysis_ligand; rewrite Hn; cbn [rbind].
  rewrite Hp; cbn [rbind]; rewrite Hc; cbn [rbind].
  rewrite (np_geomspace_ok E mn mx 50000 Hmn Hmx ltac:(lia)); cbn [rbind].
  eexists; reflexivity.
Qed.

Lemma analysis_ligand_geomspace_err (E : externals) pathway range mn mx ld raw norm problem p :
  mn == 0 \/ mx == 0 ->
  normalize pathway (List.length range) (sim_data ld) = Ok (raw, norm) ->
  logistic_problem range norm = Ok problem -> curve_fit E problem = Ok p ->
  analysis_ligand E pathway range mn mx ld = Err ValueError.
Proof.
  intros Hz Hn Hp Hc; unfold analysis_ligand; rewrite Hn; cbn [rbind].
  rewrite Hp; cbn [rbind]; rewrite Hc; cbn [rbind].
  rewrite (np_geomspace_zero E mn mx 50000 Hz); reflexivity.
Qed.

Lemma analysis_ligand_fit_err (E : externals) pathway range mn mx ld raw norm problem e :
  normalize pathway (List.length range) (sim_data ld) = Ok (raw, norm) ->
  logistic_problem range norm = Ok problem -> curve_fit E problem = Err e ->
  analysis_ligand E pathway range mn mx ld = Err e.
Proof.
  intros Hn Hp Hc; unfold analysis_ligand; rewrite Hn; cbn [rbind].
  rewrite Hp; cbn [rbind]; rewrite Hc; reflexivity.
Qed.

(** C6 (as the code behaves): [activation.Analysis] and [inhibition.Analysis]
    (the function [analysis] with their own error message) check neither the
    number of concentration points nor their distinctness before fitting:
    when the minimum and maximum of the range are non-zero and, for every
    ligand, the normalization, the bounds and the [curve_fit] call succeed,
    the analysis returns fitted results, whatever the length of the range;
    an error of [curve_fit] on the first failing ligand is returned to the
    caller unchanged; and when the minimum or maximum of the range is 0,
    [np.geomspace] raises ValueError right after the first ligand's fit
    succeeds. *)
Theorem analysis_fit_no_point_check :
  forall (E : externals) (msg : string) (simdata : dict ligand_data)
         (pathway : string) (range : list Q) (mn mx : Q),
  np_amin range = Ok mn -> np_amax range = Ok mx ->
  (~ mn == 0 -> ~ mx == 0 ->
   (forall ligand ld, In (ligand, ld) simdata ->
      exists raw norm problem p,
        normalize pathway (List.length range) (sim_data ld) = Ok (raw, norm) /\
        logistic_problem range norm = Ok problem /\ curve_fit E problem = Ok p) ->
   exists dose, analysis E msg (Some simdata) pathway (Some range) = Ok dose) /\
  (forall pre ligand ld post raw norm problem e,
     simdata = app pre ((ligand, ld) :: post) ->
     Forall (fun item => exists d,
               analysis_ligand E pathway range mn mx (snd item) = Ok d) pre ->
     normalize pathway (List.length range) (sim_data ld) = Ok (raw, norm) ->
     logistic_problem range norm = Ok problem ->
     curve_fit E problem = Err e ->
     analysis E msg (Some simdata) pathway (Some range) = Err e) /\
  (forall ligand ld post raw norm problem p,
     mn == 0 \/ mx == 0 ->
     simdata = (ligand, ld) :: post ->
     normalize pathway (List.length range) (sim_data ld) = Ok (raw, norm) ->
     logistic_problem range norm = Ok problem ->
     curve_fit E problem = Ok p ->
     analysis E msg (Some simdata) pathway (Some range) = Err ValueError).
Proof.
  intros E msg simdata pathway range mn mx Hmn Hmx.
  rewrite (analysis_as_fold E msg simdata pathway range mn mx Hmn Hmx).
  split; [| split].
  - intros Hmn0 Hmx0 Hall; apply analysis_fold_ok.
    intros [ligand ld] Hin; simpl snd.
    destruct (Hall ligand ld Hin) as [raw [norm [problem [p [Hn [Hp Hc]]]]]].
    eapply analysis_ligand_fit_ok; eassumption.
  - intros pre ligand ld post raw norm problem e Hsd Hpre Hn Hp Hc; subst simdata.
    apply analysis_fold_err; [exact Hpre |].
    eapply analysis_ligand_fit_err; eassumption.
  - intros ligand ld post raw norm problem p Hz Hsd Hn Hp Hc; subst simdata.
    apply (analysis_fold_err _ [] post ligand ld); [constructor |].
    eapply analysis_ligand_geomspace_err; eassumption.
Qed.

(** C6: the toolkit's analysis returns fitted results on a range of only
    three distinct concentrations: no failure is raised for fewer than four
    points. *)
Lemma analysis_three_points_fits :
  List.length ex_range = 3%nat /\ NoDup ex_range /\
  exists dose, activation_Analysis ex_externals (Some ex_sim_data) "Gs" (Some ex_range)
                 = Ok dose.
Proof.
  split; [reflexivity |]; split.
  - unfold ex_range; repeat constructor; simpl; intros H;
      repeat (destruct H as [H | H]; [discriminate H |]); exact H.
  - eexists; vm_compute; reflexivity.
Qed.

(** ** The submaximal concentration of [binding.maxbend] *)

Lemma maxbend_unfold (E : externals) (range data : list Q) (x : Q) :
  maxbend E range (Some data) = Ok x ->
  exists mn mx problem p x0 y,
    np_amin range = Ok mn /\ np_amax range = Ok mx /\
    logistic_problem range data = Ok problem /\ curve_fit E problem = Ok p /\
    np_amax (geomspace E mn mx 50000) = Ok x0 /\
    nelder_mead E SigmoidDerivB x0 p = Ok y /\
    x = py_round y 3.
Proof.
  unfold maxbend; intros H; cbn [rbind] in H.
  destruct (np_amin range) as [mn |] eqn:Hmn; cbn [rbind] in H; [| discriminate].
  destruct (np_amax range) as [mx |] eqn:Hmx; cbn [rbind] in H; [| discriminate].
  destruct (np_geomspace E mn mx 50000) as [xfit |] eqn:Hg; cbn [rbind] in H; [| discriminate].
  apply np_geomspace_inv in Hg as [_ [_ Hg]]; subst xfit.
  destruct (logistic_problem range data) as [problem |] eqn:Hp; cbn [rbind] in H;
    [| discriminate].
  destruct (curve_fit E problem) as [p |] eqn:Hc; cbn [rbind] in H; [| discriminate].
  destruct (np_amax (geomspace E mn mx 50000)) as [x0 |] eqn:Hx0; cbn [rbind] in H;
    [| discriminate].
  destruct (nelder_mead E SigmoidDerivB x0 p) as [y |] eqn:Hy; cbn [rbind] in H;
    [| discriminate].
  inversion H; subst x.
  exists mn, mx, problem, p, x0, y; repeat split; assumption.
Qed.

Lemma py_round_3_grid (y : Q) : exists z, py_round y 3 = z # 1000.
Proof. eexists; reflexivity. Qed.

(** Over a range narrower than 0.001 with no multiple of 0.001 inside, no
    result of [maxbend] lies strictly between its bounds, whatever the fit
    and the minimiser return. *)
Lemma maxbend_narrow_range_outside (E : externals) (data : list Q) (x : Q) :
  maxbend E ex_narrow_range (Some data) = Ok x ->
  ~ (1 # 10000 < x /\ x < 4 # 10000).
Proof.
  intros H [Hlo Hhi].
  destruct (maxbend_unfold E _ _ _ H) as [_ [_ [_ [_ [_ [y [_ [_ [_ [_ [_ [_ Hx]]]]]]]]]]]].
  destruct (py_round_3_grid y) as [z Hz]; rewrite Hz in Hx; subst x.
  unfold Qlt in Hlo, Hhi; simpl in Hlo, Hhi; lia.
Qed.

(** C7 (as the code behaves): [binding.maxbend] fits the logistic to the
    binding data, minimises [sigmoid_deriv_b] at the fitted parameters by
    Nelder-Mead seeded at [np.max] of the 50000-point geometric grid over
    [min(lig_conc_range), max(lig_conc_range)], and returns the minimiser
    rounded to 3 decimals: a multiple of 0.001, not constrained to lie inside
    the concentration range. *)
Theorem maxbend_nelder_mead_rounded :
  forall (E : externals) (range data : list Q) (x : Q),
  maxbend E range (Some data) = Ok x ->
  (exists mn mx problem p x0 y,
     np_amin range = Ok mn /\ np_amax range = Ok mx /\
     logistic_problem range data = Ok problem /\ curve_fit E problem = Ok p /\
     np_amax (geomspace E mn mx 50000) = Ok x0 /\
     nelder_mead E SigmoidDerivB x0 p = Ok y /\
     x = py_round y 3) /\
  exists z, x = z # 1000.
Proof.
  intros E range data x H; split; [exact (maxbend_unfold E range data x H) |].
  destruct (maxbend_unfold E range data x H)
    as [_ [_ [_ [_ [_ [y [_ [_ [_ [_ [_ [_ Hx]]]]]]]]]]]].
  subst x; apply py_round_3_grid.
Qed.

(** C7: over the range [1e-4, 4e-4], [maxbend] returns 0.000, which is not
    strictly between the bounds of the range. *)
Lemma maxbend_result_outside_range :
  maxbend ex_externals ex_narrow_range (Some ex_binding_data) = Ok (0 # 1000) /\
  ~ (1 # 10000 < 0 # 1000).
Proof.
  split; [vm_compute; reflexivity |].
  unfold Qlt; simpl; lia.
Qed.

(** ** The calibration search of [fitModel.Run] *)

Definition trial_ok (FX : fit_externals) (prec : nat) (r : fval) (s : Q) : Prop :=
  exists d, default_target FX = Some d /\ calc_ratio FX prec (d * s) = Ok r.

Definition search_outcome (e : Q) (inc : pyval) (dec : option pyval) (s0 : Q) (n : nat)
    (R : list fval) (S : list Q) (seed_end : pyval) (conv : bool) : Prop :=
  if conv then
    exists R0 r S0 s, R = app R0 [r] /\ S = app S0 [s] /\
      run_chain e inc dec s0 R0 S0 s /\ feq r e = true
  else List.length S = n /\ exists s_end, seed_end = PFloat s_end /\
      run_chain e inc dec s0 R S s_end.

Ltac search_continue IH H Hi Heq Hlt Hok conv r s0 fin :=
  lazymatch type of H with search _ _ _ _ ?st1 = _ =>
    let He := fresh "He" in let Hm := fresh "Hm" in let Hinc := fresh "Hinc" in
    let Hdec := fresh "Hdec" in let R := fresh "R" in let S := fresh "S" in
    let HR := fresh "HR" in let HS := fresh "HS" in let Hlen := fresh "Hlen" in
    let HF := fresh "HF" in let Hout := fresh "Hout" in
    destruct (IH st1 _ _ _ eq_refl H)
      as [He [Hm [Hinc [Hdec [R [S [HR [HS [Hlen [HF Hout]]]]]]]]]];
    simpl in He, Hm, Hinc, Hdec, HR, HS, Hout;
    try rewrite Hi in Hinc; try rewrite Hi in Hdec; rewrite Hi in Hout;
    split; [exact He |]; split; [exact Hm |]; split; [exact Hinc |];
    split; [exact Hdec |];
    exists (r :: R), (s0 :: S);
    rewrite HR, HS, <- !app_assoc; split; [reflexivity |]; split; [reflexivity |];
    split; [simpl; lia |]; split; [constructor; [exact Hok | exact HF] |];
    unfold search_outcome in *; destruct conv;
    [ let R0 := fresh "R0" in let r' := fresh "r'" in let S0 := fresh "S0" in
      let s' := fresh "s'" in let Hc := fresh "Hc" in let Hf := fresh "Hf" in
      let HR0 := fresh "HR0" in let HS0 := fresh "HS0" in
      destruct Hout as [R0 [r' [S0 [s' [HR0 [HS0 [Hc Hf]]]]]]];
      exists (r :: R0), r', (s0 :: S0), s'; subst R S;
      split; [reflexivity |]; split; [reflexivity |]; split; [| exact Hf];
      simpl; split; [reflexivity |]; eexists; split; [| exact Hc];
      split; [exact Heq |]; rewrite Hlt; fin
    | let Hl := fresh "Hl" in let s_end := fresh "s_end" in
      let Hse := fresh "Hse" in let Hc := fresh "Hc" in
      destruct Hout as [Hl [s_end [Hse Hc]]]; split; [simpl; lia |];
      exists s_end; split; [exact Hse |];
      simpl; split; [reflexivity |]; eexists; split; [| exact Hc];
      split; [exact Heq |]; rewrite Hlt; fin ]
  end.

Lemma search_spec (FX : fit_externals) (prec : nat) (e : Q) (n : nat) :
  forall st st' conv s0,
  fm_seed st = PFloat s0 ->
  search FX prec e n st = Ok (st', conv) ->
  fm_expratio st' = fm_expratio st /\ fm_maxiter st' = fm_maxiter st /\
  fm_seed_incrementor st' = fm_seed_incrementor st /\
  fm_seed_decrementor st' = fm_seed_decrementor st /\
  exists R S, fm_lst_ratio st' = app (fm_lst_ratio st) R /\
    fm_lst_seed st' = app (fm_lst_seed st) S /\
    (List.length S <= n)%nat /\
    Forall2 (trial_ok FX prec) R S /\
    search_outcome e (fm_seed_incrementor st) (fm_seed_decrementor st) s0 n R S
      (fm_seed st') conv.
Proof.
  induction n as [| n IH]; intros st st' conv s0 Hs H; simpl in H.
  - inversion H; subst; repeat split.
    exists [], []; rewrite !app_nil_r; split; [reflexivity |]; split; [reflexivity |].
    split; [simpl; lia |]; split; [constructor |].
    simpl; split; [reflexivity |]; exists s0; split; [exact Hs | reflexivity].
  - rewrite Hs in H; cbn [py_float rbind] in H.
    destruct (default_target FX) as [d |] eqn:Hd; cbn [rbind] in H; [| discriminate].
    destruct (calc_ratio FX prec (d * s0)) as [r |] eqn:Hr; cbn [rbind] in H;
      [| discriminate].
    assert (Hok : trial_ok FX prec r s0) by (exists d; split; assumption).
    destruct (feq r e) eqn:Heq.
    + inversion H; subst; simpl; repeat split.
      exists [r], [s0]; split; [reflexivity |]; split; [reflexivity |].
      split; [simpl; lia |]; split; [constructor; [exact Hok | constructor] |].
      exists [], r, [], s0; split; [reflexivity |]; split; [reflexivity |].
      split; [reflexivity | exact Heq].
    + destruct (flt r e) eqn:Hlt.
      * destruct (fm_seed_incrementor st) as [| i | i |] eqn:Hi; cbn [rbind] in H;
          try discriminate;
          search_continue IH H Hi Heq Hlt Hok conv r s0 ltac:(eexists; split; reflexivity).
      * destruct (fm_seed_decrementor st) as [[| dq | dz |] |] eqn:Hi; cbn [rbind] in H;
          try discriminate;
          search_continue IH H Hi Heq Hlt Hok conv r s0
            ltac:(do 2 eexists; split; [reflexivity |]; split; reflexivity).
Qed.

(** C3: in every run of [fitModel.Run] that returns, the search made at
    most [maxiter] trials ([_lst_ratio] and [_lst_seed] record them); each
    trial's ratio is [calc_ratio] (the last peaks' ratio rounded to the
    decimal precision of [expratio]) at the default target value scaled by
    the trial's seed; the first seed is the [seed] argument; every trial but
    a converged last one has a ratio different from [expratio] and moves the
    seed up by [seed_incrementor] when the ratio is below [expratio] and down
    by [seed_decrementor] otherwise; the run stops converged exactly when the
    last ratio equals [expratio], and otherwise ends exhausted after exactly
    [maxiter] trials. *)
Theorem fitModel_search_trials :
  forall (FX : fit_externals) (st : fitModel_state) (kwargs : dict pyval)
         (st' : fitModel_state) (conv : bool),
  fitModel_Run FX st kwargs = Ok (st', conv) ->
  exists e s0 m,
    fm_expratio st' = PFloat e /\ fm_maxiter st' = PInt m /\
    (exists v, dict_get "seed" kwargs = Some v /\ py_float v = Ok s0) /\
    (List.length (fm_lst_seed st') <= Z.to_nat m)%nat /\
    Forall2 (trial_ok FX (str_precision e)) (fm_lst_ratio st') (fm_lst_seed st') /\
    search_outcome e (fm_seed_incrementor st') (fm_seed_decrementor st') s0 (Z.to_nat m)
      (fm_lst_ratio st') (fm_lst_seed st') (fm_seed st') conv.
Proof.
  intros FX st kwargs st' conv H; unfold fitModel_Run in H; cbn [rbind] in H.
  destruct (dict_get "expratio" kwargs) as [ve |]; cbn [rbind] in H; [| discriminate].
  destruct (py_float ve) as [e |] eqn:He; cbn [rbind] in H; [| discriminate].
  destruct (dict_get "seed" kwargs) as [vs |] eqn:Hvs; cbn [rbind] in H; [| discriminate].
  destruct (py_float vs) as [s0 |] eqn:Hs0; cbn [rbind] in H; [| discriminate].
  do 4 (match type of H with
         | rbind ?m _ = _ =>
             let x := fresh "x" in
             destruct m as [x |]; cbn [rbind] in H; [| discriminate]
         end).
  destruct (negb _); [discriminate |].
  cbn [py_float rbind] in H.
  lazymatch type of H with
  | rbind (match fm_maxiter ?st1 with _ => _ end) _ = _ =>
      destruct (fm_maxiter st1) as [| q | m | str] eqn:Hm; cbn [rbind] in H;
        try discriminate;
      lazymatch type of H with search _ _ _ _ ?st2 = _ =>
        destruct (search_spec FX _ e _ st2 st' conv s0 eq_refl H)
          as [He' [Hm' [Hinc [Hdec [R [S [HR [HS [Hlen [HF Hout]]]]]]]]]]
      end
  end.
  simpl in He', Hm', HR, HS.
  exists e, s0, m; split; [exact He' |]; split; [rewrite Hm'; exact Hm |].
  split; [exists vs; split; [reflexivity | exact Hs0] |].
  rewrite HR, HS; simpl; split; [exact Hlen |]; split; [exact HF |].
  rewrite Hinc, Hdec; exact Hout.
Qed.

(** ** Keyword arguments omitted in [fitModel.Run] *)

Lemma with_maxiter_same (st : fitModel_state) : with_maxiter st (fm_maxiter st) = st.
Proof. destruct st; reflexivity. Qed.

Lemma run_without_maxiter_none (FX : fit_externals) (st : fitModel_state) (kwargs : dict pyval) :
  dict_get "maxiter" kwargs = None ->
  fitModel_Run FX (with_maxiter st PNone) kwargs =
  match fitModel_Run FX (with_maxiter st (PInt 0)) kwargs with
  | Ok _ => Err (TypeError "'NoneType' object cannot be interpreted as an integer")
  | Err ex => Err ex
  end.
Proof.
  intros Hm; unfold fitModel_Run; rewrite Hm; cbn [rbind].
  repeat (lazymatch goal with
          | |- context [rbind (py_float ?v) _] => destruct (py_float v)
          | |- context [match dict_get ?k kwargs with _ => _ end] =>
              destruct (dict_get k kwargs)
          end; cbn [rbind]); try reflexivity.
  all: cbn [with_args fm_ttotal with_maxiter with_search fm_maxiter].
  all: destruct (negb (truthy (fm_ttotal st))); reflexivity.
Qed.

Lemma run_keeps_absent (FX : fit_externals) (st : fitModel_state) (kwargs : dict pyval)
    (st' : fitModel_state) (conv : bool) :
  fitModel_Run FX st kwargs = Ok (st', conv) ->
  (dict_get "maxiter" kwargs = None -> fm_maxiter st' = fm_maxiter st) /\
  (dict_get "seed_incrementor" kwargs = None ->
     fm_seed_incrementor st' = fm_seed_incrementor st) /\
  (dict_get "seed_decrementor" kwargs = None ->
     fm_seed_decrementor st' = fm_seed_decrementor st).
Proof.
  unfold fitModel_Run; intros H.
  repeat (lazymatch type of H with
          | context [rbind (py_float ?v) _] =>
              let Hv := fresh "Hv" in destruct (py_float v) eqn:Hv
          | context [rbind (py_int ?v) _] =>
              let Hv := fresh "Hv" in destruct (py_int v) eqn:Hv
          | context [match dict_get ?k kwargs with _ => _ end] =>
              let Hk := fresh "Hk" in destruct (dict_get k kwargs) eqn:Hk
          end; cbn [rbind] in H; try discriminate H).
  all: destruct (negb _); [discriminate H |].
  all: cbn [py_float rbind] in H.
  all: try discriminate H.
  all: lazymatch type of H with
       | rbind (match fm_maxiter ?st1 with _ => _ end) _ = _ =>
           destruct (fm_maxiter st1) as [| q | m | str] eqn:Hm; cbn [rbind] in H;
             try discriminate H;
           lazymatch type of H with search _ _ _ _ ?st2 = _ =>
             destruct (search_spec FX _ _ _ st2 st' conv _ eq_refl H)
               as [_ [Hm' [Hinc [Hdec _]]]]
           end
       end.
  all: simpl in Hm, Hm', Hinc, Hdec.
  all: repeat split; intros Habs; congruence.
Qed.

Lemma search_increment_fails (FX : fit_externals) (prec : nat) (e : Q) (n : nat)
    (st : fitModel_state) (s d : Q) (r : fval) :
  fm_seed st = PFloat s -> default_target FX = Some d ->
  calc_ratio FX prec (d * s) = Ok r -> feq r e = false -> flt r e = true ->
  num_of (fm_seed_incrementor st) = None ->
  search FX prec e (S n) st = Err (TypeError "unsupported operand type(s) for +=").
Proof.
  intros Hs Hd Hr Heq Hlt Hi; simpl; rewrite Hs; cbn [py_float rbind].
  rewrite Hd; cbn [rbind]; rewrite Hr; cbn [rbind]; rewrite Heq, Hlt.
  destruct (fm_seed_incrementor st); try discriminate Hi; reflexivity.
Qed.

Lemma search_decrement_fails (FX : fit_externals) (prec : nat) (e : Q) (n : nat)
    (st : fitModel_state) (s d : Q) (r : fval) :
  fm_seed st = PFloat s -> default_target FX = Some d ->
  calc_ratio FX prec (d * s) = Ok r -> feq r e = false -> flt r e = false ->
  (fm_seed_decrementor st = None ->
   search FX prec e (S n) st = Err (AttributeError "_seed_decrementor")) /\
  (forall v, fm_seed_decrementor st = Some v -> num_of v = None ->
   search FX prec e (S n) st = Err (TypeError "unsupported operand type(s) for -=")).
Proof.
  intros Hs Hd Hr Heq Hlt; split; [intros Hn | intros v Hv Hnum];
    simpl; rewrite Hs; cbn [py_float rbind];
    rewrite Hd; cbn [rbind]; rewrite Hr; cbn [rbind]; rewrite Heq, Hlt.
  - rewrite Hn; reflexivity.
  - rewrite Hv; destruct v; try discriminate Hnum; reflexivity.
Qed.

Lemma run_without_maxiter (FX : fit_externals) (st : fitModel_state) (kwargs : dict pyval) :
  dict_get "maxiter" kwargs = None -> fm_maxiter st = PNone ->
  fitModel_Run FX st kwargs =
  match fitModel_Run FX (with_maxiter st (PInt 0)) kwargs with
  | Ok _ => Err (TypeError "'NoneType' object cannot be interpreted as an integer")
  | Err ex => Err ex
  end.
Proof.
  intros Hk Hm.
  assert (Hst : with_maxiter st PNone = st) by (rewrite <- Hm; apply with_maxiter_same).
  rewrite <- Hst at 1; rewrite run_without_maxiter_none by exact Hk.
  unfold with_maxiter; reflexivity.
Qed.

(** C10 (as the code behaves): the fallbacks of [kwargs.pop] in
    [fitModel.Run] are never used. [__init__] sets [_maxiter] and
    [_seed_incrementor] to [None]. A call omitting [maxiter] on an instance
    whose [_maxiter] is [None] never runs the loop: it fails as the same
    call with [_maxiter = 0] would, or, where that call returns, with the
    [TypeError] of [range(None)]. A due increment whose [_seed_incrementor]
    is not a number raises [TypeError], and so does a due decrement whose
    [_seed_decrementor] holds a value that is not a number. An omitted
    argument leaves the value of the previous [Run] in place. *)
Theorem fitModel_step_defaults_unused :
  forall FX : fit_externals,
  (fm_maxiter fitModel_init = PNone /\ fm_seed_incrementor fitModel_init = PNone) /\
  (forall st kwargs, dict_get "maxiter" kwargs = None -> fm_maxiter st = PNone ->
     fitModel_Run FX st kwargs =
     match fitModel_Run FX (with_maxiter st (PInt 0)) kwargs with
     | Ok _ => Err (TypeError "'NoneType' object cannot be interpreted as an integer")
     | Err ex => Err ex
     end) /\
  (forall prec e n st s d r,
     fm_seed st = PFloat s -> default_target FX = Some d ->
     calc_ratio FX prec (d * s) = Ok r -> feq r e = false -> flt r e = true ->
     num_of (fm_seed_incrementor st) = None ->
     search FX prec e (S n) st = Err (TypeError "unsupported operand type(s) for +=")) /\
  (forall prec e n st s d r v,
     fm_seed st = PFloat s -> default_target FX = Some d ->
     calc_ratio FX prec (d * s) = Ok r -> feq r e = false -> flt r e = false ->
     fm_seed_decrementor st = Some v -> num_of v = None ->
     search FX prec e (S n) st = Err (TypeError "unsupported operand type(s) for -=")) /\
  (forall st kwargs st' conv,
     fitModel_Run FX st kwargs = Ok (st', conv) ->
     (dict_get "maxiter" kwargs = None -> fm_maxiter st' = fm_maxiter st) /\
     (dict_get "seed_incrementor" kwargs = None ->
        fm_seed_incrementor st' = fm_seed_incrementor st) /\
     (dict_get "seed_decrementor" kwargs = None ->
        fm_seed_decrementor st' = fm_seed_decrementor st)).
Proof.
  intros FX; split; [split; reflexivity |]; split; [| split; [| split]].
  - intros st kwargs; apply run_without_maxiter.
  - intros prec e n st s d r; apply search_increment_fails.
  - intros prec e n st s d r v Hs Hd Hr Heq Hlt Hv Hnum.
    exact (proj2 (search_decrement_fails FX prec e n st s d r Hs Hd Hr Heq Hlt) v Hv Hnum).
  - intros st kwargs st' conv; apply run_keeps_absent.
Qed.

(** C10: on an instance reused after a complete call, a call omitting
    [maxiter], [seed_incrementor] and [seed_decrementor] runs the search
    with the earlier values and returns, instead of raising [TypeError]. *)
Lemma fitModel_missing_args_not_typeerror :
  match fitModel_Run ex_fit_externals ex_fit_fresh ex_kwargs_full with
  | Ok (st1, _) =>
      fm_maxiter st1 <> PNone /\
      exists res, fitModel_Run ex_fit_externals st1 ex_kwargs_no_maxiter = Ok res
  | Err _ => False
  end.
Proof.
  vm_compute; split; [discriminate | eexists; reflexivity].
Qed.

(** ** Instances of the statements *)

Lemma activation_kinetic_binding_skips_input_checks_witness :
  activation_check_inputs ex_kinetic_no_ttotal = Ok tt /\
  activation_Run ex_externals ex_kinetic_no_ttotal <> Err (TypeError "ttotal undefined.").
Proof.
  destruct (activation_kinetic_binding_skips_input_checks ex_externals ex_kinetic_no_ttotal
              ["L1"] "Gs" eq_refl eq_refl eq_refl eq_refl) as [H1 H2].
  split; [exact H1 | apply H2; reflexivity].
Defined.

Lemma run_records_full_sweep_witness :
  exists t, forall ligand, In ligand ["L1"; "L2"] ->
    exists entry, dict_get (splitext_root ex_externals ligand) ex_sim_data = Some entry /\
      List.length (sim_data entry) = List.length ex_range /\
      Forall2 (entry_holds t (list_of_observables ex_externals (run_pathway "Gs")))
        ex_range (sim_data entry).
Proof.
  refine (proj1 (run_records_full_sweep ex_externals) ex_activation ex_sim_data
            ["L1"; "L2"] ex_range "Gs" _ eq_refl eq_refl eq_refl _ _).
  - vm_compute; reflexivity.
  - simpl; intuition discriminate.
  - simpl; intuition discriminate.
Defined.

Lemma analysis_normalizes_within_ligand_witness :
  exists dose d,
    activation_Analysis ex_externals (Some ex_sim_data) "Gs" (Some ex_range) = Ok dose /\
    dict_get "L1" dose = Some d /\
    Forall2 (max_over_time "obs_cAMP") (firstn 3 (sim_data ex_ld1)) (raw_y d) /\
    minmax_scale (raw_y d) = Ok (normalized_y d).
Proof.
  destruct (activation_Analysis ex_externals (Some ex_sim_data) "Gs" (Some ex_range))
    as [dose |] eqn:HA; [| vm_compute in HA; discriminate HA].
  destruct (analysis_normalizes_within_ligand ex_externals ex_sim_data "Gs" ex_range dose
              "obs_cAMP" false eq_refl (or_introl HA)
              ltac:(vm_compute; repeat constructor; simpl; intuition discriminate)
              "L1" ex_ld1 ltac:(vm_compute; left; reflexivity))
    as [d [Hg [HF Hs]]].
  exists dose, d; split; [reflexivity |]; split; [exact Hg |]; split; [exact HF | exact Hs].
Defined.

Lemma analysis_potency_rounding_witness :
  exists dose d problem p,
    inhibition_Analysis ex_externals (Some ex_sim_data) "Gs" (Some ex_range) = Ok dose /\
    dict_get "L1" dose = Some d /\
    normalize "Gs" (List.length ex_range) (sim_data ex_ld1) = Ok (raw_y d, normalized_y d) /\
    logistic_problem ex_range (normalized_y d) = Ok problem /\ fp_x problem = ex_range /\
    curve_fit ex_externals problem = Ok p /\
    potency d = py_round (popt_EC p) 5 /\
    pPotency d = py_round (- np_log10 ex_externals (popt_EC p * (1 # 1000000))) 2.
Proof.
  destruct (inhibition_Analysis ex_externals (Some ex_sim_data) "Gs" (Some ex_range))
    as [dose |] eqn:HA; [| vm_compute in HA; discriminate HA].
  destruct (analysis_potency_rounding ex_externals ex_sim_data "Gs" ex_range dose
              (or_intror HA)
              ltac:(vm_compute; repeat constructor; simpl; intuition discriminate)
              "L1" ex_ld1 ltac:(vm_compute; left; reflexivity))
    as [d [problem [p [Hg [Hn [Hp [Hx [Hc [Hp1 Hp2]]]]]]]]].
  exists dose, d, problem, p; repeat split; assumption.
Defined.

Lemma logistic_fits_bounded_witness :
  maxbend (with_curve_fit ex_externals ex_cf) ex_narrow_range (Some ex_binding_data) =
  maxbend ex_externals ex_narrow_range (Some ex_binding_data).
Proof.
  refine (proj1 (proj2 (proj2 (logistic_fits_bounded ex_externals ex_cf _))) _ _).
  intros p [_ [ymin [ymax [_ [_ [Hl Hu]]]]]].
  unfold ex_cf; rewrite Hl, Hu; reflexivity.
Defined.

Lemma analysis_fit_no_point_check_witness :
  (exists dose,
     analysis ex_externals "no data" (Some ex_sim_data) "Gs" (Some ex_range) = Ok dose) /\
  analysis ex_externals "no data" (Some ex_sim_data) "Gs" (Some ex_zero_range) = Err ValueError.
Proof.
  split.
  - refine (proj1 (analysis_fit_no_point_check ex_externals "no data" ex_sim_data "Gs"
                     ex_range (1 # 10) 10 _ _) _ _ _).
    + vm_compute; reflexivity.
    + vm_compute; reflexivity.
    + intros H; vm_compute in H; discriminate H.
    + intros H; vm_compute in H; discriminate H.
    + intros ligand ld Hin; vm_compute in Hin.
      destruct Hin as [H | [H | []]]; inversion H; subst;
        do 4 eexists; (split; [reflexivity | split; reflexivity]).
  - refine (proj2 (proj2 (analysis_fit_no_point_check ex_externals "no data" ex_sim_data "Gs"
                            ex_zero_range 0 10 _ _)) "L1" ex_ld1 (skipn 1 ex_sim_data)
              _ _ _ _ _ _ _ _ _).
    + vm_compute; reflexivity.
    + vm_compute; reflexivity.
    + left; reflexivity.
    + vm_compute; reflexivity.
    + vm_compute; reflexivity.
    + vm_compute; reflexivity.
    + vm_compute; reflexivity.
Defined.

Lemma maxbend_nelder_mead_rounded_witness :
  exists z, (0 # 1000) = z # 1000.
Proof.
  exact (proj2 (maxbend_nelder_mead_rounded ex_externals ex_narrow_range ex_binding_data
                  (0 # 1000) ltac:(vm_compute; reflexivity))).
Defined.

Lemma fitModel_search_trials_witness :
  match fitModel_Run ex_fit_externals ex_fit_fresh ex_kwargs_full with
  | Ok (st', conv) =>
      exists e s0 m,
        fm_expratio st' = PFloat e /\ fm_maxiter st' = PInt m /\
        (exists v, dict_get "seed" ex_kwargs_full = Some v /\ py_float v = Ok s0) /\
        (List.length (fm_lst_seed st') <= Z.to_nat m)%nat /\
        Forall2 (trial_ok ex_fit_externals (str_precision e)) (fm_lst_ratio st')
          (fm_lst_seed st') /\
        search_outcome e (fm_seed_incrementor st') (fm_seed_decrementor st') s0
          (Z.to_nat m) (fm_lst_ratio st') (fm_lst_seed st') (fm_seed st') conv
  | Err _ => False
  end.
Proof.
  destruct (fitModel_Run ex_fit_externals ex_fit_fresh ex_kwargs_full)
    as [[st' conv] |] eqn:H; [| vm_compute in H; discriminate H].
  exact (fitModel_search_trials ex_fit_externals ex_fit_fresh ex_kwargs_full st' conv H).
Defined.

Lemma fitModel_step_defaults_unused_witness :
  fitModel_Run ex_fit_externals ex_fit_fresh ex_kwargs_no_maxiter =
  Err (TypeError "'NoneType' object cannot be interpreted as an integer").
Proof.
  rewrite (proj1 (proj2 (fitModel_step_defaults_unused ex_fit_externals))
             ex_fit_fresh ex_kwargs_no_maxiter eq_refl eq_refl).
  vm_compute; reflexivity.
Defined.

(** The one-site value exceeds the ligand concentration when the receptor
    is in excess: with 10 of receptor, 1 of ligand and pKd = 0 (Kd = 1). *)
Lemma one_site_occupancy_above_ligand :
  one_site_occupancy 10 1 1 == 5 /\ 1 < one_site_occupancy 10 1 1.
Proof. split; reflexivity. Qed.


(** ** Reading back the step counts of the RAMD logs *)

Lemma sapp_assoc (a b c : string) : (a ++ b) ++ c = a ++ (b ++ c).
Proof. induction a; simpl; congruence. Qed.

Lemma sapp_empty (a : string) : a ++ "" = a.
Proof. induction a; simpl; congruence. Qed.

Lemma slen_app (a b : string) : String.length (a ++ b) = (String.length a + String.length b)%nat.
Proof. induction a; simpl; congruence. Qed.

Lemma list_ascii_app (a b : string) :
  list_ascii_of_string (a ++ b) = app (list_ascii_of_string a) (list_ascii_of_string b).
Proof. induction a; simpl; congruence. Qed.

Lemma prefix_self (w y : string) : prefix w (w ++ y) = true.
Proof.
  induction w; simpl.
  - destruct y; reflexivity.
  - destruct (ascii_dec a a); [exact IHw | congruence].
Qed.

Lemma index_self (w y : string) : w <> "" -> index 0 w (w ++ y) = Some 0%nat.
Proof.
  intro H. destruct w as [|a w]; [congruence|].
  pose proof (prefix_self (String a w) y) as Hp. cbn [append] in Hp |- *.
  cbn [index]. rewrite Hp. reflexivity.
Qed.

Lemma prefix_straddle (w x2 z : string) :
  prefix w (x2 ++ z) = true ->
  prefix w x2 = true \/ exists w2, w = x2 ++ w2 /\ prefix w2 z = true.
Proof.
  revert w. induction x2 as [|b x2 IH]; intros w H.
  - right. exists w. split; [reflexivity | exact H].
  - destruct w as [|a w]; [left; reflexivity|].
    simpl in H. destruct (ascii_dec a b) as [<-|]; [|discriminate].
    destruct (IH w H) as [Hl | [w2 [-> Hw2]]].
    + left. simpl. destruct (ascii_dec a a); [exact Hl | congruence].
    + right. exists w2. split; [reflexivity | exact Hw2].
Qed.

Lemma index_none_suffix (w p1 p2 : string) :
  index 0 w (p1 ++ p2) = None -> prefix w p2 = false.
Proof.
  induction p1 as [|b p1 IH]; intro H; cbn [append index] in H.
  - destruct p2 as [|b p2]; cbn [index] in H.
    + destruct w; [discriminate | reflexivity].
    + destruct (prefix w (String b p2)); [discriminate | reflexivity].
  - destruct (prefix w (String b (p1 ++ p2))); [discriminate|].
    destruct (index 0 w (p1 ++ p2)); [discriminate | exact (IH eq_refl)].
Qed.

Lemma index_app_skip (w x z : string) :
  (forall x1 x2, x = x1 ++ x2 -> x2 <> "" -> prefix w (x2 ++ z) = false) ->
  index 0 w (x ++ z) = option_map (Nat.add (String.length x)) (index 0 w z).
Proof.
  induction x as [|b x IH]; intro H.
  - simpl. destruct (index 0 w z); reflexivity.
  - cbn [append index String.length].
    pose proof (H "" (String b x) eq_refl ltac:(discriminate)) as H0. cbn [append] in H0.
    rewrite H0. rewrite IH.
    + destruct (index 0 w z); reflexivity.
    + intros x1 x2 Hx Hne. apply (H (String b x1) x2); [simpl; congruence | exact Hne].
Qed.

Lemma index_after_prefix (w p z : string) :
  index 0 w p = None ->
  (forall w1 w2, w = w1 ++ w2 -> w1 <> "" -> w2 <> "" -> prefix w2 z = false) ->
  index 0 w (p ++ z) = option_map (Nat.add (String.length p)) (index 0 w z).
Proof.
  intros Hp Hb. apply index_app_skip. intros x1 x2 Hx Hne.
  destruct (prefix w (x2 ++ z)) eqn:Hpre; [|reflexivity].
  exfalso. subst p.
  destruct (prefix_straddle _ _ _ Hpre) as [Hl | [w2 [Hw Hw2]]].
  - rewrite (index_none_suffix _ _ _ Hp) in Hl. discriminate.
  - destruct w2 as [|a w2].
    + rewrite sapp_empty in Hw. subst w.
      pose proof (index_none_suffix _ _ _ Hp) as Hf.
      rewrite <- (sapp_empty x2) in Hf at 2. rewrite prefix_self in Hf. discriminate.
    + rewrite (Hb x2 (String a w2) Hw Hne ltac:(discriminate)) in Hw2. discriminate.
Qed.

Lemma prefix_no_first_char (a : ascii) (w q z : string) :
  (forall c, In c (list_ascii_of_string q) -> c <> a) ->
  forall x1 x2, q = x1 ++ x2 -> x2 <> "" -> prefix (String a w) (x2 ++ z) = false.
Proof.
  intros Hq x1 x2 Hx Hne. destruct x2 as [|b x2]; [congruence|].
  simpl. destruct (ascii_dec a b) as [<-|]; [|reflexivity].
  exfalso. apply (Hq a); [|reflexivity].
  subst q. rewrite list_ascii_app. apply in_or_app. right. left. reflexivity.
Qed.

Lemma substring_app (x y z : string) :
  substring (String.length x) (String.length y) (x ++ y ++ z) = y.
Proof.
  induction x as [|b x IH]; simpl.
  - induction y as [|c y IHy]; simpl; [destruct z; reflexivity | congruence].
  - exact IH.
Qed.

Lemma py_slice_mid (s : string) (i j : nat) :
  (i <= j)%nat -> (j <= String.length s)%nat ->
  py_slice s (Z.of_nat i) (Z.of_nat j) = substring i (j - i) s.
Proof.
  intros Hij Hj. unfold py_slice.
  rewrite (proj2 (Z.ltb_ge (Z.of_nat i) 0)) by lia.
  rewrite (proj2 (Z.ltb_ge (Z.of_nat j) 0)) by lia.
  rewrite Z.min_l by lia. rewrite Z.min_l by lia.
  f_equal; lia.
Qed.

Lemma digit_not_space (c : ascii) (v : Z) : digit_val c = Some v -> is_py_space c = false.
Proof.
  unfold digit_val, is_py_space. intro H.
  destruct (Nat.leb 48 (nat_of_ascii c) && Nat.leb (nat_of_ascii c) 57) eqn:E; [|discriminate].
  apply andb_prop in E as [E1 E2]. apply Nat.leb_le in E1. apply Nat.leb_le in E2.
  destruct (Nat.leb 9 (nat_of_ascii c)) eqn:F1; destruct (Nat.leb (nat_of_ascii c) 13) eqn:F2;
  destruct (Nat.eqb (nat_of_ascii c) 32) eqn:F3;
  simpl; try reflexivity;
  repeat match goal with
         | Hb : Nat.leb _ _ = true |- _ => apply Nat.leb_le in Hb
         | Hb : Nat.leb _ _ = false |- _ => apply Nat.leb_gt in Hb
         | Hb : Nat.eqb _ _ = true |- _ => apply Nat.eqb_eq in Hb
         end; lia.
Qed.

Lemma digit_not_sign (c : ascii) (v : Z) :
  digit_val c = Some v -> Ascii.eqb c "-"%char = false /\ Ascii.eqb c "+"%char = false.
Proof.
  intro H. split.
  - destruct (Ascii.eqb_spec c "-"%char) as [->|]; [discriminate | reflexivity].
  - destruct (Ascii.eqb_spec c "+"%char) as [->|]; [discriminate | reflexivity].
Qed.

Lemma drop_space_digits (l : list ascii) :
  (forall c, In c l -> exists v, digit_val c = Some v) -> drop_space l = l.
Proof.
  destruct l as [|c t]; intro H; [reflexivity|].
  destruct (H c (or_introl eq_refl)) as [v Hv]. simpl. rewrite (digit_not_space _ _ Hv). reflexivity.
Qed.

Lemma py_int_of_str_digits (D : string) (c : ascii) (t : list ascii) :
  list_ascii_of_string D = c :: t ->
  (forall x, In x (c :: t) -> exists v, digit_val x = Some v) ->
  py_int_of_str D = match digits_from 0 (c :: t) with Some z => Ok z | None => Err ValueError end.
Proof.
  intros HD Hall. unfold py_int_of_str. rewrite HD.
  rewrite (drop_space_digits _ Hall).
  rewrite (drop_space_digits (rev (c :: t))) by (intros x Hx; apply Hall; apply in_rev; exact Hx).
  rewrite rev_involutive.
  destruct (Hall c (or_introl eq_refl)) as [v Hv].
  destruct (digit_not_sign _ _ Hv) as [Hm Hp]. rewrite Hm, Hp.
  unfold int_digits. simpl digits_from. rewrite Hv. reflexivity.
Qed.

Lemma uint_chars_digits (d : Decimal.uint) :
  forall c, In c (list_ascii_of_string (NilEmpty.string_of_uint d)) -> exists v, digit_val c = Some v.
Proof.
  induction d; simpl; intros c Hc; try contradiction;
    (destruct Hc as [<- | Hc]; [eexists; reflexivity | exact (IHd c Hc)]).
Qed.
Lemma digits_from_digit (acc : Z) (c : ascii) (t : list ascii) (v : Z) :
  digit_val c = Some v -> digits_from acc (c :: t) = digits_from (acc * 10 + v) t.
Proof. intro H. cbn [digits_from]. rewrite H. reflexivity. Qed.

Lemma digits_from_uint (d : Decimal.uint) (acc : Z) :
  (0 <= acc)%Z ->
  digits_from acc (list_ascii_of_string (NilEmpty.string_of_uint d)) =
  Some (Z.of_nat (Nat.of_uint_acc d (Z.to_nat acc))).
Proof.
  revert acc. induction d; intros acc Hacc;
    cbn [NilEmpty.string_of_uint list_ascii_of_string];
    [cbn [digits_from Nat.of_uint_acc]; f_equal; lia | ..];
    (erewrite digits_from_digit by reflexivity;
     match goal with
     | |- context [(nat_of_ascii ?c - 48)%nat] =>
         let v := eval vm_compute in (nat_of_ascii c - 48)%nat in
         change (nat_of_ascii c - 48)%nat with v
     end;
     rewrite IHd by lia; cbn [Nat.of_uint_acc]; do 3 f_equal;
     rewrite Nat.tail_mul_spec; lia).
Qed.

Lemma nilzero_cases (d : Decimal.uint) :
  (d = Decimal.Nil /\ NilZero.string_of_uint d = "0") \/
  NilZero.string_of_uint d = NilEmpty.string_of_uint d.
Proof. destruct d; [left; split; reflexivity | right; reflexivity ..]. Qed.

Lemma py_int_of_str_uint (d : Decimal.uint) :
  py_int_of_str (NilZero.string_of_uint d) = Ok (Z.of_nat (Nat.of_uint d)).
Proof.
  destruct (nilzero_cases d) as [[-> _] | Hs]; [reflexivity|].
  rewrite Hs.
  destruct (list_ascii_of_string (NilEmpty.string_of_uint d)) as [|c t] eqn:HL.
  - destruct d; discriminate.
  - rewrite (py_int_of_str_digits _ c t HL)
      by (intros x Hx; rewrite <- HL in Hx; exact (uint_chars_digits _ x Hx)).
    rewrite <- HL. rewrite (digits_from_uint d 0) by lia. reflexivity.
Qed.

Lemma no_border (w z : string) :
  (forall k, (0 < k < String.length w)%nat ->
     prefix (substring k (String.length w - k) w) z = false) ->
  forall w1 w2, w = w1 ++ w2 -> w1 <> "" -> w2 <> "" -> prefix w2 z = false.
Proof.
  intros H w1 w2 Hw H1 H2.
  assert (Hk : w2 = substring (String.length w1) (String.length w - String.length w1) w).
  { subst w. rewrite slen_app. replace (String.length w1 + String.length w2 - String.length w1)%nat
      with (String.length w2) by lia.
    rewrite <- (sapp_empty (w1 ++ w2)), sapp_assoc, substring_app. reflexivity. }
  rewrite Hk. apply H. subst w. rewrite slen_app.
  destruct w1; [congruence|]. destruct w2; [congruence|]. simpl. lia.
Qed.

Lemma digit_not (x a : ascii) (v : Z) : digit_val a = None -> digit_val x = Some v -> x <> a.
Proof. intros Ha Hx ->. congruence. Qed.

Lemma uint_string_digits (d : Decimal.uint) :
  forall c, In c (list_ascii_of_string (NilZero.string_of_uint d)) -> exists v, digit_val c = Some v.
Proof.
  destruct (nilzero_cases d) as [[-> ->] | ->].
  - intros c [<- | []]. eexists; reflexivity.
  - apply uint_chars_digits.
Qed.

(** X1: a GROMACS log line [p ++ "after" ++ c ++ str(n) ++ c' ++ "steps" ++ s], where [p] holds neither "after" nor "steps" and the separators [c], [c'] are not 's', is read back by the [#Get Data] loop as the step count [n]. *)
Theorem tau_gromacs_line_roundtrip (p s : string) (c c' : ascii) (n : nat) :
  py_find p "after" = (-1)%Z -> py_find p "steps" = (-1)%Z ->
  c <> "s"%char -> c' <> "s"%char ->
  parse_line (PStr "GROMACS")
    (p ++ "after" ++ String c (NilZero.string_of_uint (Nat.to_uint n) ++ String c' ("steps" ++ s)))
  = Ok (Z.of_nat n).
Proof.
  intros Ha Hs Hc Hc'.
  set (D := NilZero.string_of_uint (Nat.to_uint n)).
  assert (Ha' : index 0 "after" p = None)
    by (unfold py_find in Ha; destruct (index 0 "after" p); [lia | reflexivity]).
  assert (Hs' : index 0 "steps" p = None)
    by (unfold py_find in Hs; destruct (index 0 "steps" p); [lia | reflexivity]).
  set (q := "after" ++ String c (D ++ String c' "")).
  assert (Hz : "after" ++ String c (D ++ String c' ("steps" ++ s)) = q ++ ("steps" ++ s)).
  { unfold q. simpl. rewrite sapp_assoc. reflexivity. }
  assert (Hfa : py_find (p ++ "after" ++ String c (D ++ String c' ("steps" ++ s))) "after"
                = Z.of_nat (String.length p)).
  { unfold py_find. rewrite index_after_prefix; [ | exact Ha' | ].
    - rewrite index_self by discriminate. simpl. f_equal. lia.
    - apply no_border. intros k Hk. simpl in Hk.
      destruct k as [|[|[|[|[|k]]]]]; try lia; reflexivity. }
  assert (Hfs : py_find (p ++ "after" ++ String c (D ++ String c' ("steps" ++ s))) "steps"
                = Z.of_nat (String.length p + String.length q)).
  { unfold py_find. rewrite index_after_prefix; [ | exact Hs' | ].
    - rewrite Hz. rewrite index_app_skip.
      + rewrite index_self by discriminate. simpl. f_equal. lia.
      + apply (prefix_no_first_char "s"%char "teps" q).
        intros x Hx. unfold q in Hx. rewrite list_ascii_app in Hx. simpl in Hx.
        destruct Hx as [<- | [<- | [<- | [<- | [<- | [<- | Hx]]]]]]; try discriminate; [exact Hc|].
        rewrite list_ascii_app in Hx. apply in_app_or in Hx as [Hx | [<- | []]]; [|exact Hc'].
        destruct (uint_string_digits _ x Hx) as [v Hv]. exact (digit_not x "s" v eq_refl Hv).
    - apply no_border. intros k Hk. simpl in Hk.
      destruct k as [|[|[|[|[|k]]]]]; try lia; reflexivity. }
  unfold parse_line. simpl pyval_is. cbv iota. rewrite Hfa, Hfs.
  assert (HL : p ++ "after" ++ String c (D ++ String c' ("steps" ++ s))
               = (p ++ "after" ++ String c "") ++ D ++ String c' ("steps" ++ s)).
  { rewrite sapp_assoc. reflexivity. }
  assert (Hq : String.length q = (7 + String.length D)%nat).
  { unfold q. simpl. rewrite slen_app. simpl. lia. }
  rewrite Hq.
  replace (Z.of_nat (String.length p) + 6)%Z with (Z.of_nat (String.length (p ++ "after" ++ String c "")))
    by (rewrite slen_app; simpl; lia).
  replace (Z.of_nat (String.length p + (7 + String.length D)) - 1)%Z
    with (Z.of_nat (String.length (p ++ "after" ++ String c "") + String.length D))
    by (rewrite slen_app; simpl; lia).
  rewrite HL. rewrite py_slice_mid.
  - replace (String.length (p ++ "after" ++ String c "") + String.length D
             - String.length (p ++ "after" ++ String c ""))%nat with (String.length D) by lia.
    rewrite substring_app. unfold D. rewrite py_int_of_str_uint.
    rewrite DecimalNat.Unsigned.of_to. reflexivity.
  - lia.
  - rewrite !slen_app. simpl. rewrite ?slen_app. simpl. lia.
Qed.

(** X2: a NAMD log line [p ++ "EXIT:" ++ c ++ str(n) ++ c1 ++ c2 ++ ">" ++ s], where [p] holds neither "EXIT:" nor ">" and the three separators are not '>', is read back as the step count [n]: the slice stops two characters before the '>'. *)
Theorem tau_namd_line_roundtrip (p s : string) (c c1 c2 : ascii) (n : nat) :
  py_find p "EXIT:" = (-1)%Z -> py_find p ">" = (-1)%Z ->
  c <> ">"%char -> c1 <> ">"%char -> c2 <> ">"%char ->
  parse_line (PStr "NAMD")
    (p ++ "EXIT:" ++ String c (NilZero.string_of_uint (Nat.to_uint n) ++ String c1 (String c2 (">" ++ s))))
  = Ok (Z.of_nat n).
Proof.
  intros Ha Hs Hc Hc1 Hc2.
  set (D := NilZero.string_of_uint (Nat.to_uint n)).
  assert (Ha' : index 0 "EXIT:" p = None)
    by (unfold py_find in Ha; destruct (index 0 "EXIT:" p); [lia | reflexivity]).
  assert (Hs' : index 0 ">" p = None)
    by (unfold py_find in Hs; destruct (index 0 ">" p); [lia | reflexivity]).
  set (q := "EXIT:" ++ String c (D ++ String c1 (String c2 ""))).
  assert (Hz : "EXIT:" ++ String c (D ++ String c1 (String c2 (">" ++ s))) = q ++ (">" ++ s)).
  { unfold q. simpl. rewrite sapp_assoc. reflexivity. }
  assert (Hfa : py_find (p ++ "EXIT:" ++ String c (D ++ String c1 (String c2 (">" ++ s)))) "EXIT:"
                = Z.of_nat (String.length p)).
  { unfold py_find. rewrite index_after_prefix; [ | exact Ha' | ].
    - rewrite index_self by discriminate. simpl. f_equal. lia.
    - apply no_border. intros k Hk. simpl in Hk.
      destruct k as [|[|[|[|[|k]]]]]; try lia; reflexivity. }
  assert (Hfs : py_find (p ++ "EXIT:" ++ String c (D ++ String c1 (String c2 (">" ++ s)))) ">"
                = Z.of_nat (String.length p + String.length q)).
  { unfold py_find. rewrite index_after_prefix; [ | exact Hs' | ].
    - rewrite Hz. rewrite index_app_skip.
      + rewrite index_self by discriminate. simpl. f_equal. lia.
      + apply (prefix_no_first_char ">"%char "" q).
        intros x Hx. unfold q in Hx. rewrite list_ascii_app in Hx. simpl in Hx.
        destruct Hx as [<- | [<- | [<- | [<- | [<- | [<- | Hx]]]]]]; try discriminate; [exact Hc|].
        rewrite list_ascii_app in Hx.
        apply in_app_or in Hx as [Hx | [<- | [<- | []]]]; [| exact Hc1 | exact Hc2].
        destruct (uint_string_digits _ x Hx) as [v Hv]. exact (digit_not x ">" v eq_refl Hv).
    - apply no_border. intros k Hk. simpl in Hk. lia. }
  unfold parse_line. simpl pyval_is. cbv iota. rewrite Hfa, Hfs.
  assert (HL : p ++ "EXIT:" ++ String c (D ++ String c1 (String c2 (">" ++ s)))
               = (p ++ "EXIT:" ++ String c "") ++ D ++ String c1 (String c2 (">" ++ s))).
  { rewrite sapp_assoc. reflexivity. }
  assert (Hq : String.length q = (8 + String.length D)%nat).
  { unfold q. simpl. rewrite slen_app. simpl. lia. }
  rewrite Hq.
  replace (Z.of_nat (String.length p) + 6)%Z with (Z.of_nat (String.length (p ++ "EXIT:" ++ String c "")))
    by (rewrite slen_app; simpl; lia).
  replace (Z.of_nat (String.length p + (8 + String.length D)) - 2)%Z
    with (Z.of_nat (String.length (p ++ "EXIT:" ++ String c "") + String.length D))
    by (rewrite slen_app; simpl; lia).
  rewrite HL. rewrite py_slice_mid.
  - replace (String.length (p ++ "EXIT:" ++ String c "") + String.length D
             - String.length (p ++ "EXIT:" ++ String c ""))%nat with (String.length D) by lia.
    rewrite substring_app. unfold D. rewrite py_int_of_str_uint.
    rewrite DecimalNat.Unsigned.of_to. reflexivity.
  - lia.
  - rewrite !slen_app. simpl. rewrite ?slen_app. simpl. lia.
Qed.


(** ** tauRAMD.Run *)

Section TauLemmas.
Variable TX : tau_externals.

Lemma tau_get_data_unknown (sw dt : pyval) (d : Q) (files : list string) (f : string) :
  pyval_is sw "NAMD" = false -> pyval_is sw "GROMACS" = false ->
  num_of dt = Some d -> In f files -> readlines TX f <> [] ->
  forall acc, snd (tau_get_data TX sw dt files acc)
              = Err (TypeError "ERROR: sofware unknown. options: NAMD, GROMACS").
Proof.
  intros Hn Hg Hd Hf Hl. induction files as [|x rest IH]; [destruct Hf|].
  intros acc. simpl. unfold tau_times.
  destruct (readlines TX x) as [|r rs] eqn:Hx.
  - simpl. rewrite Hd. simpl. apply IH. destruct Hf as [<- | Hf]; [congruence | exact Hf].
  - simpl. unfold parse_line. rewrite Hn, Hg. reflexivity.
Qed.

Lemma tau_get_data_ok (sw dt : pyval) (files : list string) :
  forall acc ts u, tau_get_data TX sw dt files acc = (ts, Ok u) ->
  exists ts', mapM (fun f => tau_times sw dt (readlines TX f)) files = Ok ts' /\ ts = app acc ts'.
Proof.
  induction files as [|x rest IH]; intros acc ts u H; simpl in H.
  - inversion H; subst. exists []. rewrite app_nil_r. split; reflexivity.
  - destruct (tau_times sw dt (readlines TX x)) as [t|e] eqn:Ht; [|discriminate].
    destruct (IH _ _ _ H) as [ts' [H1 H2]]. exists (t :: ts'). simpl. rewrite Ht. simpl.
    rewrite H1. simpl. split; [reflexivity|]. rewrite H2, <- app_assoc. reflexivity.
Qed.

Lemma tau_parse_ok (ts : list (list Q)) :
  forall acc last u, tau_parse TX ts acc = (last, Ok u) ->
  (ts = [] /\ last = None) \/
  (exists mus, mapM (replica_mu TX) ts = Ok mus /\
     last = Some (py_round (qmean (app acc (map (fun m => py_round m 1) mus))) 2)).
Proof.
  induction ts as [|t rest IH]; intros acc last u H; simpl in H.
  - inversion H; subst. left. split; reflexivity.
  - right. destruct (replica_mu TX t) as [mu|e] eqn:Hm; [|discriminate].
    destruct (tau_parse TX rest (app acc [py_round mu 1])) as [l r] eqn:Hr.
    inversion H; subst.
    destruct (IH _ _ _ Hr) as [[-> ->] | [mus [H1 H2]]].
    + exists [mu]. simpl. rewrite Hm. simpl. split; reflexivity.
    + exists (mu :: mus). simpl. rewrite Hm. simpl. rewrite H1. simpl. split; [reflexivity|].
      rewrite H2, <- app_assoc. reflexivity.
Qed.

End TauLemmas.

(** X3: [tauRAMD.Run] without a [prefix] raises a TypeError and leaves the instance unchanged; with a prefix, the prefix and the [dt] and [softwr] in effect (the keyword arguments, else the stored values) are stored whatever the outcome of the call. *)
Theorem tauRAMD_Run_arguments (TX : tau_externals) (st : tau_state) (kw : dict pyval) :
  match dict_get "prefix" kw with
  | None => tauRAMD_Run TX st kw = (st, Err (TypeError "ERROR: prefix is missing"))
  | Some p =>
      let st' := fst (tauRAMD_Run TX st kw) in
      tr_prefix st' = p /\
      tr_dt st' = match dict_get "dt" kw with Some v => v | None => tr_dt st end /\
      tr_softwr st' = match dict_get "softwr" kw with Some v => v | None => tr_softwr st end
  end.
Proof.
  unfold tauRAMD_Run. destruct (dict_get "prefix" kw) as [p|]; [|reflexivity].
  destruct p; simpl; auto.
  destruct (tau_get_data TX _ _ _ []) as [ts [u|e]]; simpl; auto.
  destruct (tau_parse TX ts []) as [l [u'|e']]; simpl; auto.
  destruct l; simpl; [auto|]. destruct (tr_RTmean st); simpl; auto.
Qed.

(** X4: when the software is neither "NAMD" nor "GROMACS" and [dt] is a number, [tauRAMD.Run] raises the unknown-software TypeError as soon as one of the globbed files has a line. *)
Theorem tauRAMD_Run_unknown_software (TX : tau_externals) (st : tau_state) (kw : dict pyval)
    (p : string) (sw dt : pyval) (d : Q) (f : string) :
  dict_get "prefix" kw = Some (PStr p) ->
  match dict_get "softwr" kw with Some v => v | None => tr_softwr st end = sw ->
  match dict_get "dt" kw with Some v => v | None => tr_dt st end = dt ->
  pyval_is sw "NAMD" = false -> pyval_is sw "GROMACS" = false ->
  num_of dt = Some d ->
  In f (glob_dat TX (p ++ "*.dat")) -> readlines TX f <> [] ->
  snd (tauRAMD_Run TX st kw) = Err (TypeError "ERROR: sofware unknown. options: NAMD, GROMACS").
Proof.
  intros Hp Hs Hd Hn Hg Hdt Hf Hl. unfold tauRAMD_Run. rewrite Hp, Hs, Hd.
  pose proof (tau_get_data_unknown TX sw dt d _ f Hn Hg Hdt Hf Hl []) as H.
  destruct (tau_get_data TX sw dt _ []) as [ts r]. simpl in H. subst r. reflexivity.
Qed.

(** X5: when the glob finds no file, [tauRAMD.Run] keeps the previous [_RTmean] and [RT] and stores an empty [_times_set]; it raises AttributeError on [_RTmean] on a fresh instance and succeeds if an earlier run had set it. *)
Theorem tauRAMD_Run_no_files (TX : tau_externals) (st : tau_state) (kw : dict pyval) (p : string) :
  dict_get "prefix" kw = Some (PStr p) -> glob_dat TX (p ++ "*.dat") = [] ->
  snd (tauRAMD_Run TX st kw)
    = match tr_RTmean st with None => Err (AttributeError "_RTmean") | Some _ => Ok tt end /\
  tr_RTmean (fst (tauRAMD_Run TX st kw)) = tr_RTmean st /\
  tr_RT (fst (tauRAMD_Run TX st kw)) = tr_RT st /\
  tr_times_set (fst (tauRAMD_Run TX st kw)) = Some [].
Proof.
  intros Hp Hg. unfold tauRAMD_Run. rewrite Hp, Hg. simpl.
  destruct (tr_RTmean st); simpl; auto.
Qed.

(** X6: [tauRAMD.Run] keeps the invariant [RT = _RTmean] (both absent or both equal), whatever the outcome of the call. *)
Theorem tauRAMD_Run_RT_RTmean (TX : tau_externals) (st : tau_state) (kw : dict pyval) :
  tr_RT st = tr_RTmean st ->
  tr_RT (fst (tauRAMD_Run TX st kw)) = tr_RTmean (fst (tauRAMD_Run TX st kw)).
Proof.
  intros H. unfold tauRAMD_Run. destruct (dict_get "prefix" kw) as [p|]; [|exact H].
  destruct p; simpl; auto.
  destruct (tau_get_data TX _ _ _ []) as [ts [u|e]]; simpl; auto.
  destruct (tau_parse TX ts []) as [l [u'|e']]; simpl; destruct l; simpl; auto;
    destruct (tr_RTmean st); simpl; auto.
Qed.

(** X7: after a successful [tauRAMD.Run], the files are those globbed for the prefix, [_times_set] holds the times read from each file in order, and [_RTmean] is either the previous value (when no file was found) or the mean of the per-replica [mu] rounded to one decimal, rounded to two decimals. *)
Theorem tauRAMD_Run_success (TX : tau_externals) (st : tau_state) (kw : dict pyval) :
  snd (tauRAMD_Run TX st kw) = Ok tt ->
  let sw := match dict_get "softwr" kw with Some v => v | None => tr_softwr st end in
  let dt := match dict_get "dt" kw with Some v => v | None => tr_dt st end in
  let st' := fst (tauRAMD_Run TX st kw) in
  exists p files ts,
    dict_get "prefix" kw = Some (PStr p) /\
    glob_dat TX (p ++ "*.dat") = files /\ tr_files st' = Some files /\
    mapM (fun f => tau_times sw dt (readlines TX f)) files = Ok ts /\
    tr_times_set st' = Some ts /\
    ((ts = [] /\ tr_RTmean st' = tr_RTmean st /\ tr_RTmean st <> None) \/
     (exists mus, mapM (replica_mu TX) ts = Ok mus /\
        tr_RTmean st' = Some (py_round (qmean (map (fun m => py_round m 1) mus)) 2))).
Proof.
  intros H sw dt st'. subst st'. unfold tauRAMD_Run in *.
  destruct (dict_get "prefix" kw) as [p|]; [|discriminate].
  destruct p as [| | |p]; try discriminate. fold sw dt in H |- *.
  destruct (tau_get_data TX sw dt _ []) as [ts [u|e]] eqn:Hget; [|discriminate].
  destruct (tau_get_data_ok TX sw dt _ _ _ _ Hget) as [ts' [Hm Hts]]. simpl in Hts. subst ts'.
  destruct (tau_parse TX ts []) as [l [u'|e']] eqn:Hpar; [|discriminate].
  exists p, (glob_dat TX (p ++ "*.dat")), ts.
  destruct (tau_parse_ok TX ts [] l u' Hpar) as [[-> ->] | [mus [H1 H2]]].
  - simpl in H |- *. destruct (tr_RTmean st) eqn:HR; simpl in H |- *; [|discriminate].
    refine (conj eq_refl (conj eq_refl (conj eq_refl (conj Hm (conj eq_refl _))))).
    left. split; [reflexivity|]. split; [reflexivity|]. discriminate.
  - subst l. simpl in H |- *.
    refine (conj eq_refl (conj eq_refl (conj eq_refl (conj Hm (conj eq_refl _))))).
    right. exists mus. split; [exact H1|]. reflexivity.
Qed.


(** ** fitModel.SetSimulationParameters *)

Section FitModelSettings.

#[local] Arguments existsb : simpl never.

Ltac case_exists H :=
  match goal with |- context [existsb ?f ?l] => destruct (existsb f l) eqn:H end.

Lemma fitModel_SSP_ttotal_written (st : fitModel_state) (cfg : fitModel_config)
    (k : fit_sim_kwargs) (v : pyval) (t : Z) :
  fk_ttotal k = Some v -> py_int_value v = Ok t ->
  fst (fst (fitModel_SetSimulationParameters st cfg k)) = with_ttotal st (PInt t).
Proof.
  intros Hv Ht. unfold fitModel_SetSimulationParameters. rewrite Hv, Ht.
  destruct (match fk_nsteps k with Some v => _ | None => _ end) as [n|e]; [|reflexivity].
  destruct (fk_pathway k) as [p|]; [|reflexivity].
  destruct (negb _); [reflexivity|]. destruct (fk_observable k); reflexivity.
Qed.

(** X12: when [int(ttotal)] is 0 (for example [ttotal = 0.5]), every later [fitModel.Run] raises, whatever the outcome of [SetSimulationParameters] and of the arguments of [Run]. *)
Theorem fitModel_SetSimulationParameters_zero_ttotal (FX : fit_externals) (st : fitModel_state)
    (cfg : fitModel_config) (k : fit_sim_kwargs) (v : pyval) (kw : dict pyval) :
  fk_ttotal k = Some v -> py_int_value v = Ok 0%Z ->
  match fitModel_Run FX (fst (fst (fitModel_SetSimulationParameters st cfg k))) kw with
  | Ok _ => False
  | Err _ => True
  end.
Proof.
  intros Hv Ht. rewrite (fitModel_SSP_ttotal_written st cfg k v 0 Hv Ht).
  unfold fitModel_Run.
  destruct (match dict_get "expratio" kw with Some v => _ | None => _ end); simpl; [|exact I].
  destruct (match dict_get "seed" kw with Some v => _ | None => _ end); simpl; [|exact I].
  destruct (match dict_get "maxiter" kw with Some v => _ | None => _ end); simpl; [|exact I].
  destruct (match dict_get "seed_incrementor" kw with Some v => _ | None => _ end); simpl; [|exact I].
  destruct (match dict_get "seed_decrementor" kw with Some v => _ | None => _ end); simpl; [|exact I].
  destruct (dict_get "target_parameter" kw); simpl; exact I.
Qed.

(** X14: calling [fitModel.SetSimulationParameters] twice with the same arguments has the same effect and outcome as calling it once. *)
Theorem fitModel_SetSimulationParameters_idempotent (st : fitModel_state) (cfg : fitModel_config)
    (k : fit_sim_kwargs) :
  let '(st', cfg') := fst (fitModel_SetSimulationParameters st cfg k) in
  fitModel_SetSimulationParameters st' cfg' k = fitModel_SetSimulationParameters st cfg k.
Proof.
  unfold fitModel_SetSimulationParameters. destruct cfg as [pp ns pw ob].
  destruct k as [kpp kt kn kp ko]. simpl.
  destruct kpp as [d|]; destruct kt as [v|]; simpl; try reflexivity;
  destruct (py_int_value v) as [t|e] eqn:Ht; simpl; try reflexivity;
  rewrite ?Ht; simpl;
  destruct kn as [n|]; simpl;
  try (destruct (py_int_value n) as [z|e'] eqn:Hz; simpl; rewrite ?Hz; simpl);
  try reflexivity;
  destruct kp as [p|]; simpl; try reflexivity;
  case_exists He; simpl; try reflexivity;
  destruct ko; simpl; reflexivity.
Qed.

End FitModelSettings.


(** ** PotencyToDict and inhibition.constants *)

Lemma dict_set_keys_in {V} (k x : string) (v : V) (d : dict V) :
  In x (map fst (dict_set k v d)) -> x = k \/ In x (map fst d).
Proof.
  induction d as [| [k' v'] t IH]; simpl.
  - intros [<- | []]. left; reflexivity.
  - destruct (String.eqb k k') eqn:Hk; simpl.
    + apply String.eqb_eq in Hk; subst k'. intros [<- | H]; auto.
    + intros [<- | H]; [auto|]. destruct (IH H); auto.
Qed.

Lemma dict_set_nodup {V} (k : string) (v : V) (d : dict V) :
  NoDup (map fst d) -> NoDup (map fst (dict_set k v d)).
Proof.
  induction d as [| [k' v'] t IH]; simpl; intros Hnd.
  - constructor; [intros []|constructor].
  - apply NoDup_cons_iff in Hnd as [Hn Hnd].
    destruct (String.eqb k k') eqn:Hk; simpl.
    + apply String.eqb_eq in Hk; subst k'. constructor; assumption.
    + constructor; [|apply IH; exact Hnd].
      intros Hin. destruct (dict_set_keys_in _ _ _ _ Hin) as [-> | H].
      * rewrite String.eqb_refl in Hk. discriminate.
      * contradiction.
Qed.

Lemma dict_get_nodup_in {V} (l : string) (d : V) (pd : dict V) :
  NoDup (map fst pd) -> In (l, d) pd -> dict_get l pd = Some d.
Proof.
  induction pd as [| [k v] t IH]; simpl; intros Hnd Hin; [contradiction|].
  apply NoDup_cons_iff in Hnd as [Hn Hnd].
  destruct Hin as [Heq | Hin].
  - inversion Heq; subst. rewrite String.eqb_refl. reflexivity.
  - destruct (String.eqb_spec l k) as [-> | Hne].
    + exfalso. apply Hn. apply (in_map fst _ _ Hin).
    + apply IH; assumption.
Qed.

Lemma dict_set_new {V} (k : string) (v : V) (d : dict V) :
  ~ In k (map fst d) -> dict_set k v d = app d [(k, v)].
Proof.
  induction d as [| [k' v'] t IH]; simpl; intros Hn; [reflexivity|].
  destruct (String.eqb_spec k k') as [-> | Hne]; [exfalso; apply Hn; left; reflexivity|].
  rewrite IH by (intro; apply Hn; right; assumption). reflexivity.
Qed.

Lemma analysis_nodup (E : externals) msg sd pathway range dose :
  analysis E msg sd pathway range = Ok dose -> NoDup (map fst dose).
Proof.
  destruct sd as [simdata|]; [|discriminate]. destruct range as [r|]; [|discriminate].
  unfold analysis. cbn [rbind].
  destruct (np_amin r) as [mn|]; cbn [rbind]; [|discriminate].
  destruct (np_amax r) as [mx|]; cbn [rbind]; [|discriminate].
  assert (Hacc : NoDup (map fst (@nil (string * dose_entry)))) by constructor.
  revert Hacc. generalize (@nil (string * dose_entry)) as acc.
  induction simdata as [| it t IH]; intros acc Hacc H; simpl in H.
  - inversion H; subst; exact Hacc.
  - destruct (analysis_ligand E pathway r mn mx (snd it)) as [d|e]; cbn [rbind] in H.
    + exact (IH _ (dict_set_nodup _ _ _ Hacc) H).
    + rewrite (fold_err (fun s l => d <- analysis_ligand E pathway r mn mx (snd l) ;;
                                    Ok (dict_set (fst l) d s))) in H. discriminate.
Qed.


Section Potency.
Variables pot_key ppot_key : string.
Hypothesis Hk12 : pot_key <> ppot_key.
Hypothesis Hk1 : ~ In pot_key ["raw_data"; "normalized_data"; "fitted_data"].
Hypothesis Hk2 : ~ In ppot_key ["raw_data"; "normalized_data"; "fitted_data"].

Lemma potency_pair_dose (d : dose_entry) :
  potency_pair (dose_dict pot_key ppot_key d)
  = Ok [(pot_key, DNum (potency d)); (ppot_key, DNum (pPotency d))].
Proof.
  unfold potency_pair, dose_dict, dict_lookup, nth_err. simpl.
  assert (N1 : forall a, In a ["raw_data"; "normalized_data"; "fitted_data"] ->
                 String.eqb pot_key a = false)
    by (intros a Ha; apply String.eqb_neq; intros ->; exact (Hk1 Ha)).
  assert (N2 : forall a, In a ["raw_data"; "normalized_data"; "fitted_data"] ->
                 String.eqb ppot_key a = false)
    by (intros a Ha; apply String.eqb_neq; intros ->; exact (Hk2 Ha)).
  rewrite !N1, !N2 by (simpl; tauto).
  rewrite !String.eqb_refl.
  assert (H21 : String.eqb ppot_key pot_key = false)
    by (apply String.eqb_neq; intros ->; exact (Hk12 eq_refl)).
  rewrite H21. reflexivity.
Qed.

Lemma potency_fold (msg : string) (pd : dict dose_entry) :
  NoDup (map fst pd) ->
  forall post pre, pd = app pre post ->
  fold_left
    (fun acc ligand =>
       kvalues <- acc ;;
       d <- dict_lookup ligand pd ;;
       kv <- potency_pair (dose_dict pot_key ppot_key d) ;;
       Ok (dict_set ligand kv kvalues))
    (map fst post) (Ok (map (potency_entry pot_key ppot_key) pre))
  = Ok (map (potency_entry pot_key ppot_key) pd).
Proof.
  intros Hnd post. induction post as [| [l d] post' IH]; intros pre Hpd.
  - rewrite app_nil_r in Hpd. subst. reflexivity.
  - assert (Hl : dict_lookup l pd = Ok d).
    { unfold dict_lookup.
      rewrite (dict_get_nodup_in l d pd Hnd) by (rewrite Hpd; apply in_or_app; right; left; reflexivity).
      reflexivity. }
    cbn [map fold_left fst]. cbn [rbind]. rewrite Hl. cbn [rbind]. rewrite potency_pair_dose. cbn [rbind].
    rewrite dict_set_new.
    + pose proof (IH (app pre [(l, d)])) as IH'. rewrite map_app in IH'.
      apply IH'. rewrite Hpd, <- app_assoc. reflexivity.
    + rewrite map_map. simpl.
      rewrite Hpd, map_app in Hnd. simpl in Hnd.
      intros Hin. apply (NoDup_remove_2 _ _ _ Hnd). apply in_or_app. left. exact Hin.
Qed.

Lemma PotencyToDict_nodup (msg : string) (pd : dict dose_entry) :
  NoDup (map fst pd) ->
  PotencyToDict msg pot_key ppot_key (Some pd) = Ok (map (potency_entry pot_key ppot_key) pd).
Proof.
  intros Hnd. unfold PotencyToDict. cbn [rbind].
  exact (potency_fold msg pd Hnd pd [] eq_refl).
Qed.

End Potency.

(** X15: after a successful [activation.Analysis], [PotencyToDict] returns, for each ligand in the order of [processed_data], the dict of its EC50 and pEC50. *)
Theorem activation_PotencyToDict_after_Analysis (E : externals) sd pathway range dose :
  activation_Analysis E sd pathway range = Ok dose ->
  activation_PotencyToDict (Some dose) = Ok (map (potency_entry "EC50 (μM)" "pEC50") dose).
Proof.
  intros H. apply PotencyToDict_nodup.
  - discriminate.
  - simpl. intuition discriminate.
  - simpl. intuition discriminate.
  - exact (analysis_nodup _ _ _ _ _ _ H).
Qed.

(** X16: after a successful [inhibition.Analysis], [PotencyToDict] returns, for each antagonist in the order of [processed_data], the dict of its IC50 and pIC50. *)
Theorem inhibition_PotencyToDict_after_Analysis (E : externals) sd pathway range dose :
  inhibition_Analysis E sd pathway range = Ok dose ->
  inhibition_PotencyToDict (Some dose) = Ok (map (potency_entry "IC50 (μM)" "pIC50") dose).
Proof.
  intros H. apply PotencyToDict_nodup.
  - discriminate.
  - simpl. intuition discriminate.
  - simpl. intuition discriminate.
  - exact (analysis_nodup _ _ _ _ _ _ H).
Qed.

(** X17: after a successful [inhibition.Analysis], the first call of [inhibition.constants] returns the IC50/pIC50 dicts and rebinds [self.constants] to them, so a second call raises TypeError. *)
Theorem inhibition_constants_after_Analysis (E : externals) sd pathway range dose :
  inhibition_Analysis E sd pathway range = Ok dose ->
  let o := {| inh_processed_data := Some dose; inh_constants := None |} in
  let kv := map (potency_entry "IC50 (μM)" "pIC50") dose in
  inhibition_constants o = ({| inh_processed_data := Some dose; inh_constants := Some kv |}, Ok kv) /\
  inhibition_constants (fst (inhibition_constants o))
    = (fst (inhibition_constants o), Err (TypeError "'dict' object is not callable")).
Proof.
  intros H o kv.
  assert (H1 : inhibition_constants o
               = ({| inh_processed_data := Some dose; inh_constants := Some kv |}, Ok kv)).
  { unfold inhibition_constants. simpl. rewrite PotencyToDict_nodup.
    - reflexivity.
    - discriminate.
    - simpl. intuition discriminate.
    - simpl. intuition discriminate.
    - exact (analysis_nodup _ _ _ _ _ _ H). }
  split; [exact H1|]. rewrite H1. reflexivity.
Qed.


(** ** Analysis *)

Lemma Qmin_cases (x a : Q) : Qmin x a = x \/ Qmin x a = a.
Proof. unfold Qmin, GenericMinMax.gmin. destruct (Qcompare x a); auto. Qed.

Lemma Qmax_cases (x a : Q) : Qmax x a = x \/ Qmax x a = a.
Proof. unfold Qmax, GenericMinMax.gmax. destruct (Qcompare x a); auto. Qed.

Lemma np_amin_spec (X : list Q) (m : Q) :
  np_amin X = Ok m -> Forall (fun y => m <= y) X /\ In m X.
Proof.
  destruct X as [| x t]; simpl; intros H; [discriminate|]. inversion H; subst m. clear H.
  assert (G : forall t x, fold_left Qmin t x <= x /\ Forall (fun y => fold_left Qmin t x <= y) t /\
                          In (fold_left Qmin t x) (x :: t)).
  { clear. induction t as [| a t IH]; intros x; simpl.
    - split; [apply Qle_refl|]. split; [constructor|]. left; reflexivity.
    - destruct (IH (Qmin x a)) as [H1 [H2 H3]].
      split; [|split].
      + eapply Qle_trans; [exact H1|]. apply Q.le_min_l.
      + constructor; [|exact H2]. eapply Qle_trans; [exact H1|]. apply Q.le_min_r.
      + destruct H3 as [H3 | H3]; [|right; right; exact H3].
        rewrite <- H3. destruct (Qmin_cases x a) as [-> | ->]; auto. }
  destruct (G t x) as [H1 [H2 H3]]. split; [constructor; assumption | exact H3].
Qed.

Lemma np_amax_spec (X : list Q) (m : Q) :
  np_amax X = Ok m -> Forall (fun y => y <= m) X /\ In m X.
Proof.
  destruct X as [| x t]; simpl; intros H; [discriminate|]. inversion H; subst m. clear H.
  assert (G : forall t x, x <= fold_left Qmax t x /\ Forall (fun y => y <= fold_left Qmax t x) t /\
                          In (fold_left Qmax t x) (x :: t)).
  { clear. induction t as [| a t IH]; intros x; simpl.
    - split; [apply Qle_refl|]. split; [constructor|]. left; reflexivity.
    - destruct (IH (Qmax x a)) as [H1 [H2 H3]].
      split; [|split].
      + eapply Qle_trans; [|exact H1]. apply Q.le_max_l.
      + constructor; [|exact H2]. eapply Qle_trans; [|exact H1]. apply Q.le_max_r.
      + destruct H3 as [H3 | H3]; [|right; right; exact H3].
        rewrite <- H3. destruct (Qmax_cases x a) as [-> | ->]; auto. }
  destruct (G t x) as [H1 [H2 H3]]. split; [constructor; assumption | exact H3].
Qed.

Lemma minmax_scale_unit (X Y : list Q) :
  minmax_scale X = Ok Y ->
  Forall (fun y => 0 <= y <= 1) Y /\ Exists (fun y => y == 0) Y.
Proof.
  unfold minmax_scale. intros H.
  destruct (np_amin X) as [m|] eqn:Hm; cbn [rbind] in H; [|discriminate].
  destruct (np_amax X) as [M|] eqn:HM; cbn [rbind] in H; [|discriminate].
  inversion H; subst Y. clear H.
  destruct (np_amin_spec X m Hm) as [Fm Im].
  destruct (np_amax_spec X M HM) as [FM IM].
  assert (Heps : 10 * float_eps < 1) by (unfold float_eps; reflexivity).
  split.
  - apply Forall_map. rewrite Forall_forall in Fm, FM |- *. intros x Hx.
    pose proof (Fm x Hx) as A. pose proof (FM x Hx) as B. cbv beta in A, B |- *.
    destruct (Qlt_le_dec (M - m) (10 * float_eps)) as [Hr | Hr].
    + split; lra.
    + assert (Hf : 0 < float_eps) by reflexivity.
      assert (Hpos : 0 < M - m) by lra.
      assert (Hs : x * / (M - m) + (0 - m * / (M - m)) == (x - m) / (M - m))
        by (field; lra).
      rewrite Hs. split.
      * apply Qle_shift_div_l; [exact Hpos|]. lra.
      * apply Qle_shift_div_r; [exact Hpos|]. lra.
  - apply Exists_exists. exists (m * (if Qlt_le_dec (M - m) (10 * float_eps) then 1 else / (M - m))
                              + (0 - m * (if Qlt_le_dec (M - m) (10 * float_eps) then 1 else / (M - m)))).
    split; [apply (in_map (fun x => _) X m Im) | ring].
Qed.

Lemma dict_set_keys {V} (k : string) (v : V) (d : dict V) :
  map fst (dict_set k v d) =
  if existsb (String.eqb k) (map fst d) then map fst d else app (map fst d) [k].
Proof.
  induction d as [| [k' v'] t IH]; simpl; [reflexivity|].
  destruct (String.eqb k k') eqn:Hk; simpl.
  - apply String.eqb_eq in Hk; subst; reflexivity.
  - rewrite IH. destruct (existsb (String.eqb k) (map fst t)); reflexivity.
Qed.

Lemma dict_set_in {V} (k k' : string) (v v' : V) (d : dict V) :
  In (k', v') (dict_set k v d) -> (k', v') = (k, v) \/ In (k', v') d.
Proof.
  induction d as [| [k0 v0] t IH]; simpl.
  - intros [H | []]. left; symmetry; exact H.
  - destruct (String.eqb k k0); simpl.
    + intros [H | H]; [left; symmetry; exact H | right; right; exact H].
    + intros [H | H]; [right; left; exact H|]. destruct (IH H); auto.
Qed.

Section FoldSet.
Context {V W : Type} (f : dict V -> W -> result (dict V)) (key : W -> string)
        (R : W -> V -> Prop).
Hypothesis f_sets : forall s l s', f s l = Ok s' -> exists v, R l v /\ s' = dict_set (key l) v s.

Lemma fold_set_keys (ls : list W) : forall s s',
  fold_left (fun acc l => rbind acc (fun s0 => f s0 l)) ls (Ok s) = Ok s' ->
  map fst s' = app (map fst s) (unique_in_order (map fst s) (map key ls)).
Proof.
  induction ls as [| a t IH]; intros s s' H; simpl in H.
  - inversion H; subst. simpl. rewrite app_nil_r. reflexivity.
  - destruct (f s a) as [s1 | e] eqn:Hf; [| rewrite fold_err in H; discriminate].
    destruct (f_sets _ _ _ Hf) as [v [_ ->]].
    rewrite (IH _ _ H), dict_set_keys. simpl.
    destruct (existsb (String.eqb (key a)) (map fst s)); [reflexivity|].
    rewrite <- app_assoc. reflexivity.
Qed.

Lemma fold_set_values (ls : list W) : forall s s',
  fold_left (fun acc l => rbind acc (fun s0 => f s0 l)) ls (Ok s) = Ok s' ->
  forall k v, In (k, v) s' -> In (k, v) s \/ exists l, In l ls /\ key l = k /\ R l v.
Proof.
  induction ls as [| a t IH]; intros s s' H k v Hin; simpl in H.
  - inversion H; subst. left; exact Hin.
  - destruct (f s a) as [s1 | e] eqn:Hf; [| rewrite fold_err in H; discriminate].
    destruct (f_sets _ _ _ Hf) as [v1 [HR ->]].
    destruct (IH _ _ H k v Hin) as [Hs | [l [Hl [Hk HRl]]]].
    + destruct (dict_set_in _ _ _ _ _ Hs) as [Heq | Hs'].
      * inversion Heq; subst. right. exists a. split; [left; reflexivity|]. split; auto.
      * left; exact Hs'.
    + right. exists l. split; [right; exact Hl|]. split; assumption.
Qed.

Lemma fold_set_all_ok (ls : list W) : forall s s',
  fold_left (fun acc l => rbind acc (fun s0 => f s0 l)) ls (Ok s) = Ok s' ->
  forall l, In l ls -> exists s0 v, R l v /\ f s0 l = Ok (dict_set (key l) v s0).
Proof.
  induction ls as [| a t IH]; intros s s' H l Hl; simpl in H; [destruct Hl|].
  destruct (f s a) as [s1 | e] eqn:Hf; [| rewrite fold_err in H; discriminate].
  destruct Hl as [<- | Hl].
  - destruct (f_sets _ _ _ Hf) as [v [HR Hs]]. exists s, v. split; [exact HR|]. rewrite Hf, Hs. reflexivity.
  - exact (IH _ _ H l Hl).
Qed.

End FoldSet.

Lemma mapM_ok_in {A B} (f : A -> result B) (l : list A) (l' : list B) :
  mapM f l = Ok l' -> forall a, In a l -> exists b, f a = Ok b.
Proof.
  intros H. apply mapM_Forall2 in H. induction H as [| a b l l' Hab _ IH]; intros x Hx; [destruct Hx|].
  destruct Hx as [<- | Hx]; [exists b; exact Hab | exact (IH x Hx)].
Qed.

Lemma normalize_length (pathway : string) (N : nat) (sd : list (dict value)) (raw norm : list Q) :
  normalize pathway N sd = Ok (raw, norm) -> (N <= List.length sd)%nat.
Proof.
  unfold normalize. intros H.
  destruct (readout pathway) as [[m inv] | e]; cbn [rbind] in H; [|discriminate].
  destruct (mapM (raw_point sd m) (seq 0 N)) as [r|e] eqn:Hr; cbn [rbind] in H; [|discriminate].
  destruct N as [|N]; [lia|].
  destruct (mapM_ok_in _ _ _ Hr N) as [b Hb]; [apply in_seq; lia|].
  unfold raw_point, nth_err in Hb.
  destruct (nth_error sd N) eqn:Hn; cbn [rbind] in Hb; [|discriminate].
  assert (N < List.length sd)%nat by (apply nth_error_Some; congruence). lia.
Qed.

Lemma normalize_minmax (pathway : string) (N : nat) (sd : list (dict value)) (raw norm : list Q) :
  normalize pathway N sd = Ok (raw, norm) -> exists X, minmax_scale X = Ok norm.
Proof.
  unfold normalize. intros H.
  destruct (readout pathway) as [[m inv] | e]; cbn [rbind] in H; [|discriminate].
  destruct (mapM (raw_point sd m) (seq 0 N)) as [r|e] eqn:Hr; cbn [rbind] in H; [|discriminate].
  destruct (minmax_scale _) as [n|e] eqn:Hs; cbn [rbind] in H; [|discriminate].
  inversion H; subst. eexists; exact Hs.
Qed.

Lemma analysis_fold_sets (E : externals) pathway range mn mx :
  forall s (item : string * ligand_data) s',
  (d <- analysis_ligand E pathway range mn mx (snd item) ;; Ok (dict_set (fst item) d s)) = Ok s' ->
  exists v, analysis_ligand E pathway range mn mx (snd item) = Ok v /\ s' = dict_set (fst item) v s.
Proof.
  intros s item s' H. destruct (analysis_ligand E pathway range mn mx (snd item)) as [d|e];
    cbn [rbind] in H; [|discriminate]. inversion H; subst. exists d; split; reflexivity.
Qed.

Lemma minmax_scale_length (X Y : list Q) :
  minmax_scale X = Ok Y -> List.length Y = List.length X.
Proof.
  unfold minmax_scale. intros H.
  destruct (np_amin X); cbn [rbind] in H; [|discriminate].
  destruct (np_amax X); cbn [rbind] in H; [|discriminate].
  inversion H; subst Y. apply length_map.
Qed.

Lemma normalize_norm_length (pathway : string) (N : nat) (sd : list (dict value)) (raw norm : list Q) :
  normalize pathway N sd = Ok (raw, norm) -> List.length norm = N.
Proof.
  unfold normalize. intros H.
  destruct (readout pathway) as [[m inv] | e]; cbn [rbind] in H; [|discriminate].
  destruct (mapM (raw_point sd m) (seq 0 N)) as [r|e] eqn:Hr; cbn [rbind] in H; [|discriminate].
  destruct (minmax_scale _) as [n|e] eqn:Hs; cbn [rbind] in H; [|discriminate].
  inversion H; subst n.
  apply minmax_scale_length in Hs. rewrite Hs.
  apply mapM_Forall2, Forall2_length in Hr. rewrite length_seq in Hr.
  destruct inv; [rewrite length_map|]; symmetry; exact Hr.
Qed.

(** X18: the normalized data [Analysis] stores for each ligand has one value per concentration point, and one of them is 0: the lowest response (the highest for ['Gi']) maps to 0. *)
Theorem analysis_normalized_has_zero (E : externals) msg sd pathway range dose :
  analysis E msg sd pathway (Some range) = Ok dose ->
  forall ligand d, In (ligand, d) dose ->
  List.length (normalized_y d) = List.length range /\ Exists (fun y => y == 0) (normalized_y d).
Proof.
  intros H ligand d Hin. destruct sd as [simdata|]; [|discriminate].
  unfold analysis in H. cbn [rbind] in H.
  destruct (np_amin range) as [mn|]; cbn [rbind] in H; [|discriminate].
  destruct (np_amax range) as [mx|]; cbn [rbind] in H; [|discriminate].
  destruct (fold_set_values _ fst _ (analysis_fold_sets E pathway range mn mx) simdata [] dose H ligand d Hin)
    as [[] | [item [_ [_ Hd]]]].
  destruct (analysis_ligand_unfold E pathway range mn mx (snd item) d Hd)
    as (raw & norm & problem & p & Hn & _ & _ & _ & -> & _).
  split; [exact (normalize_norm_length _ _ _ _ _ Hn) |].
  destruct (normalize_minmax _ _ _ _ _ Hn) as [X HX].
  exact (proj2 (minmax_scale_unit X norm HX)).
Qed.

(** X19: [Analysis] succeeds only if every ligand of the simulation data has at least as many recorded entries as the concentration range has points. *)
Theorem analysis_requires_full_sweep (E : externals) msg simdata pathway range dose :
  analysis E msg (Some simdata) pathway (Some range) = Ok dose ->
  forall ligand ld, In (ligand, ld) simdata -> (List.length range <= List.length (sim_data ld))%nat.
Proof.
  intros H ligand ld Hin. unfold analysis in H. cbn [rbind] in H.
  destruct (np_amin range) as [mn|]; cbn [rbind] in H; [|discriminate].
  destruct (np_amax range) as [mx|]; cbn [rbind] in H; [|discriminate].
  destruct (fold_set_all_ok _ fst _ (analysis_fold_sets E pathway range mn mx) simdata [] dose H _ Hin)
    as [s0 [v [Hv _]]].
  destruct (analysis_ligand_unfold E pathway range mn mx ld v Hv) as (raw & norm & _ & _ & Hn & _).
  exact (normalize_length _ _ _ _ _ Hn).
Qed.

(** X20: the ligands of [processed_data] are the distinct ligands of the simulation data, in order of first appearance. *)
Theorem analysis_keys (E : externals) msg simdata pathway range dose :
  analysis E msg (Some simdata) pathway (Some range) = Ok dose ->
  map fst dose = unique_in_order [] (map fst simdata).
Proof.
  intros H. unfold analysis in H. cbn [rbind] in H.
  destruct (np_amin range) as [mn|]; cbn [rbind] in H; [|discriminate].
  destruct (np_amax range) as [mx|]; cbn [rbind] in H; [|discriminate].
  exact (fold_set_keys _ fst _ (analysis_fold_sets E pathway range mn mx) simdata [] dose H).
Qed.


(** ** activation.Run and inhibition.Run *)

Lemma activation_check_inputs_ok (s : activation_state) :
  activation_check_inputs s = Ok tt ->
  (act_binding_kinetics s = true /\ act_affinities s = None) \/
  ((exists r, act_lig_conc_range s = Some r /\ np_any r = true) /\
   (act_binding_kinetics s = false -> act_affinities s <> None)).
Proof.
  unfold activation_check_inputs. intros H.
  destruct (act_ligands s); [|discriminate]. destruct (act_pathway s); [|discriminate].
  destruct (act_binding_kinetics s), (act_affinities s); simpl in H; try discriminate;
    try (left; split; reflexivity);
  destruct (act_lig_conc_range s) as [r|]; try discriminate;
  destruct (np_any r) eqn:Ha; simpl in H; try discriminate;
  right; (split; [exists r; split; [reflexivity | exact Ha] | intros; discriminate]).
Qed.

Lemma np_any_nonempty (r : list Q) : np_any r = true -> exists c r', r = c :: r'.
Proof. destruct r as [| c r']; [discriminate | eauto]. Qed.

(** X21: the keys of [activation.Run]'s simulation data are the distinct [splitext] roots of the ligand names in order of first appearance, and each entry's label is its key. *)
Theorem activation_Run_keys (E : externals) (s : activation_state) (sd : dict ligand_data) :
  activation_Run E s = Ok sd ->
  exists ligands, act_ligands s = Some ligands /\
    map fst sd = unique_in_order [] (map (splitext_root E) ligands) /\
    (forall name v, In (name, v) sd -> label v = name).
Proof.
  intros HRun. unfold activation_Run in HRun. unbind HRun.
  apply need_ok in Hm5. exists a5. split; [exact Hm5|].
  set (f := fun sd0 ligand =>
         data <- mapM (activation_point E s a1 a4 a5 ligand) a6 ;;
         Ok (dict_set (splitext_root E ligand)
               {| sim_data := data; label := splitext_root E ligand |} sd0)).
  assert (Hf : forall s0 l s', f s0 l = Ok s' ->
            exists v, label v = splitext_root E l /\ s' = dict_set (splitext_root E l) v s0).
  { intros s0 l s' H. unfold f in H. unbind H. inversion H; subst.
    eexists; split; [| reflexivity]; reflexivity. }
  split.
  - exact (fold_set_keys f (splitext_root E) _ Hf a5 [] sd HRun).
  - intros name v Hin.
    destruct (fold_set_values f (splitext_root E) _ Hf a5 [] sd HRun name v Hin)
      as [[] | [l [_ [Hk Hl]]]].
    rewrite Hl, Hk. reflexivity.
Qed.

(** X22: the keys of [inhibition.Run]'s simulation data are the distinct [splitext] roots of the antagonist names in order of first appearance, and each entry's label is the agonist, " + " and its key. *)
Theorem inhibition_Run_keys (E : externals) (s : inhibition_state) (sd : dict ligand_data) :
  inhibition_Run E s = Ok sd ->
  exists agonist antagonists,
    inh_agonist s = Some agonist /\ inh_antagonists s = Some antagonists /\
    map fst sd = unique_in_order [] (map (splitext_root E) antagonists) /\
    (forall name v, In (name, v) sd -> label v = agonist ++ " + " ++ name).
Proof.
  intros HRun. unfold inhibition_Run in HRun. unbind HRun.
  apply need_ok in Hm5, Hm6. exists a5, a6. split; [exact Hm5|]. split; [exact Hm6|].
  set (f := fun sd0 ligand =>
         data <- mapM (inhibition_point E s a1 a4 a6 ligand) a7 ;;
         Ok (dict_set (splitext_root E ligand)
               {| sim_data := data; label := a5 ++ " + " ++ splitext_root E ligand |} sd0)).
  assert (Hf : forall s0 l s', f s0 l = Ok s' ->
            exists v, label v = a5 ++ " + " ++ splitext_root E l /\
                      s' = dict_set (splitext_root E l) v s0).
  { intros s0 l s' H. unfold f in H. unbind H. inversion H; subst.
    eexists; split; [| reflexivity]; reflexivity. }
  split.
  - exact (fold_set_keys f (splitext_root E) _ Hf a6 [] sd HRun).
  - intros name v Hin.
    destruct (fold_set_values f (splitext_root E) _ Hf a6 [] sd HRun name v Hin)
      as [[] | [l [_ [Hk Hl]]]].
    rewrite Hl, Hk. reflexivity.
Qed.

(** X23: a successful [activation.Run] had either kinetic binding without affinities, or a concentration range with a non-zero value; in the latter case without kinetic binding, every ligand has an affinity at its position in the ligand list. *)
Theorem activation_Run_ok_inputs (E : externals) (s : activation_state) (sd : dict ligand_data) :
  activation_Run E s = Ok sd ->
  (act_binding_kinetics s = true /\ act_affinities s = None) \/
  (exists range ligands,
     act_lig_conc_range s = Some range /\ np_any range = true /\ act_ligands s = Some ligands /\
     (act_binding_kinetics s = false ->
      exists affs, act_affinities s = Some affs /\
        forall l, In l ligands ->
          exists i a, list_index l ligands = Ok i /\ nth_error affs i = Some a)).
Proof.
  intros HRun. unfold activation_Run in HRun. unbind HRun.
  destruct a. destruct (activation_check_inputs_ok s Hm) as [Hk | [[r [Hr Ha]] Hkf]];
    [left; exact Hk | right].
  apply need_ok in Hm5, Hm6. rewrite Hr in Hm6. inversion Hm6; subst a6.
  exists r, a5. split; [exact Hr|]. split; [exact Ha|]. split; [exact Hm5|].
  intros Hkin. destruct (act_affinities s) as [affs|] eqn:Haf; [|exfalso; exact (Hkf Hkin eq_refl)].
  exists affs. split; [reflexivity|]. intros l Hl.
  set (f := fun sd0 ligand =>
         data <- mapM (activation_point E s a1 a4 a5 ligand) r ;;
         Ok (dict_set (splitext_root E ligand)
               {| sim_data := data; label := splitext_root E ligand |} sd0)).
  assert (Hf : forall s0 l s', f s0 l = Ok s' ->
            exists v, mapM (activation_point E s a1 a4 a5 l) r
                        = Ok (sim_data v) /\ s' = dict_set (splitext_root E l) v s0).
  { intros s0 l0 s' H. unfold f in H. unbind H. inversion H; subst.
    match goal with |- exists v, Ok ?d = _ /\ _ =>
      exists {| sim_data := d; label := splitext_root E l0 |}; split; reflexivity end. }
  destruct (fold_set_all_ok f (splitext_root E) _ Hf a5 [] sd HRun l Hl) as [s0 [v [Hv _]]].
  destruct (np_any_nonempty r Ha) as [c [r' ->]].
  destruct (mapM_ok_in _ _ _ Hv c (or_introl eq_refl)) as [e He].
  unfold activation_point in He. unbind He. rewrite Hkin in Hm8. cbn [negb] in Hm8. unbind Hm8.
  rewrite Haf in Hm10. cbn [need] in Hm10. inversion Hm10; subst.
  match goal with
  | H : nth_err ?l ?i = Ok ?x |- exists _ _, Ok ?i = Ok _ /\ _ =>
      exists i, x; split; [reflexivity|]; unfold nth_err in H;
      destruct (nth_error l i); congruence
  end.
Qed.

Lemma inhibition_check_inputs_ok (s : inhibition_state) :
  inhibition_check_inputs s = Ok tt ->
  inh_binding_kinetics s = false /\ exists r, inh_lig_conc_range s = Some r /\ np_any r = true.
Proof.
  unfold inhibition_check_inputs. intros H.
  repeat match type of H with
  | context [if is_none ?o then _ else _] => destruct o; simpl in H; [|discriminate]
  end.
  destruct (inh_lig_conc_range s) as [r|]; [|discriminate].
  destruct (np_any r) eqn:Ha; simpl in H; [|discriminate].
  repeat match type of H with
  | context [if is_none ?o then _ else _] => destruct o; simpl in H; [|discriminate]
  end.
  destruct (inh_binding_kinetics s); [discriminate|].
  split; [reflexivity|]. exists r. split; [reflexivity | exact Ha].
Qed.

(** X24: a successful [inhibition.Run] had no kinetic binding, a concentration range with a non-zero value, and an affinity for every antagonist at its position in the antagonist list. *)
Theorem inhibition_Run_ok_inputs (E : externals) (s : inhibition_state) (sd : dict ligand_data) :
  inhibition_Run E s = Ok sd ->
  inh_binding_kinetics s = false /\
  exists range antagonists affs,
    inh_lig_conc_range s = Some range /\ np_any range = true /\
    inh_antagonists s = Some antagonists /\ inh_antagonists_affinities s = Some affs /\
    forall b, In b antagonists ->
      exists i a, list_index b antagonists = Ok i /\ nth_error affs i = Some a.
Proof.
  intros HRun. unfold inhibition_Run in HRun. unbind HRun.
  destruct a. destruct (inhibition_check_inputs_ok s Hm) as [Hk [r [Hr Ha]]].
  split; [exact Hk|].
  apply need_ok in Hm6, Hm7. rewrite Hr in Hm7. inversion Hm7; subst a7.
  destruct (inh_antagonists_affinities s) as [affs|] eqn:Haf.
  2:{ exfalso. unfold inhibition_check_inputs in Hm. rewrite Haf in Hm.
      repeat match type of Hm with
      | context [if is_none ?o then _ else _] => destruct o; simpl in Hm; try discriminate
      end. }
  exists r, a6, affs. split; [exact Hr|]. split; [exact Ha|]. split; [exact Hm6|].
  split; [reflexivity|]. intros b Hb.
  set (f := fun sd0 ligand =>
         data <- mapM (inhibition_point E s a1 a4 a6 ligand) r ;;
         Ok (dict_set (splitext_root E ligand)
               {| sim_data := data; label := a5 ++ " + " ++ splitext_root E ligand |} sd0)).
  assert (Hf : forall s0 l s', f s0 l = Ok s' ->
            exists v, mapM (inhibition_point E s a1 a4 a6 l) r
                        = Ok (sim_data v) /\ s' = dict_set (splitext_root E l) v s0).
  { intros s0 l0 s' H. unfold f in H. unbind H. inversion H; subst.
    match goal with |- exists v, Ok ?d = _ /\ _ =>
      exists {| sim_data := d; label := a5 ++ " + " ++ splitext_root E l0 |}; split; reflexivity end. }
  destruct (fold_set_all_ok f (splitext_root E) _ Hf a6 [] sd HRun b Hb) as [s0 [v [Hv _]]].
  destruct (np_any_nonempty r Ha) as [c [r' ->]].
  destruct (mapM_ok_in _ _ _ Hv c (or_introl eq_refl)) as [e He].
  unfold inhibition_point in He. unbind He.
  rewrite Haf in *. 
  match goal with
  | H0 : need (Some affs) = Ok ?l, H : nth_err ?l ?i = Ok ?x |- exists _ _, Ok ?i = Ok _ /\ _ =>
      cbn [need] in H0; inversion H0; subst l;
      exists i, x; split; [reflexivity|]; unfold nth_err in H;
      destruct (nth_error affs i); congruence
  end.
Qed.

(** X25: the pathway name 'Gz(Gi)' behaves exactly as 'Gi' in [activation.Run], [inhibition.Run] and [Analysis]. *)
Theorem gz_gi_alias (E : externals) (sa : activation_state) (si : inhibition_state)
    (msg : string) (sd : option (dict ligand_data)) (range : option (list Q)) :
  activation_Run E (act_with_pathway sa "Gz(Gi)") = activation_Run E (act_with_pathway sa "Gi") /\
  inhibition_Run E (inh_with_pathway si "Gz(Gi)") = inhibition_Run E (inh_with_pathway si "Gi") /\
  analysis E msg sd "Gz(Gi)" range = analysis E msg sd "Gi" range.
Proof.
  split; [|split]; reflexivity.
Qed.


(** ** KineticTempScale *)

Lemma qltb_true (a b : Q) : qltb a b = true <-> a < b.
Proof.
  unfold qltb. rewrite negb_true_iff. split; intro H.
  - apply Qnot_le_lt. intro H'. apply Qle_bool_iff in H'. congruence.
  - destruct (Qle_bool b a) eqn:E; [|reflexivity].
    apply Qle_bool_iff in E. exfalso. apply (Qlt_not_le _ _ H E).
Qed.

Lemma qltb_false (a b : Q) : qltb a b = false <-> b <= a.
Proof.
  unfold qltb. rewrite negb_false_iff. apply Qle_bool_iff.
Qed.

Lemma Qeq_bool_false (a b : Q) : Qeq_bool a b = false <-> ~ a == b.
Proof.
  split; intro H.
  - intro H'. apply Qeq_bool_iff in H'. congruence.
  - destruct (Qeq_bool a b) eqn:E; [|reflexivity]. apply Qeq_bool_iff in E. contradiction.
Qed.

Lemma round_half_even_wd (q q' : Q) : q == q' -> round_half_even q = round_half_even q'.
Proof.
  intro H. unfold round_half_even.
  assert (Hf : Qfloor q = Qfloor q') by (rewrite H; reflexivity).
  rewrite Hf.
  assert (Hc : Qcompare (q - inject_Z (Qfloor q')) (1 # 2) = Qcompare (q' - inject_Z (Qfloor q')) (1 # 2))
    by (rewrite H; reflexivity).
  rewrite Hc. reflexivity.
Qed.

Lemma py_round_wd (q q' : Q) (n : nat) : q == q' -> py_round q n = py_round q' n.
Proof.
  intro H. unfold py_round. f_equal. apply round_half_even_wd. rewrite H. reflexivity.
Qed.

Lemma R_gas_pos : 0 < R_gas.
Proof. unfold R_gas. reflexivity. Qed.

Ltac qdec :=
  repeat match goal with
  | |- context [qltb ?a ?b] =>
      first [ rewrite (proj2 (qltb_true a b)) by nra
            | rewrite (proj2 (qltb_false a b)) by nra ]
  | |- context [Qeq_bool ?a ?b] =>
      first [ rewrite (proj2 (Qeq_bool_iff a b)) by nra
            | rewrite (proj2 (Qeq_bool_false a b)) by nra ]
  end.

Lemma kts_units (Tu : string) (T1 T2 T1k T2k : Q) :
  (Tu = "K" /\ T1k = T1 /\ T2k = T2) \/
  (Tu = "C" /\ T1k = T1 + (27315 # 100) /\ T2k = T2 + (27315 # 100)) ->
  (if String.eqb Tu "K" then Some (T1, T2)
   else if String.eqb Tu "C" then Some (T1 + (27315 # 100), T2 + (27315 # 100))
   else None) = Some (T1k, T2k).
Proof. intros [[-> [-> ->]] | [-> [-> ->]]]; reflexivity. Qed.

(** X8: for a valid unit, a non-zero [kon], a positive [koff/kon] with a non-zero logarithm and a non-zero first temperature (in Kelvin after conversion), [KineticTempScale] scales both rates by [T2/T1] and rounds them to 3 decimals. *)
Theorem kinetic_temp_scale_factor (E : externals) (kon koff T1 T2 : Q) (Tu : string) (T1k T2k : Q) :
  (Tu = "K" /\ T1k = T1 /\ T2k = T2) \/
  (Tu = "C" /\ T1k = T1 + (27315 # 100) /\ T2k = T2 + (27315 # 100)) ->
  ~ kon == 0 -> 0 < koff / kon -> ~ np_log E (koff / kon) == 0 -> ~ T1k == 0 ->
  KineticTempScale E kon koff T1 T2 Tu =
  KOk (FNum (py_round (kon * (T2k / T1k)) 3)) (FNum (py_round (koff * (T2k / T1k)) 3)).
Proof.
  intros Hu Hkon Hr Hl HT1. unfold KineticTempScale. rewrite (kts_units _ _ _ _ _ Hu).
  rewrite (proj2 (Qeq_bool_false kon 0) Hkon).
  unfold flog. rewrite (proj2 (qltb_true 0 (koff / kon)) Hr).
  set (l := np_log E (koff / kon)) in *.
  pose proof R_gas_pos as HR.
  assert (H1 : ~ - R_gas * T1k * l == 0).
  { intro H. apply Qmult_integral in H as [H | H]; [|contradiction].
    apply Qmult_integral in H as [H | H]; [lra | contradiction]. }
  simpl fscale. cbv zeta.
  assert (Hsf : forall c, fround (fscale c (fdivf (FNum (- R_gas * T2k * l)) (FNum (- R_gas * T1k * l)))) 3
                = FNum (py_round (c * (T2k / T1k)) 3)).
  { intro c. simpl fdivf. unfold fdiv. rewrite (proj2 (Qeq_bool_false _ 0) H1).
    simpl. f_equal. apply py_round_wd. field. split; [exact HT1|].
    split; [intro H; apply H1; rewrite H; ring | lra]. }
  destruct (qltb T1k T2k) eqn:Hlt; [rewrite !Hsf; reflexivity|].
  destruct (qltb T2k T1k) eqn:Hgt; [rewrite !Hsf; reflexivity|].
  apply qltb_false in Hlt. apply qltb_false in Hgt.
  assert (Heq : T2k == T1k) by lra.
  f_equal; f_equal; apply py_round_wd; rewrite Heq; field; exact HT1.
Qed.

(** X9: for positive, different temperatures, [KineticTempScale] returns NaN for both rates when [koff/kon <= 0] (the logarithm is -inf or NaN) or when its logarithm is 0 (the ratio 0/0). *)
Theorem kinetic_temp_scale_nan (E : externals) (kon koff T1 T2 : Q) (Tu : string) (T1k T2k : Q) :
  (Tu = "K" /\ T1k = T1 /\ T2k = T2) \/
  (Tu = "C" /\ T1k = T1 + (27315 # 100) /\ T2k = T2 + (27315 # 100)) ->
  ~ kon == 0 -> 0 < T1k -> 0 < T2k -> ~ T1k == T2k ->
  (koff / kon <= 0 \/ np_log E (koff / kon) == 0) ->
  KineticTempScale E kon koff T1 T2 Tu = KOk FNaN FNaN.
Proof.
  intros Hu Hkon HT1 HT2 Hne Hcase. unfold KineticTempScale. rewrite (kts_units _ _ _ _ _ Hu).
  rewrite (proj2 (Qeq_bool_false kon 0) Hkon).
  pose proof R_gas_pos as HR.
  assert (Hsf : fdivf (fscale (- R_gas * T2k) (flog E (koff / kon)))
                      (fscale (- R_gas * T1k) (flog E (koff / kon))) = FNaN).
  { unfold flog. destruct Hcase as [Hle | Hl].
    - rewrite (proj2 (qltb_false 0 (koff / kon)) Hle).
      destruct (Qeq_bool (koff / kon) 0); [|reflexivity].
      simpl fscale. qdec. reflexivity.
    - destruct (qltb 0 (koff / kon)).
      + simpl. unfold fdiv. set (l := np_log E (koff / kon)) in *.
        rewrite (proj2 (Qeq_bool_iff _ 0)) by (rewrite Hl; ring).
        rewrite (proj2 (qltb_false 0 _)) by (rewrite Hl; lra).
        rewrite (proj2 (qltb_false _ 0)) by (rewrite Hl; lra). reflexivity.
      + destruct (Qeq_bool (koff / kon) 0); [|reflexivity].
        simpl fscale. qdec; try reflexivity; nra. }
  cbv zeta. rewrite Hsf. simpl.
  destruct (qltb T1k T2k) eqn:Hlt; [reflexivity|].
  destruct (qltb T2k T1k) eqn:Hgt; [reflexivity|].
  apply qltb_false in Hlt. apply qltb_false in Hgt. exfalso. apply Hne. lra.
Qed.

(** X10: for equal temperatures and a non-zero [kon], [KineticTempScale] returns both rates unchanged up to rounding to 3 decimals. *)
Theorem kinetic_temp_scale_same_temperature (E : externals) (kon koff T1 T2 : Q) (Tu : string) :
  (Tu = "K" \/ Tu = "C") -> ~ kon == 0 -> T1 == T2 ->
  KineticTempScale E kon koff T1 T2 Tu = KOk (FNum (py_round kon 3)) (FNum (py_round koff 3)).
Proof.
  intros Hu Hkon HT. unfold KineticTempScale.
  destruct Hu as [-> | ->]; simpl String.eqb; cbv iota;
    rewrite (proj2 (Qeq_bool_false kon 0) Hkon); cbv zeta; qdec; reflexivity.
Qed.

(** X11: [KineticTempScale] raises a TypeError for a unit other than 'K' and 'C', and a ZeroDivisionError for a valid unit with [kon = 0]. *)
Theorem kinetic_temp_scale_checks (E : externals) (kon koff T1 T2 : Q) (Tu : string) :
  (Tu <> "K" -> Tu <> "C" ->
   KineticTempScale E kon koff T1 T2 Tu =
   KTypeError "Temperature must me in Kelvin (Tu ='K') or Celsius (Tu='C')") /\
  ((Tu = "K" \/ Tu = "C") -> kon == 0 -> KineticTempScale E kon koff T1 T2 Tu = KZeroDivisionError).
Proof.
  split.
  - intros HK HC. unfold KineticTempScale.
    rewrite (proj2 (String.eqb_neq Tu "K") HK), (proj2 (String.eqb_neq Tu "C") HC).
    reflexivity.
  - intros Hu Hkon. unfold KineticTempScale.
    destruct Hu as [-> | ->]; simpl String.eqb; cbv iota;
      rewrite (proj2 (Qeq_bool_iff kon 0) Hkon); reflexivity.
Qed.


(** ** Witnesses of the properties of the uncovered code *)

Ltac qneq := let H := fresh in intro H; vm_compute in H; discriminate H.

Lemma tau_gromacs_line_roundtrip_witness :
  parse_line (PStr "GROMACS")
    ("==== RAMD ==== GROMACS will be stopped " ++ "after" ++
     String " " (NilZero.string_of_uint (Nat.to_uint 4200) ++ String " " ("steps" ++ ".")))
  = Ok (Z.of_nat 4200).
Proof.
  apply (tau_gromacs_line_roundtrip "==== RAMD ==== GROMACS will be stopped " "." " " " " 4200);
    [reflexivity | reflexivity | discriminate | discriminate].
Defined.

Lemma tau_namd_line_roundtrip_witness :
  parse_line (PStr "NAMD")
    ("" ++ "EXIT:" ++
     String " " (NilZero.string_of_uint (Nat.to_uint 4200) ++ String " " (String " " (">" ++ " LIGAND EXIT EVENT"))))
  = Ok (Z.of_nat 4200).
Proof.
  apply (tau_namd_line_roundtrip "" " LIGAND EXIT EVENT" " " " " " " 4200);
    [reflexivity | reflexivity | discriminate | discriminate | discriminate].
Defined.

Lemma tauRAMD_Run_unknown_software_witness :
  snd (tauRAMD_Run ex_tau_externals tauRAMD_init [("prefix", PStr "rep"); ("softwr", PStr "AMBER")])
  = Err (TypeError "ERROR: sofware unknown. options: NAMD, GROMACS").
Proof.
  apply (tauRAMD_Run_unknown_software ex_tau_externals tauRAMD_init
           [("prefix", PStr "rep"); ("softwr", PStr "AMBER")] "rep" (PStr "AMBER")
           (PFloat (2 # 1000000)) (2 # 1000000) "rep1.dat");
    [reflexivity | reflexivity | reflexivity | reflexivity | reflexivity | reflexivity
    | simpl; left; reflexivity | simpl; discriminate].
Defined.

Lemma tauRAMD_Run_no_files_witness :
  let st := tauRAMD_Run ex_tau_externals tauRAMD_init [("prefix", PStr "none")] in
  snd st = Err (AttributeError "_RTmean") /\ tr_RTmean (fst st) = None /\
  tr_RT (fst st) = None /\ tr_times_set (fst st) = Some [].
Proof.
  exact (tauRAMD_Run_no_files ex_tau_externals tauRAMD_init [("prefix", PStr "none")] "none"
           eq_refl eq_refl).
Defined.

Lemma tauRAMD_Run_RT_RTmean_witness :
  tr_RT (fst (tauRAMD_Run ex_tau_externals tauRAMD_init [("prefix", PStr "rep")]))
  = tr_RTmean (fst (tauRAMD_Run ex_tau_externals tauRAMD_init [("prefix", PStr "rep")])).
Proof.
  apply tauRAMD_Run_RT_RTmean. reflexivity.
Defined.

Lemma tauRAMD_Run_success_witness :
  exists p files ts,
    dict_get "prefix" [("prefix", PStr "rep"); ("dt", PFloat (2 # 1000))] = Some (PStr p) /\
    glob_dat ex_tau_externals (p ++ "*.dat") = files /\
    tr_files (fst (tauRAMD_Run ex_tau_externals tauRAMD_init
                     [("prefix", PStr "rep"); ("dt", PFloat (2 # 1000))])) = Some files /\
    mapM (fun f => tau_times (PStr "GROMACS") (PFloat (2 # 1000)) (readlines ex_tau_externals f))
      files = Ok ts /\
    tr_times_set (fst (tauRAMD_Run ex_tau_externals tauRAMD_init
                         [("prefix", PStr "rep"); ("dt", PFloat (2 # 1000))])) = Some ts /\
    ((ts = [] /\ tr_RTmean (fst (tauRAMD_Run ex_tau_externals tauRAMD_init
                                   [("prefix", PStr "rep"); ("dt", PFloat (2 # 1000))]))
                 = tr_RTmean tauRAMD_init /\ tr_RTmean tauRAMD_init <> None) \/
     (exists mus, mapM (replica_mu ex_tau_externals) ts = Ok mus /\
        tr_RTmean (fst (tauRAMD_Run ex_tau_externals tauRAMD_init
                          [("prefix", PStr "rep"); ("dt", PFloat (2 # 1000))]))
        = Some (py_round (qmean (map (fun m => py_round m 1) mus)) 2))).
Proof.
  exact (tauRAMD_Run_success ex_tau_externals tauRAMD_init
           [("prefix", PStr "rep"); ("dt", PFloat (2 # 1000))] ltac:(vm_compute; reflexivity)).
Defined.

Lemma kinetic_temp_scale_factor_witness :
  KineticTempScale ex_externals 2 1 300 310 "K"
  = KOk (FNum (py_round (2 * (310 / 300)) 3)) (FNum (py_round (1 * (310 / 300)) 3)).
Proof.
  apply (kinetic_temp_scale_factor ex_externals 2 1 300 310 "K" 300 310);
    [left; repeat split | qneq | vm_compute; reflexivity | qneq | qneq].
Defined.

Lemma kinetic_temp_scale_nan_witness :
  KineticTempScale ex_externals 2 0 25 37 "C" = KOk FNaN FNaN.
Proof.
  apply (kinetic_temp_scale_nan ex_externals 2 0 25 37 "C" (25 + (27315 # 100)) (37 + (27315 # 100)));
    [right; repeat split | qneq | vm_compute; reflexivity | vm_compute; reflexivity | qneq
    | left; vm_compute; discriminate].
Defined.

Lemma kinetic_temp_scale_same_temperature_witness :
  KineticTempScale ex_externals 2 1 300 300 "K" = KOk (FNum (py_round 2 3)) (FNum (py_round 1 3)).
Proof.
  apply (kinetic_temp_scale_same_temperature ex_externals 2 1 300 300 "K");
    [left; reflexivity | qneq | reflexivity].
Defined.

Lemma kinetic_temp_scale_checks_witness :
  KineticTempScale ex_externals 2 1 300 310 "F"
  = KTypeError "Temperature must me in Kelvin (Tu ='K') or Celsius (Tu='C')" /\
  KineticTempScale ex_externals 0 1 300 310 "C" = KZeroDivisionError.
Proof.
  split.
  - apply (proj1 (kinetic_temp_scale_checks ex_externals 2 1 300 310 "F")); discriminate.
  - apply (proj2 (kinetic_temp_scale_checks ex_externals 0 1 300 310 "C"));
      [right; reflexivity | reflexivity].
Defined.

Lemma fitModel_SetSimulationParameters_zero_ttotal_witness :
  match fitModel_Run ex_fit_externals
          (fst (fst (fitModel_SetSimulationParameters fitModel_init fitModel_config_init
                       ex_fit_sim_kwargs))) ex_kwargs_full with
  | Ok _ => False
  | Err _ => True
  end.
Proof.
  apply (fitModel_SetSimulationParameters_zero_ttotal ex_fit_externals fitModel_init
           fitModel_config_init ex_fit_sim_kwargs (PFloat (1 # 2))); reflexivity.
Defined.

Lemma activation_PotencyToDict_after_Analysis_witness :
  activation_PotencyToDict (Some ex_act_dose)
  = Ok (map (potency_entry "EC50 (μM)" "pEC50") ex_act_dose).
Proof.
  apply (activation_PotencyToDict_after_Analysis ex_externals (Some ex_sim_data) "Gs" (Some ex_range)).
  vm_compute; reflexivity.
Defined.

Lemma inhibition_PotencyToDict_after_Analysis_witness :
  inhibition_PotencyToDict (Some ex_inh_dose)
  = Ok (map (potency_entry "IC50 (μM)" "pIC50") ex_inh_dose).
Proof.
  apply (inhibition_PotencyToDict_after_Analysis ex_externals (Some ex_inh_sim_data) "Gi"
           (Some ex_range)).
  vm_compute; reflexivity.
Defined.

Lemma inhibition_constants_after_Analysis_witness :
  let o := {| inh_processed_data := Some ex_inh_dose; inh_constants := None |} in
  let kv := map (potency_entry "IC50 (μM)" "pIC50") ex_inh_dose in
  inhibition_constants o
    = ({| inh_processed_data := Some ex_inh_dose; inh_constants := Some kv |}, Ok kv) /\
  inhibition_constants (fst (inhibition_constants o))
    = (fst (inhibition_constants o), Err (TypeError "'dict' object is not callable")).
Proof.
  apply (inhibition_constants_after_Analysis ex_externals (Some ex_inh_sim_data) "Gi"
           (Some ex_range)).
  vm_compute; reflexivity.
Defined.

Lemma analysis_normalized_has_zero_witness :
  match ex_act_dose with
  | (_, d) :: _ => List.length (normalized_y d) = List.length ex_range /\
                   Exists (fun y => y == 0) (normalized_y d)
  | [] => False
  end.
Proof.
  pose proof (analysis_normalized_has_zero ex_externals
           "There is no simulation data. simulation.activation.run() must be run first."
           (Some ex_sim_data) "Gs" ex_range ex_act_dose
           ltac:(vm_compute; reflexivity)) as H.
  destruct ex_act_dose as [|[l d] rest] eqn:E; [vm_compute in E; discriminate E|].
  apply (H l d). left. reflexivity.
Defined.

Lemma analysis_requires_full_sweep_witness :
  (List.length ex_range <= List.length (sim_data ex_ld1))%nat.
Proof.
  apply (analysis_requires_full_sweep ex_externals
           "There is no simulation data. simulation.activation.run() must be run first."
           ex_sim_data "Gs" ex_range ex_act_dose (ltac:(vm_compute; reflexivity)) "L1").
  vm_compute. repeat (first [left; reflexivity | right]).
Defined.

Lemma analysis_keys_witness :
  map fst ex_act_dose = unique_in_order [] (map fst ex_sim_data).
Proof.
  apply (analysis_keys ex_externals
           "There is no simulation data. simulation.activation.run() must be run first."
           ex_sim_data "Gs" ex_range).
  vm_compute; reflexivity.
Defined.

Lemma activation_Run_keys_witness :
  exists ligands, act_ligands ex_activation = Some ligands /\
    map fst ex_sim_data = unique_in_order [] (map (splitext_root ex_externals) ligands) /\
    (forall name v, In (name, v) ex_sim_data -> label v = name).
Proof.
  apply (activation_Run_keys ex_externals ex_activation). vm_compute; reflexivity.
Defined.

Lemma inhibition_Run_keys_witness :
  exists agonist antagonists,
    inh_agonist ex_inhibition = Some agonist /\ inh_antagonists ex_inhibition = Some antagonists /\
    map fst ex_inh_sim_data = unique_in_order [] (map (splitext_root ex_externals) antagonists) /\
    (forall name v, In (name, v) ex_inh_sim_data -> label v = agonist ++ " + " ++ name).
Proof.
  apply (inhibition_Run_keys ex_externals ex_inhibition). vm_compute; reflexivity.
Defined.

Lemma activation_Run_ok_inputs_witness :
  (act_binding_kinetics ex_activation = true /\ act_affinities ex_activation = None) \/
  (exists range ligands,
     act_lig_conc_range ex_activation = Some range /\ np_any range = true /\
     act_ligands ex_activation = Some ligands /\
     (act_binding_kinetics ex_activation = false ->
      exists affs, act_affinities ex_activation = Some affs /\
        forall l, In l ligands ->
          exists i a, list_index l ligands = Ok i /\ nth_error affs i = Some a)).
Proof.
  apply (activation_Run_ok_inputs ex_externals ex_activation ex_sim_data). vm_compute; reflexivity.
Defined.

Lemma inhibition_Run_ok_inputs_witness :
  inh_binding_kinetics ex_inhibition = false /\
  exists range antagonists affs,
    inh_lig_conc_range ex_inhibition = Some range /\ np_any range = true /\
    inh_antagonists ex_inhibition = Some antagonists /\
    inh_antagonists_affinities ex_inhibition = Some affs /\
    forall b, In b antagonists ->
      exists i a, list_index b antagonists = Ok i /\ nth_error affs i = Some a.
Proof.
  apply (inhibition_Run_ok_inputs ex_externals ex_inhibition ex_inh_sim_data).
  vm_compute; reflexivity.
Defined.
